(** * ADF-Extractor: a shallow embedding of [initiator.py]

    The script walks an Azure Data Factory pipeline document (a value
    loaded by [json.load]), collects one row per recognised activity and
    writes the rows to a spreadsheet through [ExcelUtils].  This file
    embeds the Python code function by function, keeping the names of the
    source, and then states and proves properties of it.

    Conventions of the embedding:
    - a Python value is a [pyval]; a dict loaded from JSON is an
      association list in key order, because the traversal depends on
      the order of the keys;
    - a Python exception is the [Raise] case of [result]; a function that
      can raise returns a [result];
    - an object mutated in place ([self] of [ExcelUtils] and of
      [ADFPipelineDocGenerator], the style dicts of the formatting
      instructions) is a state that is passed explicitly; the style dicts
      live in a store addressed by object identity, since the merge of
      [_convert_instructions_to_formats] writes into them;
    - a workbook opened for writing is the list of the calls of
      [worksheet.write] made on each sheet; what the spreadsheet library
      does with a call is outside the embedding, and so is the
      [TypeError] it raises for a value it does not take: the properties
      of the cells written are stated for the values it takes ([plain]
      below);
    - a str is the text of its characters below 128; the functions of
      [DBUtility] that need the Django models ([get_table_cls],
      [get_table_columns], [convert_column_type], [bulk_update_orm],
      [extract_table_name]) and the ones of [ExcelUtils] that only hand
      over to xlrd ([read_file], [read_sheet], [row_values],
      [get_uploaded_file_columns]) are not embedded. *)

From stdpp Require Import gmap strings list fin_maps pretty.
From Stdlib Require Import ZArith Ascii.

Open Scope string_scope.
Open Scope list_scope.
Open Scope Z_scope.

(** ** Exceptions *)

Inductive exn : Type :=
| TypeError
| AttributeError
| KeyError
| IndexError
| UnboundLocalError
| RuntimeError
| NameError.

Inductive result (A : Type) : Type :=
| Ok (a : A)
| Raise (e : exn).

Arguments Ok {A} a.
Arguments Raise {A} e.

#[global] Instance result_ret : MRet result := fun A a => Ok a.
#[global] Instance result_bind : MBind result := fun A B f m =>
  match m with
  | Ok a => f a
  | Raise e => Raise e
  end.

Definition is_Ok {A} (r : result A) : bool :=
  match r with Ok _ => true | Raise _ => false end.

(** [for x in xs: body], the body threading a state and able to raise. *)
Fixpoint for_each {A S : Type} (xs : list A) (body : A -> S -> result S) (s : S)
  : result S :=
  match xs with
  | [] => Ok s
  | x :: xs' => s' ← body x s; for_each xs' body s'
  end.

(** The same loop over an object that the body mutates: [None] when the
    loop ends, the exception when the body raises, and in both cases the
    object as the iterations that ran left it. *)
Fixpoint for_each_in_place {A S : Type} (xs : list A) (body : A -> S -> S * option exn)
    (s : S) : S * option exn :=
  match xs with
  | [] => (s, None)
  | x :: xs' =>
      match body x s with
      | (s', None) => for_each_in_place xs' body s'
      | (s', Some e) => (s', Some e)
      end
  end.

(** [enumerate(xs)], counting from [start]. *)
Fixpoint enumerate_from {A : Type} (start : Z) (xs : list A) : list (Z * A) :=
  match xs with
  | [] => []
  | x :: xs' => (start, x) :: enumerate_from (start + 1) xs'
  end.

Definition enumerate {A : Type} (xs : list A) : list (Z * A) := enumerate_from 0 xs.

(** [range(n)] as a list of integers. *)
Definition range (n : nat) : list Z := Z.of_nat <$> seq 0 n.

(** ** Python values *)

(** The values the script handles: what [json.load] yields, tuples (the
    writer tests for them), bytes, and the dates the reader produces.  A
    float is carried by its [repr], the text Python prints for it, which
    identifies a finite float; a [date] or [datetime] by its calendar day.
    The Django values of the original utility ([QuerySet], [Decimal]) are
    outside this type: the script never builds one. *)
#[local] Unset Elimination Schemes.
Inductive pyval : Type :=
| PNone
| PBool (b : bool)
| PInt (z : Z)
| PFloat (repr : string)
| PStr (s : string)
| PList (l : list pyval)
| PTuple (l : list pyval)
| PDict (kvs : list (string * pyval))
| PDate (year month day : Z)
| PBytes (bs : string).
#[local] Set Elimination Schemes.

(** Induction on a value, with the elements of a list, a tuple or a dict
    as smaller values. *)
Section PyvalInduction.

Variable P : pyval -> Prop.
Hypothesis HNone : P PNone.
Hypothesis HBool : forall b, P (PBool b).
Hypothesis HInt : forall z, P (PInt z).
Hypothesis HFloat : forall r, P (PFloat r).
Hypothesis HStr : forall s, P (PStr s).
Hypothesis HList : forall l, Forall P l -> P (PList l).
Hypothesis HTuple : forall l, Forall P l -> P (PTuple l).
Hypothesis HDict : forall kvs, Forall (fun kv => P kv.2) kvs -> P (PDict kvs).
Hypothesis HDate : forall y m d, P (PDate y m d).
Hypothesis HBytes : forall bs, P (PBytes bs).

Fixpoint pyval_ind (v : pyval) : P v :=
  match v with
  | PNone => HNone
  | PBool b => HBool b
  | PInt z => HInt z
  | PFloat r => HFloat r
  | PStr s => HStr s
  | PList l =>
      HList l ((fix go (l : list pyval) : Forall P l :=
                  match l with
                  | [] => @List.Forall_nil pyval P
                  | x :: l' => @List.Forall_cons pyval P x l' (pyval_ind x) (go l')
                  end) l)
  | PTuple l =>
      HTuple l ((fix go (l : list pyval) : Forall P l :=
                   match l with
                   | [] => @List.Forall_nil pyval P
                   | x :: l' => @List.Forall_cons pyval P x l' (pyval_ind x) (go l')
                   end) l)
  | PDict kvs =>
      HDict kvs ((fix go (kvs : list (string * pyval))
                    : Forall (fun kv => P kv.2) kvs :=
                    match kvs with
                    | [] => @List.Forall_nil (string * pyval) (fun kv => P kv.2)
                    | (k, x) :: kvs' =>
                        @List.Forall_cons (string * pyval) (fun kv => P kv.2)
                          (k, x) kvs' (pyval_ind x) (go kvs')
                    end) kvs)
  | PDate y m d => HDate y m d
  | PBytes bs => HBytes bs
  end.

End PyvalInduction.

Module Str.

(** [needle in hay]. *)
Fixpoint contains (needle hay : string) : bool :=
  String.prefix needle hay ||
  match hay with
  | EmptyString => false
  | String _ hay' => contains needle hay'
  end.

(** Indices (from [i]) at which [needle] starts in [hay]. *)
Fixpoint occurrences (needle hay : string) (i : Z) : list Z :=
  (if String.prefix needle hay then [i] else []) ++
  match hay with
  | EmptyString => []
  | String _ hay' => occurrences needle hay' (i + 1)
  end.

(** [hay.rfind(needle)]: the highest index, -1 when there is none. *)
Definition rfind (needle hay : string) : Z :=
  List.last (occurrences needle hay 0) (-1).

Definition len (s : string) : Z := Z.of_nat (String.length s).

(** An index of a slice, as Python normalises it. *)
Definition clamp (n i : Z) : Z :=
  let i' := if i <? 0 then i + n else i in
  Z.max 0 (Z.min n i').

(** [s[start:stop]]. *)
Definition slice (s : string) (start stop : Z) : string :=
  let a := clamp (len s) start in
  let b := clamp (len s) stop in
  String.substring (Z.to_nat a) (Z.to_nat (b - a)) s.

(** [s[start:]]. *)
Definition slice_from (s : string) (start : Z) : string :=
  slice s start (len s).

(** [sep.join(parts)]. *)
Definition join (sep : string) (parts : list string) : string :=
  String.concat sep parts.

(** The one-character strings of [s], as iterating a str yields them. *)
Fixpoint chars (s : string) : list string :=
  match s with
  | EmptyString => []
  | String c s' => String c EmptyString :: chars s'
  end.

(** [n] as text, zero-padded to [width] digits. *)
Definition zfill (width : nat) (n : Z) : string :=
  let d := pretty n in
  String.concat "" (replicate (width - String.length d) "0") +:+ d.

(** The characters below 128: on a text made of them, the operations
    below are those of a str of Python. *)
Definition is_ascii_char (c : ascii) : bool := (Ascii.nat_of_ascii c <? 128)%nat.

Fixpoint is_ascii (s : string) : bool :=
  match s with
  | EmptyString => true
  | String c s' => is_ascii_char c && is_ascii s'
  end.

(** [c.isspace()] for a character below 128: the codes 9 to 13, 28 to 31,
    and the space. *)
Definition is_space (c : ascii) : bool :=
  let n := Ascii.nat_of_ascii c in
  ((9 <=? n)%nat && (n <=? 13)%nat) || ((28 <=? n)%nat && (n <=? 32)%nat).

(** [s.lstrip()], [s.rstrip()] and [s.strip()]. *)
Fixpoint lstrip (s : string) : string :=
  match s with
  | EmptyString => EmptyString
  | String c s' => if is_space c then lstrip s' else s
  end.

Fixpoint rstrip (s : string) : string :=
  match s with
  | EmptyString => EmptyString
  | String c s' =>
      match rstrip s' with
      | EmptyString => if is_space c then EmptyString else String c EmptyString
      | r => String c r
      end
  end.

Definition strip (s : string) : string := rstrip (lstrip s).

(** [c.upper()] for a character below 128. *)
Definition upper_char (c : ascii) : ascii :=
  let n := Ascii.nat_of_ascii c in
  if (97 <=? n)%nat && (n <=? 122)%nat then Ascii.ascii_of_nat (n - 32) else c.

(** [s.upper()]. *)
Fixpoint upper (s : string) : string :=
  match s with
  | EmptyString => EmptyString
  | String c s' => String (upper_char c) (upper s')
  end.

(** [s.split(sep)] for a separator that is not empty, read from the
    left: [piece] is the text since the last cut, and [skip] counts the
    characters of a separator found that are still to be passed. *)
Fixpoint split_from (sep : string) (skip : nat) (piece : string) (s : string)
  : list string :=
  match s with
  | EmptyString => [piece]
  | String c s' =>
      match skip with
      | S k => split_from sep k piece s'
      | O =>
          if String.prefix sep s
          then piece :: split_from sep (String.length sep - 1) EmptyString s'
          else split_from sep 0 (piece +:+ String c EmptyString) s'
      end
  end.

Definition split (sep : string) (s : string) : list string :=
  split_from sep 0 EmptyString s.

End Str.

Module Py.

(** Truth value of a value, as [if v:], [not v] and [or] take it. *)
Definition truthy (v : pyval) : bool :=
  match v with
  | PNone => false
  | PBool b => b
  | PInt z => negb (z =? 0)
  | PFloat r => negb (String.eqb r "0.0" || String.eqb r "-0.0")
  | PStr s => negb (String.eqb s "")
  | PList l | PTuple l => negb (Nat.eqb (length l) 0)
  | PDict kvs => negb (Nat.eqb (length kvs) 0)
  | PDate _ _ _ => true
  | PBytes bs => negb (String.eqb bs "")
  end.

(** [a or b]. *)
Definition or_ (a b : pyval) : pyval := if truthy a then a else b.

(** Lookup in a dict given as an association list; [json.load] yields
    no repeated key. *)
Fixpoint assoc (k : string) (kvs : list (string * pyval)) : option pyval :=
  match kvs with
  | [] => None
  | (k', v) :: kvs' => if String.eqb k k' then Some v else assoc k kvs'
  end.

(** [d.get(k, default)] on a dict. *)
Definition dict_get (kvs : list (string * pyval)) (k : string) (default : pyval)
  : pyval :=
  match assoc k kvs with Some v => v | None => default end.

(** [v.get(k, default)] on any value: only a dict has [get]. *)
Definition get (v : pyval) (k : string) (default : pyval) : result pyval :=
  match v with
  | PDict kvs => Ok (dict_get kvs k default)
  | _ => Raise AttributeError
  end.

(** [v[0]]. *)
Definition item0 (v : pyval) : result pyval :=
  match v with
  | PList (x :: _) | PTuple (x :: _) => Ok x
  | PList [] | PTuple [] => Raise IndexError
  | PStr s =>
      match s with
      | EmptyString => Raise IndexError
      | String c _ => Ok (PStr (String c EmptyString))
      end
  | PBytes bs =>
      match bs with
      | EmptyString => Raise IndexError
      | String c _ => Ok (PInt (Z.of_nat (Ascii.nat_of_ascii c)))
      end
  | PDict _ => Raise KeyError
  | _ => Raise TypeError
  end.

(** [for x in v]: the values the iteration yields. *)
Definition iter (v : pyval) : result (list pyval) :=
  match v with
  | PList l | PTuple l => Ok l
  | PDict kvs => Ok ((fun kv => PStr kv.1) <$> kvs)
  | PStr s => Ok (PStr <$> Str.chars s)
  | PBytes bs => Ok ((fun c => PInt (Z.of_nat (Ascii.nat_of_ascii c))) <$> String.list_ascii_of_string bs)
  | _ => Raise TypeError
  end.

Definition is_str (v : pyval) : bool := match v with PStr _ => true | _ => false end.
Definition is_dict (v : pyval) : bool := match v with PDict _ => true | _ => false end.
Definition is_list (v : pyval) : bool := match v with PList _ => true | _ => false end.

(** [v == s] for a str literal [s]: only an equal str is equal to it. *)
Definition eq_str (v : pyval) (s : string) : bool :=
  match v with PStr s' => String.eqb s' s | _ => false end.

(** [a + b] where [a] is a str: [b] must be a str. *)
Definition str_add (a : string) (b : pyval) : result string :=
  match b with PStr s => Ok (a +:+ s) | _ => Raise TypeError end.

End Py.

(** ** [str] and [repr] *)

Module Repr.

Definition hex_digit (n : nat) : string :=
  String.substring n 1 "0123456789abcdef".

(** One character inside a quoted str, [quote] being the quote in use. *)
Definition escape_char (quote : ascii) (c : ascii) : string :=
  let n := Ascii.nat_of_ascii c in
  if Ascii.eqb c "\"%char then "\\"
  else if Ascii.eqb c quote then String "\"%char (String c EmptyString)
  else if Nat.eqb n 10 then "\n"
  else if Nat.eqb n 13 then "\r"
  else if Nat.eqb n 9 then "\t"
  else if (n <? 32)%nat || Nat.eqb n 127
    then "\x" +:+ hex_digit (n / 16) +:+ hex_digit (n mod 16)
  else String c EmptyString.

Fixpoint escape (quote : ascii) (s : string) : string :=
  match s with
  | EmptyString => EmptyString
  | String c s' => escape_char quote c +:+ escape quote s'
  end.

(** The double quote, as a text. *)
Definition double_quote : string := String (Ascii.ascii_of_nat 34) EmptyString.

(** [repr(s)] of a str: single quotes, unless the text holds a single
    quote and no double quote. *)
Definition repr_str (s : string) : string :=
  if Str.contains "'" s && negb (Str.contains double_quote s)
  then double_quote +:+ escape (Ascii.ascii_of_nat 34) s +:+ double_quote
  else "'" +:+ escape "'"%char s +:+ "'".

Definition date_text (y m d : Z) : string :=
  Str.zfill 4 y +:+ "-" +:+ Str.zfill 2 m +:+ "-" +:+ Str.zfill 2 d.

Fixpoint repr (v : pyval) : string :=
  match v with
  | PNone => "None"
  | PBool true => "True"
  | PBool false => "False"
  | PInt z => pretty z
  | PFloat r => r
  | PStr s => repr_str s
  | PList l => "[" +:+ Str.join ", " (List.map repr l) +:+ "]"
  | PTuple l =>
      match l with
      | [x] => "(" +:+ repr x +:+ ",)"
      | _ => "(" +:+ Str.join ", " (List.map repr l) +:+ ")"
      end
  | PDict kvs =>
      "{" +:+ Str.join ", "
               (List.map (fun kv => match kv with
                                    | (k, x) => repr_str k +:+ ": " +:+ repr x
                                    end) kvs) +:+ "}"
  | PDate y m d => "datetime.date(" +:+ pretty y +:+ ", " +:+ pretty m +:+ ", "
                     +:+ pretty d +:+ ")"
  | PBytes bs => "b" +:+ repr_str bs
  end.

(** [str(v)], which is also what ['{}'.format(v)] inserts. *)
Definition str (v : pyval) : string :=
  match v with
  | PStr s => s
  | PDate y m d => date_text y m d
  | _ => repr v
  end.

End Repr.

(** ** Equality of values ([==]) *)

Module Eq.

(** The number written by a run of decimal digits. *)
Fixpoint digits_value (acc : Z) (s : string) : option Z :=
  match s with
  | EmptyString => Some acc
  | String c s' =>
      let n := Ascii.nat_of_ascii c in
      if (48 <=? n)%nat && (n <=? 57)%nat
      then digits_value (10 * acc + Z.of_nat (n - 48)) s'
      else None
  end.

(** [s] cut at the first [sep]: the text before it and the text after it. *)
Fixpoint cut (sep : ascii) (s : string) : string * option string :=
  match s with
  | EmptyString => (EmptyString, None)
  | String c s' =>
      if Ascii.eqb c sep then (EmptyString, Some s')
      else let '(a, b) := cut sep s' in (String c a, b)
  end.

Definition signed_value (s : string) : option Z :=
  match s with
  | String "-"%char s' => Z.opp <$> digits_value 0 s'
  | String "+"%char s' => digits_value 0 s'
  | _ => digits_value 0 s
  end.

(** The number the text of a float writes, as the fraction [p / q]
    of two natural numbers and a sign; [None] for [inf] and [nan]. *)
Definition decimal (r : string) : option (bool * Z * Z) :=
  let '(neg, body) := match r with
                      | String "-"%char r' => (true, r')
                      | _ => (false, r)
                      end in
  let '(mant, ex) := cut "e"%char body in
  let '(ip, fp) := cut "."%char mant in
  let fp := default EmptyString fp in
  m ← digits_value 0 (ip +:+ fp);
  e ← match ex with Some t => signed_value t | None => Some 0 end;
  let e' := e - Str.len fp in
  Some (neg, m * 10 ^ Z.max e' 0, 10 ^ Z.max (- e') 0).

(** The double nearest to [p / q], as [n * 2 ^ u] with [n] below
    [2 ^ 53] or equal to it: [u] is the exponent of the last bit of the
    53 a double keeps (no less than -1074, where the doubles end), and
    [n] is [p / (q * 2 ^ u)] rounded to the nearest integer, to the even
    one from half way. *)
Definition nearest_double (p q : Z) : Z * Z :=
  let k0 := Z.log2 p - Z.log2 q in
  let k := if (if 0 <=? k0 then q * 2 ^ k0 <=? p else q <=? p * 2 ^ (- k0))
           then k0 else k0 - 1 in
  let u := Z.max (k - 52) (-1074) in
  let num := if 0 <=? u then p else p * 2 ^ (- u) in
  let den := if 0 <=? u then q * 2 ^ u else q in
  let n := num / den in
  let rem := num mod den in
  let n := if (den <? 2 * rem) || ((den =? 2 * rem) && Z.odd n) then n + 1 else n in
  (n, u).

(** The integer a float equals: the float is the double nearest to the
    number its repr writes, and [==] compares its exact value.  [None]
    for a float that is no integer (and for [inf] and [nan]). *)
Definition float_int_value (r : string) : option Z :=
  '(neg, p, q) ← decimal r;
  v ← (if p =? 0 then Some 0
       else let '(n, u) := nearest_double p q in
            if 0 <=? u then Some (n * 2 ^ u)
            else if n mod 2 ^ (- u) =? 0 then Some (n / 2 ^ (- u)) else None);
  Some (if (neg : bool) then - v else v).

(** A number up to [==]: the integer it equals, or the repr of a float
    that is no integer. *)
Definition number (v : pyval) : option (Z + string) :=
  match v with
  | PBool b => Some (inl (if b then 1 else 0))
  | PInt z => Some (inl z)
  | PFloat r =>
      if String.eqb r "nan" then None
      else Some (match float_int_value r with Some z => inl z | None => inr r end)
  | _ => None
  end.

Fixpoint py_eq (a b : pyval) : bool :=
  match a, b with
  | PNone, PNone => true
  | (PBool _ | PInt _ | PFloat _), _ =>
      match number a, number b with
      | Some x, Some y => bool_decide (x = y)
      | _, _ => false
      end
  | PStr s, PStr t => String.eqb s t
  | PBytes s, PBytes t => String.eqb s t
  | PDate y m d, PDate y' m' d' => (y =? y') && (m =? m') && (d =? d')
  | PList l, PList l' | PTuple l, PTuple l' =>
      (fix go (xs ys : list pyval) : bool :=
         match xs, ys with
         | [], [] => true
         | x :: xs', y :: ys' => py_eq x y && go xs' ys'
         | _, _ => false
         end) l l'
  | PDict kvs, PDict kvs' =>
      Nat.eqb (length kvs) (length kvs') &&
      (fix go (xs : list (string * pyval)) : bool :=
         match xs with
         | [] => true
         | (k, x) :: xs' =>
             match Py.assoc k kvs' with
             | Some y => py_eq x y && go xs'
             | None => false
             end
         end) kvs
  | _, _ => false
  end.

(** [a != b]. *)
Definition py_ne (a b : pyval) : bool := negb (py_eq a b).

End Eq.

(** ** [DBUtility] *)

Module DBUtility.

(** [strftime('%m/%d/%Y')] of a date whose year has four digits (what
    [%Y] gives for a year below 1000 depends on the platform). *)
Definition strftime_mdY (y m d : Z) : string :=
  Str.zfill 2 m +:+ "/" +:+ Str.zfill 2 d +:+ "/" +:+ Str.zfill 4 y.

(** [DBUtility.serialize]: a date becomes text, a str, int, dict, bool or
    float passes through, everything else becomes [None]. *)
Definition serialize (obj : pyval) : pyval :=
  match obj with
  | PDate y m d => PStr (strftime_mdY y m d)
  | PStr _ | PInt _ | PDict _ | PBool _ | PFloat _ => obj
  | _ => PNone
  end.

(** What [convert_to_human_name] raises. *)
Inductive name_error : Type :=
| ValueError
| IndexError.

(** The outcome of [convert_to_human_name]. *)
Inductive human_name : Type :=
| Name (s : string)
| Raises (e : name_error).

(** The body of the loop over the words: a word of one character is put
    in upper case, any other word gets its first character in upper
    case, which an empty word does not have. *)
Definition capitalize (word : string) : option string :=
  if Nat.eqb (String.length word) 1 then Some (Str.upper word)
  else match word with
       | EmptyString => None
       | String c rest => Some (String (Str.upper_char c) rest)
       end.

(** The loop over the words, [None] when a word raises. *)
Fixpoint capitalize_words (x : list string) : option (list string) :=
  match x with
  | [] => Some []
  | word :: x' =>
      match capitalize word with
      | Some word' =>
          match capitalize_words x' with
          | Some x'' => Some (word' :: x'')
          | None => None
          end
      | None => None
      end
  end.

(** [name] after [if remove: name = ''.join(name.split(remove))]. *)
Definition without (remove : option string) (name : string) : string :=
  match remove with
  | Some r => if negb (String.eqb r "") then Str.join "" (Str.split r name) else name
  | None => name
  end.

(** [convert_to_human_name(name, remove)], for texts of characters
    below 128. *)
Definition convert_to_human_name (name : option string) (remove : option string)
  : human_name :=
  match name with
  | None => Raises ValueError
  | Some name =>
      let name := Str.strip name in
      if String.eqb name "" then Raises ValueError
      else
        let name := without remove name in
        let x := Str.split "_" name in
        match capitalize_words x with
        | Some x => Name (Str.join " " x)
        | None => Raises IndexError
        end
  end.

End DBUtility.

(** ** [Formatter] and the format object of the spreadsheet library *)

(** What [workbook.add_format()] returns and the setters change. *)
Record Format : Type := mkFormat {
  num_format : pyval;
  font_color : pyval;
  fmt_bg_color : pyval;
  bold : bool;
  italic : bool;
  underline : bool;
  font_strikeout : bool;
  top : Z;
  bottom : Z;
  left : Z;
  right : Z
}.

Definition add_format : Format :=
  mkFormat PNone PNone PNone false false false false 0 0 0 0.

Record Formatter : Type := mkFormatter {
  cell_str_format : pyval;
  font_styles : pyval;
  cell_borders : pyval;
  text_color : pyval;
  bg_color : pyval
}.

Module Formatter.

(** The keyword parameters of [Formatter.__init__]. *)
Definition parameters : list string :=
  ["cell_str_format"; "font_styles"; "cell_borders"; "text_color"; "bg_color"].

(** The value of a field, by the name of its parameter. *)
Definition field (name : string) (f : Formatter) : pyval :=
  if String.eqb name "cell_str_format" then cell_str_format f
  else if String.eqb name "font_styles" then font_styles f
  else if String.eqb name "cell_borders" then cell_borders f
  else if String.eqb name "text_color" then text_color f
  else if String.eqb name "bg_color" then bg_color f
  else PNone.

(** [Formatter()]: every field is [None]. *)
Definition default : Formatter := mkFormatter PNone PNone PNone PNone PNone.

(** [Formatter] called with the keyword arguments [kwargs] (a dict
    unpacked with two stars): a keyword that is no parameter is a
    [TypeError]; a parameter that is not given is [None]. *)
Definition init (kwargs : gmap string pyval) : result Formatter :=
  if bool_decide (map_Forall (fun k _ => k ∈ parameters) kwargs)
  then
    let arg name := match kwargs !! name with Some v => v | None => PNone end in
    Ok (mkFormatter (arg "cell_str_format") (arg "font_styles")
          (arg "cell_borders") (arg "text_color") (arg "bg_color"))
  else Raise TypeError.

Definition is_not_None (v : pyval) : bool :=
  match v with PNone => false | _ => true end.

Definition apply_font_style (fs : pyval) (f : Format) : Format :=
  let f := if Py.eq_str fs "bold"
           then mkFormat (num_format f) (font_color f) (fmt_bg_color f) true
                  (italic f) (underline f) (font_strikeout f)
                  (top f) (bottom f) (left f) (right f)
           else f in
  let f := if Py.eq_str fs "italics"
           then mkFormat (num_format f) (font_color f) (fmt_bg_color f) (bold f)
                  true (underline f) (font_strikeout f)
                  (top f) (bottom f) (left f) (right f)
           else f in
  let f := if Py.eq_str fs "underline"
           then mkFormat (num_format f) (font_color f) (fmt_bg_color f) (bold f)
                  (italic f) true (font_strikeout f)
                  (top f) (bottom f) (left f) (right f)
           else f in
  if Py.eq_str fs "strikethrough"
  then mkFormat (num_format f) (font_color f) (fmt_bg_color f) (bold f)
         (italic f) (underline f) true
         (top f) (bottom f) (left f) (right f)
  else f.

Definition apply_border (border : pyval) (f : Format) : Format :=
  let f := if Py.eq_str border "top"
           then mkFormat (num_format f) (font_color f) (fmt_bg_color f) (bold f)
                  (italic f) (underline f) (font_strikeout f)
                  2 (bottom f) (left f) (right f)
           else f in
  let f := if Py.eq_str border "bottom"
           then mkFormat (num_format f) (font_color f) (fmt_bg_color f) (bold f)
                  (italic f) (underline f) (font_strikeout f)
                  (top f) 2 (left f) (right f)
           else f in
  let f := if Py.eq_str border "left"
           then mkFormat (num_format f) (font_color f) (fmt_bg_color f) (bold f)
                  (italic f) (underline f) (font_strikeout f)
                  (top f) (bottom f) 2 (right f)
           else f in
  if Py.eq_str border "right"
  then mkFormat (num_format f) (font_color f) (fmt_bg_color f) (bold f)
         (italic f) (underline f) (font_strikeout f)
         (top f) (bottom f) (left f) 2
  else f.

(** [Formatter.set_format]: the fields that are not [None] are set on
    the format object. *)
Definition set_format (self : Formatter) (input_format : Format) : result Format :=
  let f := input_format in
  let f := if is_not_None (cell_str_format self)
           then mkFormat (cell_str_format self) (font_color f) (fmt_bg_color f)
                  (bold f) (italic f) (underline f) (font_strikeout f)
                  (top f) (bottom f) (left f) (right f)
           else f in
  let f := if is_not_None (text_color self)
           then mkFormat (num_format f) (text_color self) (fmt_bg_color f)
                  (bold f) (italic f) (underline f) (font_strikeout f)
                  (top f) (bottom f) (left f) (right f)
           else f in
  let f := if is_not_None (bg_color self)
           then mkFormat (num_format f) (font_color f) (bg_color self)
                  (bold f) (italic f) (underline f) (font_strikeout f)
                  (top f) (bottom f) (left f) (right f)
           else f in
  f ← (if is_not_None (font_styles self)
       then styles ← Py.iter (font_styles self);
            Ok (foldl (fun f fs => apply_font_style fs f) f styles)
       else Ok f);
  if is_not_None (cell_borders self)
  then borders ← Py.iter (cell_borders self);
       Ok (foldl (fun f b => apply_border b f) f borders)
  else Ok f.

End Formatter.

(** ** Formatting instructions *)

(** A key of a tier dict: an index or its text, or a tuple of those. *)
Inductive atom : Type :=
| AInt (z : Z)
| AStr (s : string).

Inductive pykey : Type :=
| KAtom (a : atom)
| KTuple (l : list atom).

#[global] Instance atom_eq_dec : EqDecision atom.
Proof. solve_decision. Defined.

#[global] Instance atom_countable : Countable atom.
Proof.
  refine (inj_countable'
            (fun a => match a with AInt z => inl z | AStr s => inr s end)
            (fun x => match x with inl z => AInt z | inr s => AStr s end) _).
  by intros [].
Defined.

#[global] Instance pykey_eq_dec : EqDecision pykey.
Proof. solve_decision. Defined.

#[global] Instance pykey_countable : Countable pykey.
Proof.
  refine (inj_countable'
            (fun k => match k with KAtom a => inl a | KTuple l => inr l end)
            (fun x => match x with inl a => KAtom a | inr l => KTuple l end) _).
  by intros [].
Defined.

(** The identity of a style dict. *)
Definition loc : Type := positive.

(** A style dict: the keyword arguments of a [Formatter]. *)
Abbreviation style := (gmap string pyval).

(** The dict [{"row": ..., "column": ..., "cell": ...}].  A tier maps a key
    to a style dict, held by reference: [store] gives the content of each
    style dict, and two entries with the same [loc] are one dict object. *)
Record Instructions : Type := mkInstructions {
  row : option (gmap pykey loc);
  column : option (gmap pykey loc);
  cell : option (gmap pykey loc);
  store : gmap loc style
}.

Module Instr.

(** The content of the style dict [l]. *)
Definition content (st : gmap loc style) (l : loc) : style :=
  match st !! l with Some d => d | None => ∅ end.

(** [instructions.get(tier) and instructions[tier].get(key)]: the style
    dict found, when the tier is there and the dict is not empty. *)
Definition hit (st : gmap loc style) (tier : option (gmap pykey loc)) (key : pykey)
  : option loc :=
  t ← tier;
  l ← t !! key;
  if bool_decide (content st l = ∅) then None else Some l.

(** [for k, v in src.items(): dst[k] = v], on dicts of the store. *)
Definition update (st : gmap loc style) (dst src : loc) : gmap loc style :=
  <[dst := content st src ∪ content st dst]> st.

(** [not instructions] for a dict of tiers. *)
Definition is_empty (ins : Instructions) : bool :=
  match row ins, column ins, cell ins with
  | None, None, None => true
  | _, _, _ => false
  end.

End Instr.

(** ** [ExcelUtils] *)

(** One call of [worksheet.write(row, col, value, cell_format)]. *)
Record Cell : Type := mkCell {
  cell_row : Z;
  cell_col : Z;
  cell_value : pyval;
  cell_format : Format
}.

(** The workbook object: one opened for writing holds, per sheet, the
    calls of [write] in order; one opened for reading holds the rows of
    each sheet. *)
Inductive Workbook : Type :=
| XlsxWriter (file : string) (sheets : list (string * list Cell))
| Xlrd (datemode : Z) (sheets : list (string * list (list pyval))).

(** [self] of [ExcelUtils]; [current_sheet] refers to a sheet of the
    workbook by its position. *)
Record ExcelUtils : Type := mkExcelUtils {
  workbook : option Workbook;
  current_sheet : option nat;
  path_or_bytes_stream : option string;
  _offset : Z;
  path : option string
}.

(** What [get_rows] returns: the list it built, or the generator of the
    sheet's rows it started from. *)
Inductive Rows : Type :=
| RowList (rows : list (list pyval))
| RowGenerator (rows : list (list pyval)).

Module ExcelUtils.

(** [ExcelUtils()]. *)
Definition init : ExcelUtils := mkExcelUtils None None None 0 None.

Definition set_offset (self : ExcelUtils) (n : Z) : ExcelUtils :=
  mkExcelUtils (workbook self) (current_sheet self) (path_or_bytes_stream self)
    n (path self).

Definition set_path_or_bytes_stream (self : ExcelUtils) (p : string) : ExcelUtils :=
  mkExcelUtils (workbook self) (current_sheet self) (Some p) (_offset self)
    (path self).

(** [_convert_instructions_to_formats(instructions, row_idx, col_idx)].
    [deepcopy] keeps the sharing of the style dicts, so the copy is the
    store itself, and the updates below stay local to the call. *)
Definition _convert_instructions_to_formats
    (instructions : option Instructions) (row_idx col_idx : Z) : result Formatter :=
  match instructions with
  | None => Ok Formatter.default
  | Some ins =>
      if Instr.is_empty ins then Ok Formatter.default
      else
        let row_idx := AStr (pretty row_idx) in
        let col_idx := AStr (pretty col_idx) in
        let cell_key := KTuple [row_idx; col_idx] in
        let row_hit := Instr.hit (store ins) (row ins) (KAtom row_idx) in
        let column_hit := Instr.hit (store ins) (column ins) (KAtom col_idx) in
        let instructions_copy := store ins in
        match Instr.hit (store ins) (cell ins) cell_key with
        | Some lcell =>
            let '(total_instructions, instructions_copy) :=
              match row_hit with
              | Some lrow =>
                  match column_hit with
                  | Some lcol => (lrow, Instr.update instructions_copy lrow lcol)
                  | None => (lrow, instructions_copy)
                  end
              | None =>
                  match column_hit with
                  | Some lcol => (lcol, instructions_copy)
                  | None => (lcell, instructions_copy)
                  end
              end in
            let instructions_copy :=
              Instr.update instructions_copy total_instructions lcell in
            Formatter.init (Instr.content instructions_copy total_instructions)
        | None =>
            match row_hit with
            | Some lrow =>
                match column_hit with
                | Some lcol =>
                    Formatter.init
                      (Instr.content (Instr.update instructions_copy lrow lcol) lrow)
                | None => Formatter.init (Instr.content instructions_copy lrow)
                end
            | None =>
                match column_hit with
                | Some lcol => Formatter.init (Instr.content instructions_copy lcol)
                | None => Ok Formatter.default
                end
            end
        end
  end.

(** [workbook.add_worksheet(name)]: the new sheet is the last one.  The
    library's checks of the name are not modelled. *)
Definition add_worksheet (self : ExcelUtils) (name : string) : result ExcelUtils :=
  match workbook self with
  | Some (XlsxWriter file sheets) =>
      Ok (mkExcelUtils (Some (XlsxWriter file (sheets ++ [(name, [])])))
            (Some (length sheets)) (path_or_bytes_stream self) (_offset self)
            (path self))
  | _ => Raise AttributeError
  end.

(** [write_cell]: a fresh format object, set by the formatter, goes with
    the value to the current sheet.  The call of [write] is recorded as
    made; the library raises [TypeError] inside it for a value it does
    not take, which the properties of the cells written rule out by
    their hypotheses. *)
Definition write_cell (self : ExcelUtils) (row_idx col_idx : Z) (value : pyval)
    (formatter : Formatter) : result ExcelUtils :=
  match workbook self with
  | Some (XlsxWriter file sheets) =>
      cell_format ← Formatter.set_format formatter add_format;
      match current_sheet self with
      | Some i =>
          match sheets !! i with
          | Some (name, cells) =>
              let cells := cells ++ [mkCell row_idx col_idx value cell_format] in
              Ok (mkExcelUtils (Some (XlsxWriter file (<[i := (name, cells)]> sheets)))
                    (current_sheet self) (path_or_bytes_stream self) (_offset self)
                    (path self))
          | None => Raise AttributeError
          end
      | None => Raise AttributeError
      end
  | _ => Raise AttributeError
  end.

(** The headers of a new sheet, written to row 0 as they are. *)
Definition write_headers (instructions : option Instructions)
    (separate_headers : list pyval) (self : ExcelUtils) : result ExcelUtils :=
  for_each (enumerate separate_headers)
    (fun '(idx, header) self =>
       formatter ← _convert_instructions_to_formats instructions 0 idx;
       write_cell self 0 idx header formatter)
    self.

(** The loop over [range(count)] of [create_new] and [create_new_sheet]:
    a row that is a list or a tuple is written cell by cell, any other
    row is skipped. *)
Definition write_values (instructions : option Instructions) (values : list pyval)
    (offset : Z) (self : ExcelUtils) : result ExcelUtils :=
  for_each (enumerate values)
    (fun '(row_idx, row) self =>
       match row with
       | PList items | PTuple items =>
           for_each (enumerate items)
             (fun '(col_idx, item) self =>
                let value := DBUtility.serialize item in
                formatter ← _convert_instructions_to_formats instructions
                              (row_idx + offset) col_idx;
                write_cell self (row_idx + offset) col_idx value formatter)
             self
       | _ => Ok self
       end)
    self.

(** The value of [row_idx] after [for row_idx in range(count)], the
    variable being 0 before the loop. *)
Definition last_row_idx (count : nat) : Z :=
  match count with
  | O => 0
  | S n => Z.of_nat n
  end.

Definition headers_given (separate_headers : option (list pyval)) : bool :=
  match separate_headers with
  | Some (_ :: _) => true
  | _ => false
  end.

(** [create_new]; [exists_] is [os.path.exists(path)]. *)
Definition create_new (exists_ : bool) (self : ExcelUtils) (path_ : string)
    (values : list pyval) (overwrite : bool) (sheet_name : string)
    (separate_headers : option (list pyval)) (instructions : option Instructions)
  : result (ExcelUtils * Z) :=
  if exists_ && negb overwrite then Raise RuntimeError
  else
    let self :=
      match workbook self with
      | None => mkExcelUtils (Some (XlsxWriter path_ [])) (current_sheet self)
                  (path_or_bytes_stream self) (_offset self) (Some path_)
      | Some _ => self
      end in
    self ← match current_sheet self with
           | None => add_worksheet self sheet_name
           | Some _ => Ok self
           end;
    self ← (if headers_given separate_headers
            then write_headers instructions (default [] separate_headers) self
            else Ok self);
    let offset := if headers_given separate_headers then 1 else 0 in
    let count := length values in
    self ← write_values instructions values offset self;
    let self := set_path_or_bytes_stream self path_ in
    let row_idx := last_row_idx count in
    Ok (set_offset self (row_idx + 1 + offset), row_idx + 1 + offset).

(** [create_new_sheet]. *)
Definition create_new_sheet (self : ExcelUtils) (values : list pyval)
    (separate_headers : option (list pyval)) (sheet_name : string)
    (instructions : option Instructions) : result (ExcelUtils * Z) :=
  self ← add_worksheet self sheet_name;
  self ← (if headers_given separate_headers
          then write_headers instructions (default [] separate_headers) self
          else Ok self);
  let offset := if headers_given separate_headers then 1 else 0 in
  let count := length values in
  self ← write_values instructions values offset self;
  let row_idx := last_row_idx count in
  Ok (set_offset self (row_idx + 1 + offset), row_idx + 1 + offset).

(** [is_nested] of [write_row]: [None] for no value, else whether the
    first value is a list or a tuple. *)
Definition is_nested (values : list pyval) : option bool :=
  match values with
  | [] => None
  | (PList _ | PTuple _) :: _ => Some true
  | _ :: _ => Some false
  end.

(** [write_row(values, offset, instructions)]: the new state and the
    offset returned. *)
Definition write_row (self : ExcelUtils) (values : list pyval) (offset : option Z)
    (instructions : option Instructions) : result (ExcelUtils * Z) :=
  let offset := match offset with None => _offset self | Some o => o end in
  let new_offset := offset in
  '(self, new_offset) ←
    match is_nested values with
    | Some true =>
        for_each (enumerate values)
          (fun '(row_idx, row) '(self, new_offset) =>
             items ← Py.iter row;
             self ← for_each (enumerate items)
                      (fun '(col_idx, item) self =>
                         let value := DBUtility.serialize item in
                         formatter ← _convert_instructions_to_formats instructions
                                       row_idx col_idx;
                         write_cell self (row_idx + offset) col_idx value formatter)
                      self;
             Ok (self, new_offset + 1))
          (self, new_offset)
    | Some false =>
        self ← for_each (enumerate values)
                 (fun '(col_idx, item) self =>
                    let value := DBUtility.serialize item in
                    formatter ← _convert_instructions_to_formats instructions
                                  offset col_idx;
                    write_cell self offset col_idx value formatter)
                 self;
        Ok (self, new_offset + 1)
    | None => Ok (self, new_offset)
    end;
  Ok (set_offset self new_offset, new_offset).

(** The body of the loops of [write_row] over the items of a row, on the
    writer as the object it is: [write_cell] raises before it calls
    [write], so a raise leaves the writer as it was. *)
Definition write_item (instructions : option Instructions) (r r0 : Z)
  : Z * pyval -> ExcelUtils -> ExcelUtils * option exn :=
  fun '(col_idx, item) self =>
    let value := DBUtility.serialize item in
    match _convert_instructions_to_formats instructions r0 col_idx with
    | Ok formatter =>
        match write_cell self r col_idx value formatter with
        | Ok self' => (self', None)
        | Raise e => (self, Some e)
        end
    | Raise e => (self, Some e)
    end.

(** [write_row] on the writer as the object the call mutates: the writer
    as the call leaves it, with the offset returned or the exception
    raised.  A raise leaves on the sheet the cells written before it, and
    the cursor where it was: [self._offset] is assigned after the
    loops. *)
Definition write_row_in_place (self : ExcelUtils) (values : list pyval) (offset : option Z)
    (instructions : option Instructions) : ExcelUtils * result Z :=
  let offset := match offset with None => _offset self | Some o => o end in
  let new_offset := offset in
  let '(self, new_offset, raised) :=
    match is_nested values with
    | Some true =>
        for_each_in_place (enumerate values)
          (fun '(row_idx, row) '(self, new_offset) =>
             match Py.iter row with
             | Ok items =>
                 match for_each_in_place (enumerate items)
                         (write_item instructions (row_idx + offset) row_idx) self with
                 | (self, None) => ((self, new_offset + 1), None)
                 | (self, Some e) => ((self, new_offset), Some e)
                 end
             | Raise e => ((self, new_offset), Some e)
             end)
          (self, new_offset)
    | Some false =>
        match for_each_in_place (enumerate values)
                (write_item instructions offset offset) self with
        | (self, None) => ((self, new_offset + 1), None)
        | (self, Some e) => ((self, new_offset), Some e)
        end
    | None => ((self, new_offset), None)
    end in
  match raised with
  | None => (set_offset self new_offset, Ok new_offset)
  | Some e => (self, Raise e)
  end.

(** [close_workbook]. *)
Definition close_workbook (self : ExcelUtils) : ExcelUtils :=
  mkExcelUtils None None (path_or_bytes_stream self) (_offset self) (path self).

(** The calls of [write] made on the current sheet, in order. *)
Definition written (self : ExcelUtils) : list Cell :=
  match workbook self, current_sheet self with
  | Some (XlsxWriter _ sheets), Some i =>
      match sheets !! i with Some (_, cells) => cells | None => [] end
  | _, _ => []
  end.

(** *** Reading *)

Section Reader.

(** The library function the reader calls: [datetime.strptime], [None]
    standing for the [ValueError] of a text that does not match the
    format. *)
Variable strptime : string -> string -> option pyval.

Definition accepted_formats : list string :=
  [ "%Y-%m-%d %H:%M:%SZ";
    "%m/%d/%Y %H:%M%SZ";
    "%Y-%m-%d";
    "%m/%d/%Y";
    "%m/%d";
    "%m-%d";
    "%m/%d/%Y %H:%M";
    "%m/%d/%Y %I:%M";
    "%Y-%m-%d %H:%M";
    "%Y-%m-%d %I:%M" ].

Definition bad_formats : list string :=
  [ "%m-%Y-%d";
    "%m-%Y";
    "%m-%Y-%d %H:%M" ].

(** The first accepted format that parses [param], with the result. *)
Fixpoint first_parse (param : string) (formats : list string) : option pyval :=
  match formats with
  | [] => None
  | f :: formats' =>
      match strptime param f with
      | Some d => Some d
      | None => first_parse param formats'
      end
  end.

(** [is_datetime(param)]: every exception of [strptime] is swallowed. *)
Definition is_datetime (param : string) : bool * pyval :=
  match first_parse param accepted_formats with
  | Some datetime_obj => (true, datetime_obj)
  | None =>
      let satisfied_bad :=
        foldl (fun satisfied_bad bad_format =>
                 match strptime param bad_format with
                 | Some _ => true
                 | None => satisfied_bad
                 end) false bad_formats in
      if satisfied_bad then (false, PNone) else (true, PNone)
  end.

(** The body of [if sanitize_dates and cell_idx in sanitize_dates].  For
    a number the code calls [xldate_as_datetime], a name the module never
    binds (it imports [xlrd], and nothing from it): the call raises
    [NameError]. *)
Definition sanitize (datemode : Z) (cell_val : pyval) : result pyval :=
  match cell_val with
  | PInt _ | PBool _ | PFloat _ => Raise NameError
  | PNone => Ok PNone
  | PStr s =>
      if String.eqb s "" then Ok PNone
      else let '(_, cell_val) := is_datetime s in Ok cell_val
  | _ => Raise RuntimeError
  end.

(** The sheet [self.current_sheet] of a workbook opened for reading. *)
Definition current_rows (self : ExcelUtils) : result (Z * list (list pyval)) :=
  match workbook self, current_sheet self with
  | Some (Xlrd datemode sheets), Some i =>
      match sheets !! i with
      | Some (_, rows) => Ok (datemode, rows)
      | None => Raise AttributeError
      end
  | _, _ => Raise AttributeError
  end.

(** [rows.append(row_values)]: a generator has no [append]. *)
Definition append (rows : Rows) (row_values : list pyval) : result Rows :=
  match rows with
  | RowList l => Ok (RowList (l ++ [row_values]))
  | RowGenerator _ => Raise AttributeError
  end.

(** The loop over [range(len(filters))] for one cell. *)
Definition apply_filters (filters : list pyval) (cell_idx : Z) (cell_val : pyval)
    (disregard : bool) : bool :=
  foldl (fun disregard '(filter_idx, filter) =>
           if filter_idx =? cell_idx
           then if Eq.py_ne cell_val filter then true else disregard
           else disregard)
        disregard (enumerate filters).

Definition given {A} (l : option (list A)) : bool :=
  match l with
  | Some (_ :: _) => true
  | _ => false
  end.

(** [get_rows(filters, grab_headers, sanitize_dates)]. *)
Definition get_rows (self : ExcelUtils) (filters : option (list pyval))
    (grab_headers : bool) (sanitize_dates : option (list Z)) : result Rows :=
  '(datemode, sheet_rows) ← current_rows self;
  let rows := if grab_headers && negb (given filters)
              then RowGenerator sheet_rows
              else RowList [] in
  let start := if grab_headers then 0%nat else 1%nat in
  for_each (drop start sheet_rows)
    (fun row rows =>
       '(row_values, disregard) ←
         for_each (enumerate row)
           (fun '(cell_idx, cell_val) '(row_values, disregard) =>
              let disregard :=
                if given filters
                then apply_filters (default [] filters) cell_idx cell_val disregard
                else disregard in
              if negb disregard
              then
                cell_val ←
                  (if given sanitize_dates
                      && bool_decide (cell_idx ∈ default [] sanitize_dates)
                   then sanitize datemode cell_val
                   else Ok cell_val);
                Ok (row_values ++ [cell_val], disregard)
              else Ok (row_values, disregard))
           ([], false);
       match row_values with
       | _ :: _ => if negb disregard then append rows row_values else Ok rows
       | [] => Ok rows
       end)
    rows.

End Reader.

End ExcelUtils.


(** ** The detail formatters *)

(** A line feed, for the texts that hold one. *)
Definition nl : string := String (Ascii.ascii_of_nat 10) EmptyString.

Module Parse.

(** [obj.get(key)] where [key] comes from iterating [obj]. *)
Definition get_by (obj key : pyval) : result pyval :=
  match obj with
  | PDict kvs =>
      match key with
      | PStr k => Ok (Py.dict_get kvs k PNone)
      | _ => Ok PNone
      end
  | _ => Raise AttributeError
  end.

(** [str(val.get('value'))] for a dict, [str(val)] otherwise. *)
Definition value_text (val : pyval) : string :=
  match val with
  | PDict kvs => Repr.str (Py.dict_get kvs "value" PNone)
  | _ => Repr.str val
  end.

(** The loop of [ParseLookup] and [ParseSPROC] over the parameters. *)
Definition stored_procedure_parameters (param_obj : pyval) : result (list string) :=
  params ← Py.iter param_obj;
  for_each params
    (fun param param_details =>
       entry ← get_by param_obj param;
       val ← Py.get entry "value" PNone;
       match param with
       | PStr p => Ok (param_details ++ [p +:+ ": " +:+ value_text val])
       | _ => Raise TypeError
       end)
    [].

Module ParseLookup.
Definition parse (input_data : pyval) : result pyval :=
  typeProperties ← Py.get input_data "typeProperties" (PStr "");
  if Py.truthy typeProperties then
    source ← Py.get typeProperties "source" (PStr "");
    if Py.truthy source then
      sproc_name ← Py.get source "sqlReaderStoredProcedureName" (PStr "");
      param_obj ← Py.get source "storedProcedureParameters" (PStr "");
      param_details ← stored_procedure_parameters param_obj;
      Ok (PStr (Repr.str sproc_name +:+ " ,    Parameters: "
                  +:+ Str.join "," param_details))
    else Ok PNone
  else Ok PNone.
End ParseLookup.

Module ParseIfCondition.
Definition parse (input_data : pyval) : result pyval :=
  typeProperties ← Py.get input_data "typeProperties" (PStr "");
  if Py.truthy typeProperties then
    expression ← Py.get typeProperties "expression" (PStr "");
    if Py.truthy expression then
      exp_val ← Py.get expression "value" (PStr "");
      Ok (PStr ("Expression:     " +:+ Repr.str exp_val))
    else Ok PNone
  else Ok PNone.
End ParseIfCondition.

Module ParseSPROC.
Definition parse (input_data : pyval) : result pyval :=
  typeProperties ← Py.get input_data "typeProperties" (PStr "");
  if Py.truthy typeProperties then
    sproc_name ← Py.get typeProperties "storedProcedureName" (PStr "");
    param_obj ← Py.get typeProperties "storedProcedureParameters" (PStr "");
    param_details ← stored_procedure_parameters param_obj;
    Ok (PStr ("Stored procedure name " +:+ Repr.str sproc_name
                +:+ " ,    Parameters: " +:+ Str.join "," param_details))
  else Ok PNone.
End ParseSPROC.

Module ParseWebActivity.
Definition parse (input_data : pyval) : result pyval :=
  typeProperties ← Py.get input_data "typeProperties" (PStr "");
  if Py.truthy typeProperties then
    url_name ← Py.get typeProperties "url" (PStr "");
    method_name ← Py.get typeProperties "method" (PStr "");
    header_name ← Py.get typeProperties "header" (PStr "");
    _ ← (if Py.truthy header_name
         then Py.get header_name "Content-Type" (PStr "")
         else Ok PNone);
    Body_properties ← Py.get typeProperties "body" (PStr "");
    Ok (PStr ("Http request URL: " +:+ Repr.str url_name +:+ " " +:+ nl +:+ nl
                +:+ " Method Name : " +:+ Repr.str method_name +:+ " " +:+ nl +:+ nl
                +:+ " Body properties : " +:+ Repr.str Body_properties))
  else Raise UnboundLocalError.
End ParseWebActivity.

Module ParseWaitActivity.
Definition parse (input_data : pyval) : result pyval :=
  typeProperties ← Py.get input_data "typeProperties" (PStr "");
  if Py.truthy typeProperties then
    wait_val ← Py.get typeProperties "waitTimeInSeconds" (PStr "");
    Ok (PStr ("Wait time in Seconds:  " +:+ Repr.str wait_val))
  else Ok PNone.
End ParseWaitActivity.

Module ParseDeleteActivity.
Definition parse (input_data : pyval) : result pyval :=
  typeProperties ← Py.get input_data "typeProperties" (PStr "");
  if Py.truthy typeProperties then
    dataset_name ← Py.get typeProperties "dataset" (PStr "");
    reference_Name ← Py.get dataset_name "referenceName" (PStr "");
    store_settings ← Py.get typeProperties "storeSettings" (PStr "");
    if Py.truthy store_settings then
      wildcardFileName ← Py.get store_settings "wildcardFileName" (PStr "");
      Ok (PStr ("DataSet name-" +:+ Repr.str reference_Name +:+ " " +:+ nl
                  +:+ "FileName-" +:+ Repr.str wildcardFileName))
    else Ok PNone
  else Ok PNone.
End ParseDeleteActivity.

Module ParseExecutePipeline.
Definition parse (input_data : pyval) : result pyval :=
  typeProperties ← Py.get input_data "typeProperties" (PStr "");
  if Py.truthy typeProperties then
    pipeline ← Py.get typeProperties "pipeline" (PStr "");
    if Py.truthy pipeline then
      ref ← Py.get pipeline "referenceName" (PStr "");
      Ok (PStr ("Child pipeline Name : " +:+ Repr.str ref))
    else Ok PNone
  else Ok PNone.
End ParseExecutePipeline.

Module ParseCopyActivity.

(** [input_data.get(key, '')[0].get('referenceName', '')] when the list
    is there; [None] for a name that stays unbound. *)
Definition reference_name (input_data : pyval) (key : string)
  : result (option pyval) :=
  l ← Py.get input_data key (PStr "");
  if Py.truthy l then
    first ← Py.item0 l;
    name ← Py.get first "referenceName" (PStr "");
    Ok (Some name)
  else Ok None.

(** The text returned, which reads the two reference names. *)
Definition text (inputreferenceName outputreferenceName : option pyval)
    (v_source v_foldername : pyval) : result pyval :=
  match inputreferenceName, outputreferenceName with
  | Some i, Some o =>
      Ok (PStr ("Input DataSet : " +:+ Repr.str i +:+ " " +:+ nl
                  +:+ "Output DataSet : " +:+ Repr.str o +:+ nl
                  +:+ " File name : " +:+ Repr.str v_source +:+ nl
                  +:+ "Folder Name or Path:" +:+ Repr.str v_foldername))
  | _, _ => Raise UnboundLocalError
  end.

Definition parse (input_data : pyval) : result pyval :=
  typeProperties ← Py.get input_data "typeProperties" (PStr "");
  inputreferenceName ← reference_name input_data "inputs";
  outputreferenceName ← reference_name input_data "outputs";
  if Py.truthy typeProperties then
    source ← Py.get typeProperties "source" (PStr "");
    if Py.truthy source then
      type ← Py.get source "type" (PStr "");
      let sql_source :=
        if Py.eq_str type "SqlDWSource" then
          name ← Py.get source "sqlReaderStoredProcedureName" (PStr "");
          if Py.truthy name
          then text inputreferenceName outputreferenceName name (PStr "")
          else Ok PNone
        else Ok PNone in
      if negb (Py.eq_str type "SqlDWSink") then
        storeSettings ← Py.get source "storeSettings" (PStr "");
        if Py.truthy storeSettings then
          v_source ← Py.get storeSettings "wildcardFileName" (PStr "");
          if Py.truthy v_source then
            v_foldername ← Py.get storeSettings "wildcardFolderPath" (PStr "");
            text inputreferenceName outputreferenceName v_source v_foldername
          else sql_source
        else sql_source
      else sql_source
    else Ok PNone
  else Ok PNone.
End ParseCopyActivity.

Module ParseNotebookActivity.
Definition parse (input_data : pyval) : result pyval :=
  typeProperties ← Py.get input_data "typeProperties" (PStr "");
  if Py.truthy typeProperties then
    notebook_path ← Py.get typeProperties "notebookPath" (PStr "");
    param_obj ← Py.get typeProperties "baseParameters" (PStr "");
    params ← Py.iter param_obj;
    param_details ←
      for_each params
        (fun param param_details =>
           val ← get_by param_obj param;
           match param with
           | PStr p =>
               match val with
               | PDict kvs =>
                   Ok (param_details
                         ++ [p +:+ " : " +:+ Repr.str (Py.dict_get kvs "value" PNone)])
               | _ =>
                   line ← Py.str_add (p +:+ " : ") val;
                   Ok (param_details ++ [line])
               end
           | _ => Raise TypeError
           end)
        [];
    let param := foldl (fun param i => i +:+ "," +:+ nl +:+ param) "" param_details in
    Ok (PStr ("Notebook path: " +:+ Repr.str notebook_path +:+ " " +:+ nl +:+ nl
                +:+ " Paramerters: " +:+ param))
  else Raise UnboundLocalError.
End ParseNotebookActivity.

Module ParseGetMetadataActivity.
Definition parse (input_data : pyval) : result pyval :=
  typeProperties ← Py.get input_data "typeProperties" (PStr "");
  if Py.truthy typeProperties then
    ds ← Py.get typeProperties "dataset" PNone;
    dataset_name ← Py.get ds "referenceName" (PStr "");
    attr_obj ← Py.get typeProperties "fieldList" (PStr "");
    fields ← Py.iter attr_obj;
    attr ← for_each fields
             (fun i attr =>
                match i with
                | PStr s => Ok (s +:+ " , " +:+ attr)
                | _ => Raise TypeError
                end)
             "";
    Ok (PStr ("Dataset name: " +:+ Repr.str dataset_name +:+ " " +:+ nl +:+ nl
                +:+ " Metadata attributes: " +:+ attr))
  else Ok PNone.
End ParseGetMetadataActivity.

End Parse.

(** ** [ADFPipelineDocGenerator] *)

(** [self] of the generator.  A row of [table_data] is the list
    [[pipeline_name, task name, task type, details, dependency]]. *)
Record DocGen : Type := mkDocGen {
  pipeline_name_flag : bool;
  pipeline_name : string;
  table_data : list (list pyval)
}.

Module ADFPipelineDocGenerator.

(** [ADFPipelineDocGenerator()]. *)
Definition init : DocGen := mkDocGen true "" [].

(** The activity kinds both traversals look for. *)
Definition tasks : list string :=
  ["SqlServerStoredProcedure"; "Lookup"; "IfCondition"; "GetMetadata";
   "DatabricksNotebook"; "WebActivity"; "Wait"; "Delete"; "Copy"].

(** [x in container] for a str [x]. *)
Definition contains_str (container : pyval) (x : string) : result bool :=
  match container with
  | PStr s => Ok (Str.contains x s)
  | PList l | PTuple l => Ok (existsb (fun y => Eq.py_eq y (PStr x)) l)
  | PDict kvs => Ok (bool_decide (is_Some (Py.assoc x kvs)))
  | _ => Raise TypeError
  end.

(** [any(x in task_type for x in xs)]. *)
Fixpoint any_in (xs : list string) (task_type : pyval) : result bool :=
  match xs with
  | [] => Ok false
  | x :: xs' =>
      b ← contains_str task_type x;
      if (b : bool) then Ok true else any_in xs' task_type
  end.

(** [sep.join(v)]: [v] must yield strs. *)
Definition join_py (sep : string) (v : pyval) : result string :=
  items ← Py.iter v;
  parts ← for_each items
            (fun x parts =>
               match x with
               | PStr s => Ok (parts ++ [s])
               | _ => Raise TypeError
               end)
            [];
  Ok (Str.join sep parts).

(** [parse_dependsOn(dependency_list)]. *)
Definition parse_dependsOn (dependency_list : pyval) : result pyval :=
  if Py.truthy dependency_list then
    objs ← Py.iter dependency_list;
    parent_task_name ←
      for_each objs
        (fun obj parent_task_name =>
           match obj with
           | PDict kvs =>
               match Py.dict_get kvs "activity" (PStr "") with
               | PStr activity =>
                   conditions ← join_py "," (Py.dict_get kvs "dependencyConditions"
                                               (PList []));
                   Ok (parent_task_name ++ [activity +:+ ":" +:+ conditions])
               | _ => Raise TypeError
               end
           | _ => Ok parent_task_name
           end)
        [];
    Ok (PStr (Str.join "," parent_task_name))
  else Ok PNone.

(** [parse_task_details(task_type, obj)]: [None] for a type with no
    formatter. *)
Definition parse_task_details (task_type obj : pyval) : result pyval :=
  if Py.eq_str task_type "Lookup" then Parse.ParseLookup.parse obj
  else if Py.eq_str task_type "IfCondition" then Parse.ParseIfCondition.parse obj
  else if Py.eq_str task_type "SqlServerStoredProcedure" then Parse.ParseSPROC.parse obj
  else if Py.eq_str task_type "WebActivity" then Parse.ParseWebActivity.parse obj
  else if Py.eq_str task_type "Wait" then Parse.ParseWaitActivity.parse obj
  else if Py.eq_str task_type "Delete" then Parse.ParseDeleteActivity.parse obj
  else if Py.eq_str task_type "ExecutePipeline" then Parse.ParseExecutePipeline.parse obj
  else if Py.eq_str task_type "Copy" then Parse.ParseCopyActivity.parse obj
  else if Py.eq_str task_type "DatabricksNotebook" then Parse.ParseNotebookActivity.parse obj
  else if Py.eq_str task_type "GetMetadata" then Parse.ParseGetMetadataActivity.parse obj
  else Ok PNone.

(** [current_task_name or parent_task_name]. *)
Definition or_parent (current_task_name : option string) (parent_task_name : string)
  : string :=
  match current_task_name with
  | Some n => if String.eqb n "" then parent_task_name else n
  | None => parent_task_name
  end.

(** The branch both traversals share: the name is a task name, and a
    row is appended when the type holds one of [tasks]. *)
Definition record_task (input_data : list (string * pyval)) (name : string)
    (parent_task_name : string) (self : DocGen) : result DocGen :=
  let current_task_name := name in
  let task_type := Py.dict_get input_data "type" (PStr "") in
  recognised ← any_in tasks task_type;
  if (recognised : bool) then
    details ← parse_task_details task_type (PDict input_data);
    let task_details := Py.or_ details (PStr "") in
    dependency ← parse_dependsOn (Py.dict_get input_data "dependsOn" (PStr ""));
    let task_dependency_info := Py.or_ dependency (PStr parent_task_name) in
    Ok (mkDocGen (pipeline_name_flag self) (pipeline_name self)
          (table_data self ++ [[PStr (pipeline_name self); PStr current_task_name;
                                task_type; task_details; task_dependency_info]]))
  else Ok self.

(** [recursive_parsing_Individual(input_data, parent_task_name)].  The
    loop over a dict carries [current_task_name]; the value of the key
    at hand is the value the iteration is at. *)
Fixpoint recursive_parsing_Individual (input_data : pyval) (parent_task_name : string)
    (self : DocGen) {struct input_data} : result DocGen :=
  match input_data with
  | PDict kvs =>
      (fix loop (items : list (string * pyval)) (current_task_name : option string)
           (self : DocGen) {struct items} : result DocGen :=
         match items with
         | [] => Ok self
         | (data, value) :: items' =>
             match value with
             | PStr name =>
                 if String.eqb data "name" then
                   if pipeline_name_flag self then
                     loop items' current_task_name
                       (mkDocGen false name (table_data self))
                   else
                     self ← record_task kvs name parent_task_name self;
                     loop items' (Some name) self
                 else loop items' current_task_name self
             | PDict _ | PList _ =>
                 self ← recursive_parsing_Individual value
                          (or_parent current_task_name parent_task_name) self;
                 loop items' current_task_name self
             | _ => loop items' current_task_name self
             end
         end) kvs None self
  | PList l | PTuple l =>
      (fix loop (items : list pyval) (self : DocGen) {struct items} : result DocGen :=
         match items with
         | [] => Ok self
         | data :: items' =>
             match data with
             | PDict _ =>
                 self ← recursive_parsing_Individual data parent_task_name self;
                 loop items' self
             | _ => loop items' self
             end
         end) l self
  | PStr _ | PBytes _ => Ok self
  | _ => Raise TypeError
  end.

(** The text before which the name of a pipeline stands in a template. *)
Definition v_type : string := "[concat(parameters('factoryName')".

(** [recursive_parsing(input_data, parent_task_name)], the traversal of
    a resource of a template. *)
Fixpoint recursive_parsing (input_data : pyval) (parent_task_name : string)
    (self : DocGen) {struct input_data} : result DocGen :=
  match input_data with
  | PDict kvs =>
      (fix loop (items : list (string * pyval)) (current_task_name : option string)
           (self : DocGen) {struct items} : result DocGen :=
         match items with
         | [] => Ok self
         | (data, value) :: items' =>
             match value with
             | PStr name =>
                 if String.eqb data "name" then
                   if Str.contains v_type name then
                     let end_idx := Str.rfind "'" name in
                     loop items' current_task_name
                       (mkDocGen (pipeline_name_flag self)
                          (Str.slice name 37 end_idx) (table_data self))
                   else
                     self ← record_task kvs name parent_task_name self;
                     loop items' (Some name) self
                 else loop items' current_task_name self
             | PDict _ | PList _ =>
                 self ← recursive_parsing value
                          (or_parent current_task_name parent_task_name) self;
                 loop items' current_task_name self
             | _ => loop items' current_task_name self
             end
         end) kvs None self
  | PList l | PTuple l =>
      (fix loop (items : list pyval) (self : DocGen) {struct items} : result DocGen :=
         match items with
         | [] => Ok self
         | data :: items' =>
             match data with
             | PDict _ =>
                 self ← recursive_parsing data parent_task_name self;
                 loop items' self
             | _ => loop items' self
             end
         end) l self
  | PStr _ | PBytes _ => Ok self
  | _ => Raise TypeError
  end.

End ADFPipelineDocGenerator.

(** ** The script *)

Module Main.

(** [{"font_styles": ["bold"], "text_color": "black", ...}]. *)
Definition uniform_format : style :=
  <["font_styles" := PList [PStr "bold"]]>
    (<["text_color" := PStr "black"]>
       (<["bg_color" := PStr "#99CCFF"]>
          (<["cell_borders" := PList [PStr "top"]]> ∅))).

(** The style dict of column [i], a dict object of its own. *)
Definition column_loc (i : Z) : loc :=
  match i with
  | 0 => 1%positive
  | Z.pos p => (p~0)%positive
  | Z.neg p => (p~1)%positive
  end.

Definition column_key (i : Z) : pykey := KAtom (AStr (pretty i)).

(** An instruction dict with a column tier only, the style dict of
    column [i] being [styles i], for [i] in [indices]. *)
Definition column_instructions (indices : list Z) (styles : Z -> style)
  : Instructions :=
  mkInstructions None
    (Some (foldl (fun m i => <[column_key i := column_loc i]> m) ∅ indices))
    None
    (foldl (fun st i => <[column_loc i := styles i]> st) ∅ indices).

(** [get_initial_row_formatting(initial_row)]: every column gets a copy
    of [uniform_format], the last one with a right border too. *)
Definition get_initial_row_formatting (initial_row : list pyval) : Instructions :=
  let n := length initial_row in
  column_instructions (range n)
    (fun i =>
       if i =? Z.of_nat n - 1
       then <["cell_borders" := PList [PStr "top"; PStr "right"]]> uniform_format
       else uniform_format).

(** [range(start, stop)]. *)
Definition range_from (start : Z) (stop : nat) : list Z :=
  (fun i : nat => start + Z.of_nat i) <$> seq 0 (Z.to_nat (Z.of_nat stop - start)).

(** [get_rest_rows_formatting(start_position, formatted_row)]. *)
Definition get_rest_rows_formatting (start_position : Z) (formatted_row : list pyval)
  : Instructions :=
  let n := length formatted_row in
  column_instructions (range_from start_position n)
    (fun i =>
       let d : style :=
         if negb (i =? 3)
         then <["cell_str_format" := PStr "[$$-409]#,##0_);[$$-409](#,##0)"]> ∅
         else ∅ in
       if i =? Z.of_nat n - 1
       then <["cell_borders" := PList [PStr "right"]]> d
       else d).

Definition headers : list pyval :=
  [PStr "Pipeline Name"; PStr "Task Name"; PStr "Type"; PStr "Details";
   PStr "Depency Task: Condition"].

(** The traversal the script chooses for the document. *)
Definition parse_document (json_data : pyval) : result DocGen :=
  resources ← Py.get json_data "resources" (PStr "");
  match resources with
  | PList resource_obj =>
      for_each resource_obj
        (fun data doc_gen =>
           type ← Py.get data "type" PNone;
           if Py.eq_str type "Microsoft.DataFactory/factories/pipelines"
           then ADFPipelineDocGenerator.recursive_parsing data "" doc_gen
           else Ok doc_gen)
        ADFPipelineDocGenerator.init
  | _ =>
      ADFPipelineDocGenerator.recursive_parsing_Individual json_data ""
        ADFPipelineDocGenerator.init
  end.

(** The writing of the spreadsheet: the header row through
    [create_new], one [write_row] per row of [table_data].  The result
    is the writer as it stands before [close_workbook]. *)
Definition write_report (exists_ : bool) (temp_path : string) (doc_gen : DocGen)
  : result ExcelUtils :=
  let xl_utility := ExcelUtils.init in
  let initial_row_formatting := get_initial_row_formatting headers in
  '(xl_utility, _) ← ExcelUtils.create_new exists_ xl_utility temp_path
                        [PList headers] true "Sheet1" None
                        (Some initial_row_formatting);
  for_each (table_data doc_gen)
    (fun row xl_utility =>
       let formatted_row := replicate (length headers) (PStr "") in
       let each_row_formatting := get_rest_rows_formatting 1 formatted_row in
       '(xl_utility, _) ← ExcelUtils.write_row xl_utility row None
                             (Some each_row_formatting);
       Ok xl_utility)
    xl_utility.

(** The script from the loaded document on. *)
Definition main (json_data : pyval) (exists_ : bool) (temp_path : string)
  : result (DocGen * ExcelUtils) :=
  doc_gen ← parse_document json_data;
  xl_utility ← write_report exists_ temp_path doc_gen;
  Ok (doc_gen, xl_utility).

End Main.

(** * Specifications

    The predicates, the sample documents and the functions that the
    properties below are stated with. *)

Import ExcelUtils.
Import ADFPipelineDocGenerator.

(** ** Cells, documents and sheets *)

(** Where a call of [write] puts which value. *)
Definition coords (c : Cell) : Z * Z * pyval := (cell_row c, cell_col c, cell_value c).

(** A pipeline with one activity of type ExecutePipeline. *)
Definition execute_pipeline_document : pyval :=
  PDict [("name", PStr "PL1");
         ("activities",
          PList [PDict [("name", PStr "RunChild");
                        ("type", PStr "ExecutePipeline");
                        ("typeProperties",
                         PDict [("pipeline",
                                 PDict [("referenceName", PStr "Child");
                                        ("type", PStr "PipelineReference")])])]])].

(** A workbook opened for reading, its only sheet holding [rows]. *)
Definition reading (datemode : Z) (rows : list (list pyval)) : ExcelUtils :=
  mkExcelUtils (Some (Xlrd datemode [("Sheet1", rows)])) (Some 0%nat) None 0 None.

(** ** Keys of the formatting instructions *)

(** A key built of integer indices only. *)
Definition is_int_key (key : pykey) : bool :=
  match key with
  | KAtom (AInt _) => true
  | KAtom (AStr _) => false
  | KTuple atoms =>
      forallb (fun a => match a with AInt _ => true | AStr _ => false end) atoms
  end.

(** A key the lookups of [_convert_instructions_to_formats] can ask
    for: a str, or a pair of strs. *)
Definition is_text_key (key : pykey) : bool :=
  match key with
  | KAtom (AStr _) => true
  | KTuple [AStr _; AStr _] => true
  | _ => false
  end.

Definition tier_Forall (P : pykey -> Prop) (tier : option (gmap pykey loc)) : Prop :=
  match tier with
  | Some t => map_Forall (fun k _ => P k) t
  | None => True
  end.

(** Instructions whose three tiers are keyed by integers. *)
Definition int_keyed (ins : Instructions) : Prop :=
  tier_Forall (fun k => is_int_key k = true) (row ins)
  /\ tier_Forall (fun k => is_int_key k = true) (column ins)
  /\ tier_Forall (fun k => is_int_key k = true) (cell ins).

(** The entries of a tier under text keys. *)
Definition text_keyed_tier (tier : option (gmap pykey loc)) : option (gmap pykey loc) :=
  filter (fun kv => is_text_key kv.1 = true) <$> tier.

Definition text_keyed (ins : Instructions) : Instructions :=
  mkInstructions (text_keyed_tier (row ins)) (text_keyed_tier (column ins))
    (text_keyed_tier (cell ins)) (store ins).

(** The example of the docstring, with integer keys and a colour in each
    tier. *)
Definition int_keyed_example : Instructions :=
  mkInstructions
    (Some {[ KAtom (AInt 0) := 1%positive ]})
    (Some {[ KAtom (AInt 0) := 2%positive ]})
    (Some {[ KTuple [AInt 0; AInt 0] := 3%positive ]})
    (<[1%positive := {[ "text_color" := PStr "black" ]}]>
       (<[2%positive := {[ "text_color" := PStr "red" ]}]>
          (<[3%positive := {[ "text_color" := PStr "blue" ]}]> ∅))).

(** The same entries under the texts of the indices. *)
Definition text_keyed_example : Instructions :=
  mkInstructions
    (Some {[ KAtom (AStr "0") := 1%positive ]})
    (Some {[ KAtom (AStr "0") := 2%positive ]})
    (Some {[ KTuple [AStr "0"; AStr "0"] := 3%positive ]})
    (store int_keyed_example).

(** The row entry and the cell entry as one dict object. *)
Definition shared_dict_example : Instructions :=
  mkInstructions
    (Some {[ KAtom (AStr "0") := 1%positive ]})
    (Some {[ KAtom (AStr "0") := 2%positive ]})
    (Some {[ KTuple [AStr "0"; AStr "0"] := 1%positive ]})
    (<[1%positive := {[ "text_color" := PStr "black" ]}]>
       (<[2%positive := {[ "text_color" := PStr "red" ]}]> ∅)).

(** ** The cursor of [write_row] *)

(** The sheet the writer writes to is there. *)
Definition writable (self : ExcelUtils) : Prop :=
  exists file sheets i name cells,
    workbook self = Some (XlsxWriter file sheets)
    /\ current_sheet self = Some i
    /\ sheets !! i = Some (name, cells).

(** From [s] to [s'] the calls [new] of [write] were made on the current
    sheet, and the cursor was left alone. *)
Definition appends (s s' : ExcelUtils) (new : list (Z * Z * pyval)) : Prop :=
  exists cells,
    written s' = written s ++ cells
    /\ coords <$> cells = new
    /\ _offset s' = _offset s.

(** A float that is a number: not [nan], and not an infinity. *)
Definition finite (r : string) : bool :=
  negb (String.eqb r "nan" || String.eqb r "inf" || String.eqb r "-inf").

(** A value [worksheet.write] of the spreadsheet library takes as it is:
    [None], a bool, a str, an int in the range of a float, or a float
    that is a number.  For a list, a tuple, a dict or bytes, and for
    [nan] and the infinities, the library raises [TypeError]; a date,
    which it writes as a number, is left out here.  The properties of
    the cells written are stated for these values. *)
Definition plain (v : pyval) : bool :=
  match v with
  | PNone | PBool _ | PStr _ => true
  | PInt z => Z.abs z <? 2 ^ 1023
  | PFloat r => finite r
  | _ => false
  end.

(** The value that goes to [write] for an item of a row: [None] for a
    list, a tuple or bytes, the item itself otherwise (a date apart,
    which goes as a text and which [taken] leaves out). *)
Definition handed (item : pyval) : pyval :=
  match item with
  | PList _ | PTuple _ | PBytes _ => PNone
  | _ => item
  end.

(** An item whose value the library takes: [None], a bool, a str, a
    number, or a list, a tuple or bytes. *)
Definition taken (item : pyval) : Prop := plain (handed item) = true.

(** The rows a call of [write_row] writes: one for a flat list, one per
    element for a nested list (a list whose first element is a list or a
    tuple), none for an empty list. *)
Definition rows_written (values : list pyval) : Z :=
  match values with
  | [] => 0
  | (PList _ | PTuple _) :: _ => Z.of_nat (length values)
  | _ :: _ => 1
  end.

(** The cells of one row of values, written to row [r]. *)
Definition row_cells (r : Z) (start : Z) (items : list pyval) : list (Z * Z * pyval) :=
  (fun '(col_idx, item) => (r, col_idx, handed item)) <$> enumerate_from start items.

(** The items of a row of a nested list. *)
Definition row_items (row_ : pyval) : list pyval :=
  match row_ with
  | PList items | PTuple items => items
  | _ => []
  end.

(** The cells of the rows of a nested list, the first one going to row
    [offset + start]. *)
Fixpoint nested_cells (offset start : Z) (values : list pyval) : list (Z * Z * pyval) :=
  match values with
  | [] => []
  | row_ :: values' =>
      row_cells (start + offset) 0 (row_items row_)
        ++ nested_cells offset (start + 1) values'
  end.

(** The cells a call of [write_row] writes when the cursor is [offset]. *)
Definition cells_of (offset : Z) (values : list pyval) : list (Z * Z * pyval) :=
  match values with
  | [] => []
  | (PList _ | PTuple _) :: _ => nested_cells offset 0 values
  | _ :: _ => row_cells offset 0 values
  end.

(** A sequence of calls of [write_row] without an offset. *)
Definition write_rows (instructions : option Instructions) (calls : list (list pyval))
    (self : ExcelUtils) : result ExcelUtils :=
  for_each calls
    (fun values self =>
       '(self, _) ← write_row self values None instructions;
       Ok self)
    self.

Definition total_rows (calls : list (list pyval)) : Z :=
  foldr (fun values n => rows_written values + n) 0 calls.

(** The cells of a sequence of calls, the cursor being [offset] at first. *)
Fixpoint cells_of_calls (offset : Z) (calls : list (list pyval)) : list (Z * Z * pyval) :=
  match calls with
  | [] => []
  | values :: calls' =>
      cells_of offset values ++ cells_of_calls (offset + rows_written values) calls'
  end.

(** A row of a nested list: a list or a tuple of items the library
    takes. *)
Definition row_ok (row_ : pyval) : Prop :=
  match row_ with
  | PList items | PTuple items => Forall taken items
  | _ => False
  end.

(** The values of a call that returns: the rows of a nested list are
    lists or tuples, and the library takes every item. *)
Definition values_ok (values : list pyval) : Prop :=
  match values with
  | (PList _ | PTuple _) :: _ => Forall row_ok values
  | _ => Forall taken values
  end.

(** Instructions that yield a formatter, which sets a format, at every
    coordinate. *)
Definition formats_ok (instructions : option Instructions) : Prop :=
  forall r c, exists formatter f,
    _convert_instructions_to_formats instructions r c = Ok formatter
    /\ Formatter.set_format formatter add_format = Ok f.

(** The loop over the cells of one row: [r] is the row written to and
    [r0] the row the instructions are asked for. *)
Definition cell_body (instructions : option Instructions) (r r0 : Z)
  : Z * pyval -> ExcelUtils -> result ExcelUtils :=
  fun '(col_idx, item) self =>
    let value := DBUtility.serialize item in
    formatter ← _convert_instructions_to_formats instructions r0 col_idx;
    write_cell self r col_idx value formatter.

(** The loop of [write_row] over the rows of a nested list. *)
Definition nested_body (instructions : option Instructions) (offset : Z)
  : Z * pyval -> ExcelUtils * Z -> result (ExcelUtils * Z) :=
  fun '(row_idx, row_) '(self, new_offset) =>
    items ← Py.iter row_;
    self ← for_each (enumerate items) (cell_body instructions (row_idx + offset) row_idx) self;
    Ok (self, new_offset + 1).

(** What a sequence [calls] of calls of [write_row] without an offset
    does from [self], and what the next such call then does. *)
Definition cursor_advances (instructions : option Instructions)
    (calls : list (list pyval)) (self : ExcelUtils) : Prop :=
  exists self',
    write_rows instructions calls self = Ok self'
    /\ writable self'
    /\ _offset self' = _offset self + total_rows calls
    /\ (exists cells,
          written self' = written self ++ cells
          /\ coords <$> cells = cells_of_calls (_offset self) calls)
    /\ forall values,
         values_ok values ->
         exists self'' cells,
           write_row self' values None instructions
             = Ok (self'', _offset self + total_rows calls + rows_written values)
           /\ _offset self'' = _offset self + total_rows calls + rows_written values
           /\ written self'' = written self' ++ cells
           /\ coords <$> cells = cells_of (_offset self + total_rows calls) values.

(** An open sheet with nothing written, the cursor at row 1. *)
Definition fresh_sheet : ExcelUtils :=
  mkExcelUtils (Some (XlsxWriter "report.xlsx" [("Sheet1", [])])) (Some 0%nat)
    None 1 None.

(** ** The header row *)

(** The header the report is meant to carry. *)
Definition documented_headers : list pyval :=
  [PStr "Pipeline Name"; PStr "Task Name"; PStr "Type"; PStr "Details";
   PStr "Dependency Task: Condition"].

(** The values written to row [r], in the order of the calls. *)
Definition row_values (r : Z) (cells : list (Z * Z * pyval)) : list pyval :=
  snd <$> filter (fun t => t.1.1 = r) cells.

(** ** The loops of the traversal *)

(** The two loops of [recursive_parsing_Individual], over the items of a
    dict and over the elements of a list, with the recursive call as a
    parameter. *)
Definition individual_dict_loop (rec : pyval -> string -> DocGen -> result DocGen)
    (kvs : list (string * pyval)) (parent_task_name : string)
  : list (string * pyval) -> option string -> DocGen -> result DocGen :=
  fix loop items current_task_name self :=
    match items with
    | [] => Ok self
    | (data, value) :: items' =>
        match value with
        | PStr name =>
            if String.eqb data "name" then
              if pipeline_name_flag self then
                loop items' current_task_name (mkDocGen false name (table_data self))
              else
                self ← record_task kvs name parent_task_name self;
                loop items' (Some name) self
            else loop items' current_task_name self
        | PDict _ | PList _ =>
            self ← rec value (or_parent current_task_name parent_task_name) self;
            loop items' current_task_name self
        | _ => loop items' current_task_name self
        end
    end.

Definition list_loop (rec : pyval -> string -> DocGen -> result DocGen)
    (parent_task_name : string) : list pyval -> DocGen -> result DocGen :=
  fix loop items self :=
    match items with
    | [] => Ok self
    | data :: items' =>
        match data with
        | PDict _ =>
            self ← rec data parent_task_name self;
            loop items' self
        | _ => loop items' self
        end
    end.

(** ** The pipeline name *)

(** The first str under a key [name] that the traversal meets: among the
    items of a dict in their order, a str under [name] itself, or the
    first such str inside a nested dict or list; among the elements of a
    list, the first such str inside an element that is a dict. *)
Definition first_name_items (rec : pyval -> option string)
  : list (string * pyval) -> option string :=
  fix go items :=
    match items with
    | [] => None
    | (data, value) :: items' =>
        match value with
        | PStr name => if String.eqb data "name" then Some name else go items'
        | PDict _ | PList _ =>
            match rec value with
            | Some n => Some n
            | None => go items'
            end
        | _ => go items'
        end
    end.

Definition first_name_elements (rec : pyval -> option string)
  : list pyval -> option string :=
  fix go items :=
    match items with
    | [] => None
    | data :: items' =>
        match data with
        | PDict _ =>
            match rec data with
            | Some n => Some n
            | None => go items'
            end
        | _ => go items'
        end
    end.

Fixpoint first_name (input_data : pyval) : option string :=
  match input_data with
  | PDict kvs => first_name_items first_name kvs
  | PList l | PTuple l => first_name_elements first_name l
  | _ => None
  end.

(** From [self] to [self'] the pipeline name was set at most once: to
    [first] when the flag was still up and there is such a name, and not
    at all otherwise. *)
Definition captured_once (self self' : DocGen) (first : option string) : Prop :=
  if pipeline_name_flag self then
    match first with
    | Some n => pipeline_name self' = n /\ pipeline_name_flag self' = false
    | None => pipeline_name self' = pipeline_name self /\ pipeline_name_flag self' = true
    end
  else pipeline_name self' = pipeline_name self /\ pipeline_name_flag self' = false.

(** ** Sample documents *)

(** A pipeline with a lookup, and a condition that depends on it and
    holds a wait. *)
Definition sample_document : pyval :=
  PDict
    [("name", PStr "PL1");
     ("activities",
      PList
        [PDict [("name", PStr "A1");
                ("type", PStr "Lookup");
                ("typeProperties",
                 PDict [("source",
                         PDict [("sqlReaderStoredProcedureName", PStr "sp_x");
                                ("storedProcedureParameters",
                                 PDict [("p1", PDict [("value", PStr "5")])])])])];
         PDict [("name", PStr "If1");
                ("type", PStr "IfCondition");
                ("dependsOn",
                 PList [PDict [("activity", PStr "A1");
                               ("dependencyConditions", PList [PStr "Succeeded"])]]);
                ("typeProperties",
                 PDict [("ifTrueActivities",
                         PList [PDict [("name", PStr "W");
                                       ("type", PStr "Wait");
                                       ("typeProperties",
                                        PDict [("waitTimeInSeconds", PInt 5)])]])])]])].

(** What the script collects from it. *)
Definition sample_table : DocGen :=
  mkDocGen false "PL1"
    [[PStr "PL1"; PStr "A1"; PStr "Lookup"; PStr "sp_x ,    Parameters: p1: 5"; PStr ""];
     [PStr "PL1"; PStr "If1"; PStr "IfCondition"; PStr ""; PStr "A1:Succeeded"];
     [PStr "PL1"; PStr "W"; PStr "Wait"; PStr "Wait time in Seconds:  5"; PStr "If1"]].

(** The writer after the script has written the report of the sample. *)
Definition sample_report : ExcelUtils :=
  match Main.main sample_document false "report.xlsx" with
  | Ok (_, xl_utility) => xl_utility
  | Raise _ => ExcelUtils.init
  end.

(** A resource of a template: a pipeline with one wait. *)
Definition pipeline_resource (name task : string) : pyval :=
  PDict [("name", PStr ("[concat(parameters('factoryName'), '/" +:+ name +:+ "')]"));
         ("type", PStr "Microsoft.DataFactory/factories/pipelines");
         ("properties",
          PDict [("activities",
                  PList [PDict [("name", PStr task); ("type", PStr "Wait")]])])].

(** A template with two pipelines. *)
Definition envelope_document : pyval :=
  PDict [("resources",
          PList [pipeline_resource "PL_A" "A1"; pipeline_resource "PL_B" "B1"])].

(** ** The dependency of a task *)

(** The task name and the dependency of a row of [table_data]. *)
Definition task_and_dependency (row_ : list pyval) : pyval * pyval :=
  match row_ with
  | [_; task; _; _; dependency] => (task, dependency)
  | _ => (PNone, PNone)
  end.

(** The name of a node: the str under its key [name]. *)
Definition own_name (kvs : list (string * pyval)) : option string :=
  match Py.assoc "name" kvs with
  | Some (PStr n) => Some n
  | _ => None
  end.

(** The kinds of activity the documentation has a row for. *)
Definition known_kinds : list string :=
  ["SqlServerStoredProcedure"; "Lookup"; "IfCondition"; "GetMetadata";
   "DatabricksNotebook"; "WebActivity"; "Wait"; "Delete"; "Copy"].

(** The type of a node holds a kind: the kind occurs in the text of the
    type, or is an element of a type that is a list, or a key of a type
    that is a dict. *)
Definition holds_kind (type : pyval) (kind : string) : bool :=
  match type with
  | PStr t => Str.contains kind t
  | PList l | PTuple l => existsb (fun x => Py.eq_str x kind) l
  | PDict kvs => existsb (fun kv : string * pyval => String.eqb kv.1 kind) kvs
  | _ => false
  end.

(** A recognised node: its type, the empty text when it has none, holds
    one of the kinds. *)
Definition recognised (kvs : list (string * pyval)) : bool :=
  existsb (holds_kind (default (PStr "") (Py.assoc "type" kvs))) known_kinds.

(** The name of the nearest named node for what a node holds: the name
    of the node when it has one that is not empty, else the one the node
    itself lies under. *)
Definition name_inside (kvs : list (string * pyval)) (nearest : string) : string :=
  match own_name kvs with
  | Some (String c n) => String c n
  | _ => nearest
  end.

Definition nodes_of_values
    (rec : pyval -> string -> list (list (string * pyval) * string))
    (nearest : string)
  : list (string * pyval) -> list (list (string * pyval) * string) :=
  fix go items :=
    match items with
    | [] => []
    | (_, value) :: items' => rec value nearest ++ go items'
    end.

Definition nodes_of_elements
    (rec : pyval -> string -> list (list (string * pyval) * string))
    (nearest : string)
  : list pyval -> list (list (string * pyval) * string) :=
  fix go items :=
    match items with
    | [] => []
    | data :: items' => rec data nearest ++ go items'
    end.

(** Following the words of the claim: the nodes of a document, which
    are its dicts at any depth, in document order, each with the name of
    the nearest named node that encloses it; [nearest] is that name for
    the document itself (the empty text when there is none).  A node
    comes before the nodes it holds. *)
Fixpoint nodes (input_data : pyval) (nearest : string)
  : list (list (string * pyval) * string) :=
  match input_data with
  | PDict kvs => (kvs, nearest) :: nodes_of_values nodes (name_inside kvs nearest) kvs
  | PList l => nodes_of_elements nodes nearest l
  | _ => []
  end.

(** A node whose [dependsOn] is absent or an empty list. *)
Definition no_dependsOn (kvs : list (string * pyval)) : bool :=
  match Py.assoc "dependsOn" kvs with
  | None | Some (PList []) => true
  | _ => false
  end.

(** What the claim says of the row of a node: a recognised node that has
    a name gets a row with that name as the task, and, when its
    [dependsOn] is absent or empty, with the name of the nearest
    enclosing named node as the dependency; the claim leaves the
    dependency open when the node has a [dependsOn]. *)
Definition expected_row (node : list (string * pyval) * string)
  : option (string * option string) :=
  match own_name node.1 with
  | Some name =>
      if recognised node.1
      then Some (name, if no_dependsOn node.1 then Some node.2 else None)
      else None
  | None => None
  end.

(** The rows the claim expects for a document, in document order. *)
Definition expected_rows (input_data : pyval) (ancestor : string)
  : list (string * option string) :=
  omap expected_row (nodes input_data ancestor).

(** A row of [table_data] shows what is expected of it. *)
Definition shows (row_ : list pyval) (expected : string * option string) : Prop :=
  (task_and_dependency row_).1 = PStr expected.1
  /\ forall dependency,
       expected.2 = Some dependency ->
       (task_and_dependency row_).2 = PStr dependency.

Definition is_container (v : pyval) : bool :=
  match v with
  | PDict _ | PList _ => true
  | _ => false
  end.

(** The items of a dict that come before its key [name]. *)
Fixpoint before_name (kvs : list (string * pyval)) : list (string * pyval) :=
  match kvs with
  | [] => []
  | (k, v) :: kvs' => if String.eqb k "name" then [] else (k, v) :: before_name kvs'
  end.

(** A dict that has a name lists it before its nested dicts and lists. *)
Definition name_first (kvs : list (string * pyval)) : bool :=
  match own_name kvs with
  | Some _ => forallb (fun kv => negb (is_container kv.2)) (before_name kvs)
  | None => true
  end.

(** A document whose dicts have no repeated key and list their name
    first. *)
Fixpoint well_ordered (v : pyval) : bool :=
  match v with
  | PDict kvs =>
      bool_decide (NoDup kvs.*1) && name_first kvs
      && (fix go (items : list (string * pyval)) : bool :=
            match items with
            | [] => true
            | (_, x) :: items' => well_ordered x && go items'
            end) kvs
  | PList l | PTuple l =>
      (fix go (items : list pyval) : bool :=
         match items with
         | [] => true
         | x :: items' => well_ordered x && go items'
         end) l
  | _ => true
  end.

(** A document none of whose lists holds a list, and that holds no
    tuple ([json.load] yields none): its nodes are the values of the
    keys of its dicts and the elements of the lists under those keys. *)
Fixpoint lists_of_nodes (v : pyval) : bool :=
  match v with
  | PDict kvs =>
      (fix go (items : list (string * pyval)) : bool :=
         match items with
         | [] => true
         | (_, x) :: items' => lists_of_nodes x && go items'
         end) kvs
  | PList l =>
      (fix go (items : list pyval) : bool :=
         match items with
         | [] => true
         | x :: items' => negb (Py.is_list x) && lists_of_nodes x && go items'
         end) l
  | PTuple _ => false
  | _ => true
  end.

(** The rows from [self] to [self'] show what is expected, one row for
    each entry and in the same order, and the flag stays down. *)
Definition rows_added (self self' : DocGen) (expected : list (string * option string))
  : Prop :=
  pipeline_name_flag self' = false
  /\ exists rows,
       table_data self' = table_data self ++ rows
       /\ Forall2 shows rows expected.

(** The activities of the sample. *)
Definition sample_activities : pyval :=
  match sample_document with
  | PDict [_; (_, activities)] => activities
  | _ => PNone
  end.

(** A pipeline whose condition lists its name after its properties. *)
Definition late_name_document : pyval :=
  PDict
    [("name", PStr "PL1");
     ("activities",
      PList
        [PDict [("type", PStr "IfCondition");
                ("typeProperties",
                 PDict [("ifTrueActivities",
                         PList [PDict [("name", PStr "W"); ("type", PStr "Wait")]])]);
                ("name", PStr "If1")]])].

(** A pipeline whose activities lie in a list inside the list. *)
Definition nested_list_document : pyval :=
  PDict [("name", PStr "PL1");
         ("activities", PList [PList [PDict [("name", PStr "A"); ("type", PStr "Wait")]]])].

(** ** The merged style of a coordinate *)

(** The style dict a tier contributes: the one found, or nothing. *)
Definition layer (st : gmap loc style) (found : option loc) : style :=
  match found with
  | Some l => Instr.content st l
  | None => ∅
  end.

(** The entries the three tiers hold for the coordinate. *)
Definition cell_found (ins : Instructions) (r c : Z) : option loc :=
  Instr.hit (store ins) (cell ins) (KTuple [AStr (pretty r); AStr (pretty c)]).

Definition row_found (ins : Instructions) (r : Z) : option loc :=
  Instr.hit (store ins) (row ins) (KAtom (AStr (pretty r))).

Definition column_found (ins : Instructions) (c : Z) : option loc :=
  Instr.hit (store ins) (column ins) (KAtom (AStr (pretty c))).

(** The overlay of the three tiers: the cell entry over the column entry
    over the row entry. *)
Definition merged (ins : Instructions) (r c : Z) : style :=
  layer (store ins) (cell_found ins r c)
    ∪ (layer (store ins) (column_found ins c) ∪ layer (store ins) (row_found ins r)).

(** The cell entry and the row entry of the coordinate are two dict
    objects. *)
Definition cell_apart_from_row (ins : Instructions) (r c : Z) : Prop :=
  forall lcell lrow,
    cell_found ins r c = Some lcell -> row_found ins r = Some lrow -> lcell <> lrow.

(** Instructions with a row tier only. *)
Definition row_tier_only (rows : gmap pykey loc) (st : gmap loc style) : Instructions :=
  mkInstructions (Some rows) None None st.

(** The example of the docstring, under text keys: its column entry and
    its cell entry use the keyword [font], which [Formatter] does not
    have. *)
Definition docstring_example : Instructions :=
  mkInstructions
    (Some {[ KAtom (AStr "0") := 1%positive ]})
    (Some {[ KAtom (AStr "2") := 2%positive ]})
    (Some {[ KTuple [AStr "0"; AStr "0"] := 3%positive ]})
    (<[1%positive := <["text_color" := PStr "black"]>
                       {[ "cell_borders" := PList [PStr "left"; PStr "top"] ]}]>
       (<[2%positive := {[ "font" := PStr "italics" ]}]>
          (<[3%positive := <["font" := PStr "bold"]>
                             (<["bg_color" := PStr "sky-blue"]>
                                {[ "cell_str_format" := PStr "$##0" ]})]> ∅))).

(** ** The format a formatter sets *)

(** Whether a value of [l] is the text [name]. *)
Definition named (name : string) (l : list pyval) : bool :=
  existsb (fun v => Py.eq_str v name) l.

(** The values the loops of [set_format] run over: none for a field
    that is [None]. *)
Definition listed (field : pyval) : result (list pyval) :=
  if Formatter.is_not_None field then Py.iter field else Ok [].

Definition border_width (name : string) (borders : list pyval) : Z :=
  if named name borders then 2 else 0.

(** The format object a formatter leaves, from a fresh one, when its
    font styles are [styles] and its borders are [borders]. *)
Definition format_of (self : Formatter) (styles borders : list pyval) : Format :=
  mkFormat (cell_str_format self) (text_color self) (bg_color self)
    (named "bold" styles) (named "italics" styles) (named "underline" styles)
    (named "strikethrough" styles)
    (border_width "top" borders) (border_width "bottom" borders)
    (border_width "left" borders) (border_width "right" borders).

(** A format object with the fields [set_format] sets by value, and
    nothing else. *)
Definition plain_format (self : Formatter) : Format :=
  mkFormat (cell_str_format self) (text_color self) (bg_color self)
    false false false false 0 0 0 0.

(** ** The formats of the report *)

(** The formatter of column [c] of a header row of [n] cells. *)
Definition header_formatter (n : nat) (c : Z) : Formatter :=
  if bool_decide (0 <= c < Z.of_nat n)
  then mkFormatter PNone (PList [PStr "bold"])
         (PList (if c =? Z.of_nat n - 1
                 then [PStr "top"; PStr "right"]
                 else [PStr "top"]))
         (PStr "black") (PStr "#99CCFF")
  else Formatter.default.

(** The format object it sets: bold, black on [#99CCFF], a top border,
    and a right border on the last column. *)
Definition header_format (n : nat) (c : Z) : Format :=
  if bool_decide (0 <= c < Z.of_nat n)
  then mkFormat PNone (PStr "black") (PStr "#99CCFF") true false false false
         2 0 0 (if c =? Z.of_nat n - 1 then 2 else 0)
  else add_format.

Definition currency_format : pyval := PStr "[$$-409]#,##0_);[$$-409](#,##0)".

(** The formatter of column [c] of a row below the header, for the
    columns from [start] to [n - 1]. *)
Definition record_formatter (start : Z) (n : nat) (c : Z) : Formatter :=
  if bool_decide (start <= c < Z.of_nat n)
  then mkFormatter (if c =? 3 then PNone else currency_format) PNone
         (if c =? Z.of_nat n - 1 then PList [PStr "right"] else PNone)
         PNone PNone
  else Formatter.default.

Definition record_format (start : Z) (n : nat) (c : Z) : Format :=
  if bool_decide (start <= c < Z.of_nat n)
  then mkFormat (if c =? 3 then PNone else currency_format) PNone PNone
         false false false false 0 0 0 (if c =? Z.of_nat n - 1 then 2 else 0)
  else add_format.

(** ** The cells a call of [write_row] writes, with their formats *)

(** The instructions give, at every coordinate, a formatter that sets
    the format [formats r c] on a fresh format object. *)
Definition formats_as (instructions : option Instructions) (formats : Z -> Z -> Format)
  : Prop :=
  forall r c, exists formatter,
    _convert_instructions_to_formats instructions r c = Ok formatter
    /\ Formatter.set_format formatter add_format = Ok (formats r c).

(** The format the instructions give at a coordinate: the one their
    formatter sets on a fresh format object (the fresh one when they
    give no formatter, or one that cannot be set). *)
Definition format_at (instructions : option Instructions) (r c : Z) : Format :=
  match _convert_instructions_to_formats instructions r c with
  | Ok formatter =>
      match Formatter.set_format formatter add_format with
      | Ok f => f
      | Raise _ => add_format
      end
  | Raise _ => add_format
  end.

(** The cells of one row of values written to row [r], the instructions
    being asked for row [r0]. *)
Definition row_of_cells (formats : Z -> Z -> Format) (r r0 : Z) (start : Z)
    (items : list pyval) : list Cell :=
  (fun '(col_idx, item) => mkCell r col_idx (handed item) (formats r0 col_idx))
    <$> enumerate_from start items.

(** The cells of the rows of a nested list: row [i] of the list goes to
    row [i + offset] of the sheet, with the format the instructions give
    for row [i]. *)
Fixpoint nested_rows_of_cells (formats : Z -> Z -> Format) (offset start : Z)
    (values : list pyval) : list Cell :=
  match values with
  | [] => []
  | row_ :: values' =>
      row_of_cells formats (start + offset) start 0 (row_items row_)
        ++ nested_rows_of_cells formats offset (start + 1) values'
  end.

(** The cells of a call of [write_row] that writes from row [offset]
    on. *)
Definition cells_written (formats : Z -> Z -> Format) (offset : Z) (values : list pyval)
  : list Cell :=
  match values with
  | [] => []
  | (PList _ | PTuple _) :: _ => nested_rows_of_cells formats offset 0 values
  | _ :: _ => row_of_cells formats offset offset 0 values
  end.

(** The row [write_row] starts from: the offset given, or the cursor. *)
Definition start_row (self : ExcelUtils) (offset : option Z) : Z :=
  match offset with
  | None => _offset self
  | Some o => o
  end.

(** ** The sheet of the report *)

(** The cells of the header row. *)
Definition header_cells : list Cell :=
  (fun '(col_idx, header) =>
     mkCell 0 col_idx header (header_format (length Main.headers) col_idx))
    <$> enumerate Main.headers.

(** The cells of a record written to row [r]: each entry of the record
    in its column. *)
Definition record_cells (r : Z) (row_ : list pyval) : list Cell :=
  (fun '(col_idx, item) =>
     mkCell r col_idx item (record_format 1 (length Main.headers) col_idx))
    <$> enumerate row_.

(** A record whose type is a text. *)
Definition typed_by_text (row_ : list pyval) : Prop :=
  exists type, row_ !! 2%nat = Some (PStr type).

(** The cells of the records, the first one written to row [r]. *)
Fixpoint records_cells (r : Z) (rows : list (list pyval)) : list Cell :=
  match rows with
  | [] => []
  | row_ :: rows' => record_cells r row_ ++ records_cells (r + 1) rows'
  end.

(** ** The rows of [table_data] *)

(** A row as [record_task] appends it: the name of the pipeline, the
    name of the task, its type, which holds one of [tasks], the details
    and the dependency, all but the type being texts. *)
Definition record_shape (row_ : list pyval) : Prop :=
  exists name task type details dependency,
    row_ = [PStr name; PStr task; type; PStr details; PStr dependency]
    /\ any_in tasks type = Ok true.

(** From [self] to [self'] rows of that shape were appended, and nothing
    else was done to [table_data]. *)
Definition records_appended (self self' : DocGen) : Prop :=
  exists rows,
    table_data self' = table_data self ++ rows /\ Forall record_shape rows.

(** The result of a detail formatter: a text, or [None]. *)
Definition text_or_None (v : pyval) : Prop :=
  match v with
  | PNone | PStr _ => True
  | _ => False
  end.

(** ** The loop of the traversal of a template *)

(** The loop of [recursive_parsing] over the items of a dict, with the
    recursive call as a parameter. *)
Definition template_dict_loop (rec : pyval -> string -> DocGen -> result DocGen)
    (kvs : list (string * pyval)) (parent_task_name : string)
  : list (string * pyval) -> option string -> DocGen -> result DocGen :=
  fix loop items current_task_name self :=
    match items with
    | [] => Ok self
    | (data, value) :: items' =>
        match value with
        | PStr name =>
            if String.eqb data "name" then
              if Str.contains v_type name then
                let end_idx := Str.rfind "'" name in
                loop items' current_task_name
                  (mkDocGen (pipeline_name_flag self)
                     (Str.slice name 37 end_idx) (table_data self))
              else
                self ← record_task kvs name parent_task_name self;
                loop items' (Some name) self
            else loop items' current_task_name self
        | PDict _ | PList _ =>
            self ← rec value (or_parent current_task_name parent_task_name) self;
            loop items' current_task_name self
        | _ => loop items' current_task_name self
        end
    end.

(** ** The pipeline name of the rows *)

(** The rows appended from [self] to [self'] carry the pipeline name of
    [self'], which is the one of [self] when the name was captured
    before. *)
Definition carries (self self' : DocGen) : Prop :=
  exists rows,
    table_data self' = table_data self ++ rows
    /\ Forall (fun row_ : list pyval => row_ !! 0%nat = Some (PStr (pipeline_name self'))) rows
    /\ (pipeline_name_flag self = false -> pipeline_name self' = pipeline_name self)
    /\ (pipeline_name_flag self = false \/ rows <> [] -> pipeline_name_flag self' = false).

(** No str under a key [name], at any depth, holds the text [v_type]: the
    value holds no name of a resource of a template. *)
Fixpoint plain_names (v : pyval) : bool :=
  match v with
  | PDict kvs =>
      (fix go (kvs : list (string * pyval)) : bool :=
         match kvs with
         | [] => true
         | (k, x) :: kvs' =>
             match x with
             | PStr name => negb (String.eqb k "name" && Str.contains v_type name)
             | _ => plain_names x
             end && go kvs'
         end) kvs
  | PList l | PTuple l =>
      (fix go (l : list pyval) : bool :=
         match l with
         | [] => true
         | x :: l' => plain_names x && go l'
         end) l
  | _ => true
  end.

(** The name of a resource of a template: [prefix], of 37 characters,
    then the name of the pipeline, then a quote and the rest. *)
Definition resource_name (prefix name rest : string) : string :=
  prefix +:+ name +:+ "'" +:+ rest.

(** From [self] to [self'] the pipeline name was left alone, and the rows
    appended carry it. *)
Definition keeps_name (self self' : DocGen) : Prop :=
  pipeline_name self' = pipeline_name self
  /\ exists rows,
       table_data self' = table_data self ++ rows
       /\ Forall (fun row_ : list pyval => row_ !! 0%nat = Some (PStr (pipeline_name self)))
            rows.

(** ** The rows [get_rows] returns *)

(** The cells of a row agree with the filters at their positions: a
    position past the row or past the filters is not compared. *)
Fixpoint matches (filters row_ : list pyval) : bool :=
  match row_, filters with
  | cell_val :: row', filter :: filters' => Eq.py_eq cell_val filter && matches filters' row'
  | _, _ => true
  end.

(** A row [get_rows] keeps: it has a cell, and it agrees with the
    filters. *)
Definition kept (filters : option (list pyval)) (row_ : list pyval) : bool :=
  negb (Nat.eqb (length row_) 0) && matches (default [] filters) row_.

(** The rows [get_rows] goes through: all of them, or all but the
    first. *)
Definition rows_read (grab_headers : bool) (sheet_rows : list (list pyval))
  : list (list pyval) :=
  drop (if grab_headers then 0%nat else 1%nat) sheet_rows.

(** The two loops of [get_rows]: over the cells of a row, and over the
    rows of the sheet. *)
Definition read_cell (strptime : string -> string -> option pyval)
    (filters : option (list pyval)) (sanitize_dates : option (list Z)) (datemode : Z)
  : Z * pyval -> list pyval * bool -> result (list pyval * bool) :=
  fun '(cell_idx, cell_val) '(row_values, disregard) =>
    let disregard :=
      if given filters
      then apply_filters (default [] filters) cell_idx cell_val disregard
      else disregard in
    if negb disregard
    then
      cell_val ←
        (if given sanitize_dates
            && bool_decide (cell_idx ∈ default [] sanitize_dates)
         then sanitize strptime datemode cell_val
         else Ok cell_val);
      Ok (row_values ++ [cell_val], disregard)
    else Ok (row_values, disregard).

Definition read_row (strptime : string -> string -> option pyval)
    (filters : option (list pyval)) (sanitize_dates : option (list Z)) (datemode : Z)
  : list pyval -> Rows -> result Rows :=
  fun row_ rows =>
    '(row_values, disregard) ←
      for_each (enumerate row_)
        (read_cell strptime filters sanitize_dates datemode)
        ([], false);
    match row_values with
    | _ :: _ => if negb disregard then append rows row_values else Ok rows
    | [] => Ok rows
    end.

(** The cells of a row that [get_rows] looks at: the cells before the
    first one that differs from the filter at its position. *)
Fixpoint reached (filters row_ : list pyval) {struct row_} : list pyval :=
  match row_ with
  | [] => []
  | cell_val :: row' =>
      match filters with
      | [] => row_
      | filter :: filters' =>
          if Eq.py_eq cell_val filter then cell_val :: reached filters' row' else []
      end
  end.

(** The exception a cell of a date column raises: [NameError] for a
    number, [RuntimeError] for a value that is neither [None] nor a str,
    none for [None] and for a str. *)
Definition date_error (cell_val : pyval) : option exn :=
  match cell_val with
  | PNone | PStr _ => None
  | PBool _ | PInt _ | PFloat _ => Some NameError
  | _ => Some RuntimeError
  end.

(** The formats a date may be written in, in the order they are
    tried. *)
Definition date_formats : list string :=
  [ "%Y-%m-%d %H:%M:%SZ"; "%m/%d/%Y %H:%M%SZ"; "%Y-%m-%d"; "%m/%d/%Y"; "%m/%d";
    "%m-%d"; "%m/%d/%Y %H:%M"; "%m/%d/%Y %I:%M"; "%Y-%m-%d %H:%M";
    "%Y-%m-%d %I:%M" ].

(** What a cell of a date column is read as, when it raises nothing:
    [None] for [None] and for the empty str; for any other str the
    datetime of the first format that parses it, and [None] when no
    format does. *)
Definition date_value (strptime : string -> string -> option pyval) (cell_val : pyval)
  : pyval :=
  match cell_val with
  | PStr (String c s) => default PNone (head (omap (strptime (String c s)) date_formats))
  | _ => PNone
  end.

(** The cells at the positions [dates], the first cell being at position
    [start]. *)
Definition at_dates (dates : list Z) (start : Z) (cells : list pyval) : list pyval :=
  snd <$> filter (fun ic : Z * pyval => ic.1 ∈ dates) (enumerate_from start cells).

(** The exception a row raises: the one of the first cell that raises,
    among the cells looked at in the date columns. *)
Definition row_error (filters : list pyval) (dates : list Z) (row_ : list pyval)
  : option exn :=
  head (omap date_error (at_dates dates 0 (reached filters row_))).

(** The exception a sheet raises: the one of its first row that
    raises. *)
Definition rows_error (filters : list pyval) (dates : list Z)
    (sheet_rows : list (list pyval)) : option exn :=
  head (omap (row_error filters dates) sheet_rows).

(** The cells of a row as they are read, the first cell being at
    position [start]: the cells of the date columns become dates. *)
Definition read_values (strptime : string -> string -> option pyval) (dates : list Z)
    (start : Z) (cells : list pyval) : list pyval :=
  (fun ic : Z * pyval =>
     if bool_decide (ic.1 ∈ dates) then date_value strptime ic.2 else ic.2)
    <$> enumerate_from start cells.

(** What [get_rows] does when it builds a list: it raises what the first
    row that raises raises, and returns, when no row raises, the rows it
    keeps as they are read. *)
Definition rows_returned (strptime : string -> string -> option pyval)
    (filters : option (list pyval)) (sanitize_dates : option (list Z))
    (sheet_rows : list (list pyval)) : result Rows :=
  match rows_error (default [] filters) (default [] sanitize_dates) sheet_rows with
  | Some e => Raise e
  | None =>
      Ok (RowList (read_values strptime (default [] sanitize_dates) 0
                     <$> List.filter (kept filters) sheet_rows))
  end.

(** Every row of the sheet is without a cell. *)
Definition all_empty (sheet_rows : list (list pyval)) : bool :=
  forallb (fun row_ : list pyval => Nat.eqb (length row_) 0) sheet_rows.

(** ** The cells of [create_new] *)

(** The row below the headers: 1 when there is a header, 0 when there
    is none. *)
Definition below_headers (separate_headers : option (list pyval)) : Z :=
  match default [] separate_headers with
  | [] => 0
  | _ :: _ => 1
  end.

(** The cells of the headers, which go to row 0 as they are. *)
Definition cells_of_headers (formats : Z -> Z -> Format) (start : Z)
    (separate_headers : list pyval) : list Cell :=
  (fun '(idx, header) => mkCell 0 idx header (formats 0 idx))
    <$> enumerate_from start separate_headers.

(** The cells of the rows: row [i] of [values] goes to row [i + offset],
    when it is a list or a tuple. *)
Fixpoint cells_of_values (formats : Z -> Z -> Format) (offset start : Z)
    (values : list pyval) : list Cell :=
  match values with
  | [] => []
  | row_ :: values' =>
      match row_ with
      | PList items | PTuple items =>
          row_of_cells formats (start + offset) (start + offset) 0 items
      | _ => []
      end ++ cells_of_values formats offset (start + 1) values'
  end.

(** All the cells of a call of [create_new]: the headers, when there are
    some, and the rows below them. *)
Definition cells_created (formats : Z -> Z -> Format)
    (separate_headers : option (list pyval)) (values : list pyval) : list Cell :=
  cells_of_headers formats 0 (default [] separate_headers)
    ++ cells_of_values formats (below_headers separate_headers) 0 values.

(** The offset [create_new] returns. *)
Definition offset_created (separate_headers : option (list pyval)) (values : list pyval)
  : Z :=
  Z.max 1 (Z.of_nat (length values)) + below_headers separate_headers.

(** Headers the library takes. *)
Definition headers_ok (separate_headers : option (list pyval)) : Prop :=
  Forall (fun header => plain header = true) (default [] separate_headers).

(** A row of the values: when it is a list or a tuple, the library takes
    its items. *)
Definition row_taken (row_ : pyval) : Prop :=
  match row_ with
  | PList items | PTuple items => Forall taken items
  | _ => True
  end.

Fixpoint ends_with (c : ascii) (s : string) : bool :=
  match s with
  | EmptyString => false
  | String c' EmptyString => Ascii.eqb c' c
  | String _ s' => ends_with c s'
  end.

(** A name the library gives to a sheet as it is: not empty, of 31
    characters at most, holding none of the characters [[]:*?/] and no
    backslash, and neither starting nor ending with a quote.  For any
    other name [add_worksheet] of the library raises, or picks a name of
    its own. *)
Definition sheet_name_ok (name : string) : bool :=
  negb (String.eqb name "")
  && (String.length name <=? 31)%nat
  && forallb (fun c => negb (Str.contains c name)) ["["; "]"; ":"; "*"; "?"; "/"; "\"]
  && negb (String.prefix "'" name)
  && negb (ends_with "'"%char name).

(** No sheet has the name, the case of the letters apart: the library
    raises for a name a sheet of the workbook has. *)
Definition fresh_name (name : string) (sheets : list (string * list Cell)) : Prop :=
  Forall (fun sheet : string * list Cell => Str.upper sheet.1 <> Str.upper name) sheets.

(** The file of the workbook a writer holds. *)
Definition workbook_file (self : ExcelUtils) : option string :=
  match workbook self with
  | Some (XlsxWriter file _) => Some file
  | _ => None
  end.

(** From [s] to [s'] the writer kept its workbook file, its sheet and
    its paths. *)
Definition same_file (s s' : ExcelUtils) : Prop :=
  workbook_file s' = workbook_file s
  /\ current_sheet s' = current_sheet s
  /\ path s' = path s
  /\ path_or_bytes_stream s' = path_or_bytes_stream s.

(** ** The entries of [dependsOn] *)

(** An entry of a [dependsOn] list: a dependency on an activity, with
    its conditions, or any other value. *)
Inductive depends_entry : Type :=
| Dependency (activity : string) (conditions : list string)
| Other (v : pyval).

Definition entry_value (e : depends_entry) : pyval :=
  match e with
  | Dependency activity conditions =>
      PDict [("activity", PStr activity);
             ("dependencyConditions", PList (PStr <$> conditions))]
  | Other v => v
  end.

(** The text of an entry: the activity, a colon and the conditions with
    commas between them; a value that is no dict has none. *)
Definition entry_text (e : depends_entry) : option string :=
  match e with
  | Dependency activity conditions => Some (activity +:+ ":" +:+ Str.join "," conditions)
  | Other _ => None
  end.

Definition entry_ok (e : depends_entry) : Prop :=
  match e with
  | Dependency _ _ => True
  | Other v => Py.is_dict v = false
  end.

(** The body of the loop of [parse_dependsOn]. *)
Definition depends_body (obj : pyval) (parent_task_name : list string)
  : result (list string) :=
  match obj with
  | PDict kvs =>
      match Py.dict_get kvs "activity" (PStr "") with
      | PStr activity =>
          conditions ← join_py "," (Py.dict_get kvs "dependencyConditions" (PList []));
          Ok (parent_task_name ++ [activity +:+ ":" +:+ conditions])
      | _ => Raise TypeError
      end
  | _ => Ok parent_task_name
  end.

(** ** The parameters of a stored procedure *)

(** The body of the loop of [ParseLookup] and [ParseSPROC] over the
    parameters. *)
Definition parameter_body (param_obj : pyval) (param : pyval) (param_details : list string)
  : result (list string) :=
  entry ← Parse.get_by param_obj param;
  val ← Py.get entry "value" PNone;
  match param with
  | PStr p => Ok (param_details ++ [p +:+ ": " +:+ Parse.value_text val])
  | _ => Raise TypeError
  end.

(** The text of a parameter: its name, a colon, and the text of its
    value, the entry [value] of the dict the parameter is given as; when
    that value is itself a dict, the text is the one of its own entry
    [value].  An entry that is missing reads [None]. *)
Definition parameter_text (kv : string * pyval) : string :=
  kv.1 +:+ ": "
    +:+ match kv.2 with
        | PDict entry =>
            match Py.assoc "value" entry with
            | Some (PDict inner) => Repr.str (default PNone (Py.assoc "value" inner))
            | Some val => Repr.str val
            | None => "None"
            end
        | _ => ""
        end.

(** An activity that calls the stored procedure [name] with the
    parameters [params]. *)
Definition sproc_activity (name : pyval) (params : list (string * pyval)) : pyval :=
  PDict [("typeProperties",
          PDict [("storedProcedureName", name);
                 ("storedProcedureParameters", PDict params)])].

(** Every parameter is given as a dict. *)
Definition parameters_are_dicts (params : list (string * pyval)) : bool :=
  forallb (fun kv : string * pyval => Py.is_dict kv.2) params.

(** ** The field list of GetMetadata *)

Definition metadata_activity (dataset : pyval) (fields : list string) : pyval :=
  PDict [("typeProperties",
          PDict [("dataset", PDict [("referenceName", dataset)]);
                 ("fieldList", PList (PStr <$> fields))])].

(** From [s] to [s'] only the cells of the current sheet changed: the
    workbook of [s'] is the one of [s] with other cells on that sheet. *)
Definition only_current (s s' : ExcelUtils) : Prop :=
  exists file sheets i name cells cells',
    workbook s = Some (XlsxWriter file sheets)
    /\ current_sheet s = Some i
    /\ sheets !! i = Some (name, cells)
    /\ workbook s' = Some (XlsxWriter file (<[i := (name, cells')]> sheets))
    /\ current_sheet s' = Some i.

(** ** The parameters of a notebook *)

(** The body of the loop of [ParseNotebookActivity] over the base
    parameters. *)
Definition notebook_body (param_obj : pyval) (param : pyval) (param_details : list string)
  : result (list string) :=
  val ← Parse.get_by param_obj param;
  match param with
  | PStr p =>
      match val with
      | PDict kvs =>
          Ok (param_details
                ++ [p +:+ " : " +:+ Repr.str (Py.dict_get kvs "value" PNone)])
      | _ =>
          line ← Py.str_add (p +:+ " : ") val;
          Ok (param_details ++ [line])
      end
  | _ => Raise TypeError
  end.

(** The line of a base parameter: its name, a colon between spaces, and
    its value when it is a str, the text of its inner value when it is a
    dict. *)
Definition notebook_line (kv : string * pyval) : string :=
  kv.1 +:+ " : "
    +:+ match kv.2 with
        | PDict entry => Repr.str (Py.dict_get entry "value" PNone)
        | PStr s => s
        | _ => ""
        end.

Definition notebook_activity (notebook_path : pyval) (params : list (string * pyval))
  : pyval :=
  PDict [("typeProperties",
          PDict [("notebookPath", notebook_path);
                 ("baseParameters", PDict params)])].

(** Every base parameter is a str or a dict. *)
Definition parameters_are_texts (params : list (string * pyval)) : bool :=
  forallb (fun kv : string * pyval => Py.is_dict kv.2 || Py.is_str kv.2) params.

(** ** A copy from files *)

(** The entry [key] of a copy activity: one reference to the dataset
    [name], or no entry at all. *)
Definition dataset_refs (key : string) (name : option string) : list (string * pyval) :=
  match name with
  | Some n =>
      [(key, PList [PDict [("referenceName", PStr n); ("type", PStr "DatasetReference")]])]
  | None => []
  end.

(** A copy activity whose source, of type [source_type], reads the files
    [file] of the folder [folder]. *)
Definition copy_activity (input output : option string)
    (source_type file folder : string) : pyval :=
  PDict (dataset_refs "inputs" input ++ dataset_refs "outputs" output
           ++ [("typeProperties",
                PDict [("source",
                        PDict [("type", PStr source_type);
                               ("storeSettings",
                                PDict [("wildcardFileName", PStr file);
                                       ("wildcardFolderPath", PStr folder)])])])]).

(** ** Names with underscores *)

Fixpoint ends_with_underscore (s : string) : bool :=
  match s with
  | EmptyString => false
  | String c EmptyString => Ascii.eqb c "_"
  | String _ s' => ends_with_underscore s'
  end.

(** A name one of whose words is empty: the empty name, a name that
    starts or ends with an underscore, or that has two underscores in a
    row. *)
Definition has_empty_word (s : string) : bool :=
  String.eqb s "" || String.prefix "_" s || ends_with_underscore s
  || Str.contains "__" s.

(** The name [convert_to_human_name] cuts into words. *)
Definition cleaned (name : string) (remove : option string) : string :=
  DBUtility.without remove (Str.strip name).

(** A word with its first character in upper case. *)
Definition capitalized (word : string) : string :=
  match word with
  | EmptyString => EmptyString
  | String c rest => String (Str.upper_char c) rest
  end.

(** A word of a name: not empty, and without an underscore. *)
Definition is_word (word : string) : Prop :=
  word <> "" /\ Str.contains "_" word = false.

(** ** A lookup *)

(** A lookup activity whose source is [source]. *)
Definition lookup_activity (source : list (string * pyval)) : pyval :=
  PDict [("typeProperties", PDict [("source", PDict source)])].

(** The source of a lookup that calls the stored procedure [name] with
    the parameters [params]. *)
Definition procedure_source (name : pyval) (params : list (string * pyval))
  : list (string * pyval) :=
  [("type", PStr "AzureSqlSource");
   ("sqlReaderStoredProcedureName", name);
   ("storedProcedureParameters", PDict params)].

(** * Properties *)

(** ** The offset returned for a sheet with headers and no rows *)

(** C6: with headers and an empty list of rows, [create_new] writes the
    headers to row 0 and returns 2 (and not 1, the next free row):
    [row_idx] is 0 when the loop over the rows has not run, and
    [row_idx + 1 + offset] is returned.  [create_new_sheet] does the
    same. *)
Theorem C6_create_new_headers_only_returns_2 :
  forall (temp_path : string) (h1 h2 : pyval),
    exists xl_utility xl_utility',
      create_new false ExcelUtils.init temp_path [] true "Sheet1" (Some [h1; h2]) None
        = Ok (xl_utility, 2)
      /\ _offset xl_utility = 2
      /\ coords <$> written xl_utility = [(0, 0, h1); (0, 1, h2)]
      /\ create_new_sheet xl_utility [] (Some [h1; h2]) "Sheet2" None
         = Ok (xl_utility', 2)
      /\ coords <$> written xl_utility' = [(0, 0, h1); (0, 1, h2)].
Proof.
  intros temp_path h1 h2. eexists. eexists. split; [vm_compute; reflexivity|].
  repeat split; vm_compute; reflexivity.
Qed.

(** ** Activities of type ExecutePipeline *)

(** No entry of [tasks] occurs in the text "ExecutePipeline". *)
Lemma ExecutePipeline_not_in_tasks :
  any_in tasks (PStr "ExecutePipeline") = Ok false.
Proof. vm_compute. reflexivity. Qed.

(** C3: a node of type ExecutePipeline gets no row, although
    [parse_task_details] has a formatter for the type: the type is
    missing from [tasks]. *)
Theorem C3_ExecutePipeline_is_not_recorded :
  (forall input_data name parent_task_name self,
      record_task (("type", PStr "ExecutePipeline") :: input_data) name
        parent_task_name self = Ok self)
  /\ Main.parse_document execute_pipeline_document = Ok (mkDocGen false "PL1" [])
  /\ parse_task_details (PStr "ExecutePipeline")
       (PDict [("typeProperties",
                PDict [("pipeline", PDict [("referenceName", PStr "Child")])])])
     = Ok (PStr "Child pipeline Name : Child").
Proof.
  split; [|split]; vm_compute; reflexivity.
Qed.

(** ** Reading with filters and date columns *)

(** A float equals an int when its exact value is that int: 1e+23 is
    the double 99999999999999991611392, and not the int [10 ^ 23]. *)
Example float_equals_its_exact_value :
  Eq.py_eq (PFloat "1.0") (PInt 1) = true
  /\ Eq.py_eq (PFloat "1.5") (PInt 1) = false
  /\ Eq.py_eq (PFloat "1e+16") (PInt (10 ^ 16)) = true
  /\ Eq.py_eq (PFloat "1e+23") (PInt (10 ^ 23)) = false
  /\ Eq.py_eq (PFloat "1e+23") (PInt 99999999999999991611392) = true
  /\ Eq.py_eq (PFloat "-0.0") (PInt 0) = true
  /\ Eq.py_eq (PFloat "5e-324") (PInt 0) = false
  /\ Eq.py_eq (PFloat "43831.0") (PFloat "43831.0") = true.
Proof. repeat split; vm_compute; reflexivity. Qed.

Lemma filters_past cell_val (cell_idx : Z) filters : forall (start : Z) disregard,
  cell_idx < start ->
  foldl (fun disregard '(filter_idx, filter) =>
           if filter_idx =? cell_idx
           then if Eq.py_ne cell_val filter then true else disregard
           else disregard)
    disregard (enumerate_from start filters)
  = disregard.
Proof.
  induction filters as [|filter filters IH]; intros start disregard Hlt; [done|].
  cbn [enumerate_from foldl]. rewrite (proj2 (Z.eqb_neq _ _)) by lia.
  apply IH. lia.
Qed.

Lemma filters_lookup cell_val filters : forall (start : Z) (k : nat) disregard,
  foldl (fun disregard '(filter_idx, filter) =>
           if filter_idx =? start + Z.of_nat k
           then if Eq.py_ne cell_val filter then true else disregard
           else disregard)
    disregard (enumerate_from start filters)
  = disregard || match filters !! k with
                 | Some filter => Eq.py_ne cell_val filter
                 | None => false
                 end.
Proof.
  induction filters as [|filter filters IH]; intros start k disregard.
  - simpl. by rewrite orb_false_r.
  - cbn [enumerate_from foldl]. destruct k as [|k].
    + replace (start + Z.of_nat 0) with start by lia. rewrite Z.eqb_refl.
      rewrite filters_past by lia. simpl.
      by destruct (Eq.py_ne cell_val filter), disregard.
    + rewrite (proj2 (Z.eqb_neq _ _)) by lia.
      replace (start + Z.of_nat (S k)) with (start + 1 + Z.of_nat k) by lia.
      by rewrite IH.
Qed.

(** The loop over the filters compares the cell with the filter at its
    position, and with no other. *)
Lemma apply_filters_at filters (k : nat) cell_val disregard :
  apply_filters filters (Z.of_nat k) cell_val disregard
  = disregard || match filters !! k with
                 | Some filter => Eq.py_ne cell_val filter
                 | None => false
                 end.
Proof.
  unfold apply_filters, enumerate.
  exact (filters_lookup cell_val filters 0 k disregard).
Qed.

Lemma get_rows_loops strptime self filters grab_headers sanitize_dates :
  get_rows strptime self filters grab_headers sanitize_dates
  = ('(datemode, sheet_rows) ← current_rows self;
     for_each (rows_read grab_headers sheet_rows)
       (read_row strptime filters sanitize_dates datemode)
       (if grab_headers && negb (given filters)
        then RowGenerator sheet_rows
        else RowList [])).
Proof. reflexivity. Qed.

Lemma matches_nil row_ : matches [] row_ = true.
Proof. by destruct row_. Qed.

Lemma reached_nil row_ : reached [] row_ = row_.
Proof. by destruct row_. Qed.

(** A row that agrees with the filters is looked at to its end. *)
Lemma reached_matches filters : forall row_,
  matches filters row_ = true -> reached filters row_ = row_.
Proof.
  induction filters as [|filter filters IH]; intros row_ H; [apply reached_nil|].
  destruct row_ as [|cell_val row_]; [done|]. simpl in *.
  destruct (Eq.py_eq cell_val filter); [|done]. by rewrite IH.
Qed.

Lemma given_default {A} (l : option (list A)) : given l = false -> default [] l = [].
Proof. by destruct l as [[|x l]|]. Qed.

Lemma given_elem_of (l : option (list Z)) (i : Z) :
  given l && bool_decide (i ∈ default [] l) = bool_decide (i ∈ default [] l).
Proof.
  destruct (given l) eqn:Hg; [done|]. rewrite (given_default _ Hg).
  symmetry. apply bool_decide_eq_false. apply not_elem_of_nil.
Qed.

Lemma first_parse_head strptime param formats :
  first_parse strptime param formats = head (omap (strptime param) formats).
Proof.
  induction formats as [|f formats IH]; [done|].
  cbn [first_parse omap list_omap]. by destruct (strptime param f).
Qed.

(** [is_datetime] never raises, and its second component is the datetime
    of the first accepted format that parses the text, [None] when there
    is none. *)
Lemma is_datetime_value strptime param :
  (is_datetime strptime param).2
  = default PNone (head (omap (strptime param) date_formats)).
Proof.
  unfold is_datetime. rewrite first_parse_head.
  change accepted_formats with date_formats.
  destruct (head _); [done|]. by destruct (foldl _ _ _).
Qed.

(** What the date branch does with a cell. *)
Lemma sanitize_date strptime datemode cell_val :
  sanitize strptime datemode cell_val
  = match date_error cell_val with
    | Some e => Raise e
    | None => Ok (date_value strptime cell_val)
    end.
Proof.
  destruct cell_val as [| b | z | r | s | l | l | kvs | y m d | bs]; try done.
  destruct s as [|c s]; [done|].
  cbn [sanitize date_error date_value String.eqb].
  rewrite <- is_datetime_value. by destruct (is_datetime strptime (String c s)).
Qed.

Lemma at_dates_cons dates start cell_val cells :
  at_dates dates start (cell_val :: cells)
  = (if bool_decide (start ∈ dates) then [cell_val] else [])
      ++ at_dates dates (start + 1) cells.
Proof.
  unfold at_dates. cbn [enumerate_from]. rewrite filter_cons. cbn [fst].
  unfold bool_decide. by destruct (decide_rel elem_of start dates).
Qed.

Lemma at_dates_none start cells : at_dates [] start cells = [].
Proof.
  revert start. induction cells as [|cell_val cells IH]; intros start; [done|].
  rewrite at_dates_cons, IH.
  by rewrite bool_decide_eq_false_2 by apply not_elem_of_nil.
Qed.

Lemma read_values_cons strptime dates start cell_val cells :
  read_values strptime dates start (cell_val :: cells)
  = (if bool_decide (start ∈ dates) then date_value strptime cell_val else cell_val)
      :: read_values strptime dates (start + 1) cells.
Proof. reflexivity. Qed.

Lemma read_values_none strptime start cells : read_values strptime [] start cells = cells.
Proof.
  revert start. induction cells as [|cell_val cells IH]; intros start; [done|].
  rewrite read_values_cons, IH.
  by rewrite bool_decide_eq_false_2 by apply not_elem_of_nil.
Qed.

Lemma row_error_none filters row_ : row_error filters [] row_ = None.
Proof. unfold row_error. by rewrite at_dates_none. Qed.

Lemma rows_error_none filters sheet_rows : rows_error filters [] sheet_rows = None.
Proof.
  unfold rows_error. induction sheet_rows as [|row_ sheet_rows IH]; [done|].
  cbn [omap list_omap]. by rewrite row_error_none.
Qed.

Section Reading.

Variable strptime : string -> string -> option pyval.
Variable filters : option (list pyval).
Variable sanitize_dates : option (list Z).
Variable datemode : Z.

(** One cell of a row that agreed with the filters so far. *)
Lemma read_cell_at (k : nat) cell_val row_values :
  read_cell strptime filters sanitize_dates datemode
    (Z.of_nat k, cell_val) (row_values, false)
  = if match default [] filters !! k with
       | Some filter => Eq.py_eq cell_val filter
       | None => true
       end
    then if bool_decide (Z.of_nat k ∈ default [] sanitize_dates)
         then match date_error cell_val with
              | Some e => Raise e
              | None => Ok (row_values ++ [date_value strptime cell_val], false)
              end
         else Ok (row_values ++ [cell_val], false)
    else Ok (row_values, true).
Proof.
  unfold read_cell. cbv zeta.
  assert (Hd : (if given filters
                then apply_filters (default [] filters) (Z.of_nat k) cell_val false
                else false)
               = negb match default [] filters !! k with
                      | Some filter => Eq.py_eq cell_val filter
                      | None => true
                      end).
  { destruct (given filters) eqn:Hg.
    - rewrite apply_filters_at. unfold Eq.py_ne. by destruct (default [] filters !! k).
    - by rewrite (given_default _ Hg). }
  rewrite Hd, given_elem_of.
  destruct (match default [] filters !! k with
            | Some filter => Eq.py_eq cell_val filter
            | None => true
            end); [|done].
  cbn [negb]. destruct (bool_decide _); [|done].
  rewrite sanitize_date. by destruct (date_error cell_val).
Qed.

(** Once a cell differs from its filter, the rest of the row is passed
    over. *)
Lemma read_cells_disregarded cells : forall (k : nat) row_values,
  for_each (enumerate_from (Z.of_nat k) cells)
    (read_cell strptime filters sanitize_dates datemode) (row_values, true)
  = Ok (row_values, true).
Proof.
  induction cells as [|cell_val cells IH]; intros k row_values; [done|].
  cbn [enumerate_from for_each].
  assert (Hcell : read_cell strptime filters sanitize_dates datemode
                    (Z.of_nat k, cell_val) (row_values, true)
                  = Ok (row_values, true)).
  { unfold read_cell. cbv zeta. destruct (given filters); [|done].
    rewrite apply_filters_at. done. }
  rewrite Hcell. cbn [mbind result_bind].
  replace (Z.of_nat k + 1) with (Z.of_nat (S k)) by lia. apply IH.
Qed.

(** The cells of a row from position [k] on. *)
Lemma read_cells_at cells : forall (k : nat) row_values,
  for_each (enumerate_from (Z.of_nat k) cells)
    (read_cell strptime filters sanitize_dates datemode) (row_values, false)
  = match head (omap date_error
                  (at_dates (default [] sanitize_dates) (Z.of_nat k)
                     (reached (drop k (default [] filters)) cells))) with
    | Some e => Raise e
    | None =>
        Ok (row_values
              ++ read_values strptime (default [] sanitize_dates) (Z.of_nat k)
                   (reached (drop k (default [] filters)) cells),
            negb (matches (drop k (default [] filters)) cells))
    end.
Proof.
  induction cells as [|cell_val cells IH]; intros k row_values.
  - cbn. rewrite app_nil_r. by destruct (drop k (default [] filters)).
  - cbn [enumerate_from for_each]. rewrite read_cell_at.
    replace (Z.of_nat k + 1) with (Z.of_nat (S k)) by lia.
    destruct (default [] filters !! k) as [filter|] eqn:Hk.
    + rewrite (drop_S _ _ _ Hk). cbn [matches reached].
      destruct (Eq.py_eq cell_val filter); cbn [andb].
      * rewrite at_dates_cons, read_values_cons.
        replace (Z.of_nat k + 1) with (Z.of_nat (S k)) by lia.
        destruct (bool_decide (Z.of_nat k ∈ default [] sanitize_dates)).
        -- cbn [app omap list_omap]. destruct (date_error cell_val) as [e|]; [done|].
           cbn [mbind result_bind]. rewrite IH.
           destruct (head _); [done|]. by rewrite <- app_assoc.
        -- cbn [app mbind result_bind]. rewrite IH.
           destruct (head _); [done|]. by rewrite <- app_assoc.
      * cbn [mbind result_bind]. rewrite read_cells_disregarded. cbn.
        by rewrite app_nil_r.
    + apply lookup_ge_None in Hk.
      rewrite (drop_ge _ k) by done. rewrite reached_nil, matches_nil.
      rewrite at_dates_cons, read_values_cons.
      replace (Z.of_nat k + 1) with (Z.of_nat (S k)) by lia.
      specialize (IH (S k)). rewrite (drop_ge _ (S k)) in IH by lia.
      rewrite reached_nil, matches_nil in IH.
      destruct (bool_decide (Z.of_nat k ∈ default [] sanitize_dates)).
      * cbn [app omap list_omap]. destruct (date_error cell_val) as [e|]; [done|].
        cbn [mbind result_bind]. rewrite IH.
        destruct (head _); [done|]. by rewrite <- app_assoc.
      * cbn [app mbind result_bind]. rewrite IH.
        destruct (head _); [done|]. by rewrite <- app_assoc.
Qed.

(** A row: it raises what its first cell that raises raises; else it is
    appended, as read, when it has a cell and agrees with the filters. *)
Lemma read_row_at row_ rows :
  read_row strptime filters sanitize_dates datemode row_ rows
  = match row_error (default [] filters) (default [] sanitize_dates) row_ with
    | Some e => Raise e
    | None =>
        if kept filters row_
        then append rows (read_values strptime (default [] sanitize_dates) 0 row_)
        else Ok rows
    end.
Proof.
  unfold read_row, enumerate, kept, row_error.
  pose proof (read_cells_at row_ 0 []) as Hrun.
  change (Z.of_nat 0) with 0 in Hrun. rewrite drop_0 in Hrun. rewrite Hrun.
  destruct (head _) as [e|]; [done|]. cbn [mbind result_bind app].
  destruct (matches (default [] filters) row_) eqn:Hm.
  - rewrite (reached_matches _ _ Hm). cbn [negb]. by destruct row_.
  - rewrite andb_false_r. cbn [negb]. by destruct (read_values _ _ _ _).
Qed.

Lemma read_rows_list sheet_rows : forall l,
  for_each sheet_rows (read_row strptime filters sanitize_dates datemode) (RowList l)
  = match rows_error (default [] filters) (default [] sanitize_dates) sheet_rows with
    | Some e => Raise e
    | None =>
        Ok (RowList (l ++ (read_values strptime (default [] sanitize_dates) 0
                             <$> List.filter (kept filters) sheet_rows)))
    end.
Proof.
  unfold rows_error.
  induction sheet_rows as [|row_ sheet_rows IH]; intros l.
  - cbn. by rewrite app_nil_r.
  - cbn [for_each List.filter omap list_omap]. rewrite read_row_at.
    destruct (row_error _ _ row_) as [e|]; [done|].
    destruct (kept filters row_); cbn [append mbind result_bind].
    + rewrite IH. destruct (head _); [done|].
      by rewrite fmap_cons, <- app_assoc.
    + apply IH.
Qed.

End Reading.

(** When [get_rows] builds a list, it raises for the first cell that
    raises, and returns the rows it keeps when no cell does. *)
Lemma get_rows_list strptime self filters grab_headers sanitize_dates datemode sheet_rows :
  current_rows self = Ok (datemode, sheet_rows) ->
  grab_headers = false \/ given filters = true ->
  get_rows strptime self filters grab_headers sanitize_dates
  = rows_returned strptime filters sanitize_dates (rows_read grab_headers sheet_rows).
Proof.
  intros Hrows Hlist. rewrite get_rows_loops, Hrows. cbn [mbind result_bind].
  replace (grab_headers && negb (given filters)) with false
    by (destruct Hlist as [-> | ->]; [done | by rewrite andb_false_r]).
  by rewrite read_rows_list.
Qed.

(** Without date columns no cell raises, and the rows are read as they
    are. *)
Lemma rows_returned_no_dates strptime filters sheet_rows :
  rows_returned strptime filters None sheet_rows
  = Ok (RowList (List.filter (kept filters) sheet_rows)).
Proof.
  unfold rows_returned. cbn [default]. rewrite rows_error_none.
  f_equal. f_equal. induction (List.filter (kept filters) sheet_rows) as [|row_ l IH];
    [done|].
  by rewrite fmap_cons, read_values_none, IH.
Qed.

(** The cells of a row agree with the filters when every filter equals
    the cell at its position. *)
Lemma matches_lookup filters : forall row_,
  matches filters row_ = true
  <-> forall (i : nat) filter cell_val,
        filters !! i = Some filter -> row_ !! i = Some cell_val ->
        Eq.py_eq cell_val filter = true.
Proof.
  induction filters as [|filter filters IH]; intros row_.
  - rewrite matches_nil. split; [|done]. intros _ i f c Hf. by destruct i.
  - destruct row_ as [|cell_val row_].
    + split; [|done]. intros _ i f c _ Hc. by destruct i.
    + cbn [matches]. rewrite andb_true_iff, IH. split.
      * intros [Hhead Htail] [|i] f c Hf Hc; simpl in Hf, Hc.
        -- by injection Hf as <-; injection Hc as <-.
        -- by eapply Htail.
      * intros H. split; [exact (H 0%nat filter cell_val eq_refl eq_refl)|].
        intros i f c Hf Hc. exact (H (S i) f c Hf Hc).
Qed.

(** C7, as stated, fails: with the filter list [[None, "B"]] the row
    [["x", "B"]] is not returned, because its first cell differs from
    [None]. *)
Lemma C7_None_filter_is_no_wildcard :
  ~ exists strptime datemode header,
      get_rows strptime
        (reading datemode [header; [PStr "x"; PStr "B"]; [PStr "x"; PStr "C"]])
        (Some [PNone; PStr "B"]) false None
      = Ok (RowList [[PStr "x"; PStr "B"]]).
Proof.
  intros (sp & datemode & header & H). vm_compute in H. discriminate H.
Qed.

(** C7, amended: read with the header skipped and no date column,
    [get_rows] returns the rows that have a cell and agree with the
    filter list, in their order; a row agrees with the list when every
    entry of the list, [None] included, equals the cell at its position
    (an entry past the end of the row is not compared). *)
Theorem C7_filters_compare_every_position :
  forall strptime self filters datemode sheet_rows,
    current_rows self = Ok (datemode, sheet_rows) ->
    get_rows strptime self (Some filters) false None
    = Ok (RowList
            (List.filter
               (fun row_ => negb (Nat.eqb (length row_) 0) && matches filters row_)
               (drop 1 sheet_rows)))
    /\ forall row_,
         matches filters row_ = true
         <-> forall (i : nat) filter cell_val,
               filters !! i = Some filter -> row_ !! i = Some cell_val ->
               Eq.py_eq cell_val filter = true.
Proof.
  intros sp self filters datemode sheet_rows Hrows. split.
  - rewrite (get_rows_list sp self (Some filters) false None datemode sheet_rows Hrows
               (or_introl eq_refl)).
    apply rows_returned_no_dates.
  - apply matches_lookup.
Qed.

(** The sheet of the claim: the filter list [[None, "B"]] returns no row
    of it, the filter list [["x", "B"]] the row [["x", "B"]]. *)
Lemma C7_filters_compare_every_position_witness :
  get_rows (fun _ _ => None)
    (reading 0 [[PStr "h1"; PStr "h2"]; [PStr "x"; PStr "B"]; [PStr "x"; PStr "C"]])
    (Some [PNone; PStr "B"]) false None
  = Ok (RowList [])
  /\ get_rows (fun _ _ => None)
       (reading 0 [[PStr "h1"; PStr "h2"]; [PStr "x"; PStr "B"]; [PStr "x"; PStr "C"]])
       (Some [PStr "x"; PStr "B"]) false None
     = Ok (RowList [[PStr "x"; PStr "B"]]).
Proof.
  split.
  - exact (proj1 (C7_filters_compare_every_position (fun _ _ => None)
                    (reading 0 [[PStr "h1"; PStr "h2"]; [PStr "x"; PStr "B"];
                                [PStr "x"; PStr "C"]])
                    [PNone; PStr "B"] 0
                    [[PStr "h1"; PStr "h2"]; [PStr "x"; PStr "B"]; [PStr "x"; PStr "C"]]
                    eq_refl)).
  - exact (proj1 (C7_filters_compare_every_position (fun _ _ => None)
                    (reading 0 [[PStr "h1"; PStr "h2"]; [PStr "x"; PStr "B"];
                                [PStr "x"; PStr "C"]])
                    [PStr "x"; PStr "B"] 0
                    [[PStr "h1"; PStr "h2"]; [PStr "x"; PStr "B"]; [PStr "x"; PStr "C"]]
                    eq_refl)).
Defined.

(** A text no format of [is_datetime] parses is replaced by [None]. *)
Lemma is_datetime_unparsed :
  forall strptime param,
    (forall f, strptime param f = None) ->
    is_datetime strptime param = (true, PNone).
Proof.
  intros strptime param H. unfold is_datetime.
  assert (Hfirst : forall fs, first_parse strptime param fs = None).
  { induction fs as [|f fs IH]; simpl; [reflexivity|]. rewrite H. exact IH. }
  rewrite Hfirst. simpl. rewrite !H. reflexivity.
Qed.




(** ** The style cascade *)

Section Cascade.

Implicit Types (st : gmap loc style) (tier : option (gmap pykey loc)).
Implicit Types (ins : Instructions) (key : pykey) (l : loc).

Lemma hit_int_keyed st tier key :
  tier_Forall (fun k => is_int_key k = true) tier ->
  is_int_key key = false ->
  Instr.hit st tier key = None.
Proof.
  intros Hall Hkey. unfold Instr.hit. destruct tier as [t|]; simpl; [|done].
  destruct (t !! key) as [l|] eqn:Hl; simpl; [|done].
  apply Hall in Hl. congruence.
Qed.

Lemma hit_text_keyed st tier key :
  is_text_key key = true ->
  Instr.hit st (text_keyed_tier tier) key = Instr.hit st tier key.
Proof.
  intros Hkey. unfold Instr.hit, text_keyed_tier.
  destruct tier as [t|]; simpl; [|done].
  rewrite map_lookup_filter. destruct (t !! key) as [l|]; simpl; [|done].
  rewrite option_guard_True by done. done.
Qed.

Lemma hit_Some st tier t key l k v :
  tier = Some t -> t !! key = Some l -> Instr.content st l !! k = Some v ->
  Instr.hit st tier key = Some l.
Proof.
  intros -> Hl Hv. unfold Instr.hit. simpl. rewrite Hl. simpl.
  rewrite bool_decide_eq_false_2; [done|].
  intros Hempty. rewrite Hempty in Hv. by rewrite lookup_empty in Hv.
Qed.

Lemma content_update st dst src l :
  Instr.content (Instr.update st dst src) l
  = if decide (l = dst) then Instr.content st src ∪ Instr.content st dst
    else Instr.content st l.
Proof.
  unfold Instr.update, Instr.content at 1. destruct (decide (l = dst)) as [->|Hne].
  - by rewrite lookup_insert_eq.
  - by rewrite lookup_insert_ne.
Qed.

(** [Formatter] accepts a dict of parameters, and each field takes the
    value given for it. *)
Lemma init_parameters (kwargs : style) :
  map_Forall (fun k _ => k ∈ Formatter.parameters) kwargs ->
  exists f, Formatter.init kwargs = Ok f
    /\ forall name v, kwargs !! name = Some v -> Formatter.field name f = v.
Proof.
  intros Hall. unfold Formatter.init. rewrite bool_decide_eq_true_2 by done.
  eexists. split; [reflexivity|]. intros name v Hv.
  pose proof (Hall _ _ Hv) as Hin. unfold Formatter.parameters in Hin.
  repeat (apply elem_of_cons in Hin as [->|Hin]; [by rewrite Hv|]).
  by apply elem_of_nil in Hin.
Qed.

End Cascade.

(** C1, as stated, fails: with a row entry for row 0, a column entry for
    column 0 and a cell entry for (0, 0), keyed by the indices and each
    giving a text colour, the formatter resolved at (0, 0) is the default
    one, with no text colour at all. *)
Lemma C1_entries_under_integer_keys_are_not_found :
  row int_keyed_example = Some {[ KAtom (AInt 0) := 1%positive ]}
  /\ column int_keyed_example = Some {[ KAtom (AInt 0) := 2%positive ]}
  /\ cell int_keyed_example = Some {[ KTuple [AInt 0; AInt 0] := 3%positive ]}
  /\ Instr.content (store int_keyed_example) 1%positive !! "text_color"
     = Some (PStr "black")
  /\ Instr.content (store int_keyed_example) 2%positive !! "text_color"
     = Some (PStr "red")
  /\ Instr.content (store int_keyed_example) 3%positive !! "text_color"
     = Some (PStr "blue")
  /\ _convert_instructions_to_formats (Some int_keyed_example) 0 0
     = Ok Formatter.default
  /\ Formatter.field "text_color" Formatter.default = PNone.
Proof. repeat split; vm_compute; reflexivity. Qed.

(** C1, amended: when the row tier has an entry under the text of the row
    index, the column tier one under the text of the column index, and
    the cell tier one under the pair of the two texts, the three style
    dicts giving a value to the same field, the cell entry not being the
    very dict object of the row entry, and the dicts holding parameters of
    [Formatter] only, then the formatter is built and its value for the
    field is the one of the cell tier. *)
Theorem C1_cell_tier_wins :
  forall ins (r c : Z) rows cols cells lrow lcol lcell name vrow vcol vcell,
    row ins = Some rows ->
    rows !! KAtom (AStr (pretty r)) = Some lrow ->
    column ins = Some cols ->
    cols !! KAtom (AStr (pretty c)) = Some lcol ->
    cell ins = Some cells ->
    cells !! KTuple [AStr (pretty r); AStr (pretty c)] = Some lcell ->
    Instr.content (store ins) lrow !! name = Some vrow ->
    Instr.content (store ins) lcol !! name = Some vcol ->
    Instr.content (store ins) lcell !! name = Some vcell ->
    lcell <> lrow ->
    Forall (fun l => map_Forall (fun k _ => k ∈ Formatter.parameters)
                       (Instr.content (store ins) l)) [lrow; lcol; lcell] ->
    exists f, _convert_instructions_to_formats (Some ins) r c = Ok f
              /\ Formatter.field name f = vcell.
Proof.
  intros ins r c rows cols cells lrow lcol lcell name vrow vcol vcell
    Hrow Hlrow Hcol Hlcol Hcell Hlcell Hvrow Hvcol Hvcell Hne Hpar.
  rewrite Forall_forall in Hpar.
  unfold _convert_instructions_to_formats.
  assert (Instr.is_empty ins = false) as -> by (unfold Instr.is_empty; by rewrite Hrow).
  erewrite (hit_Some _ (cell ins)) by eauto.
  erewrite (hit_Some _ (row ins)) by eauto.
  erewrite (hit_Some _ (column ins)) by eauto.
  destruct (init_parameters
              (Instr.content
                 (Instr.update (Instr.update (store ins) lrow lcol) lrow lcell) lrow))
    as (f & Hf & Hfield).
  - rewrite !content_update. rewrite decide_True by done.
    rewrite (decide_False (P := lcell = lrow)) by done.
    destruct (decide (lrow = lrow)); [|done].
    apply map_Forall_union_2; [apply Hpar; set_solver|].
    apply map_Forall_union_2; apply Hpar; set_solver.
  - exists f. split; [exact Hf|]. apply Hfield.
    rewrite !content_update. rewrite decide_True by done.
    rewrite (decide_False (P := lcell = lrow)) by done.
    apply lookup_union_Some_l. exact Hvcell.
Qed.

(** The claim holds at the example keyed by texts. *)
Lemma C1_cell_tier_wins_witness :
  exists f, _convert_instructions_to_formats (Some text_keyed_example) 0 0 = Ok f
            /\ Formatter.field "text_color" f = PStr "blue".
Proof.
  apply (C1_cell_tier_wins text_keyed_example 0 0
           {[ KAtom (AStr "0") := 1%positive ]}
           {[ KAtom (AStr "0") := 2%positive ]}
           {[ KTuple [AStr "0"; AStr "0"] := 3%positive ]}
           1%positive 2%positive 3%positive "text_color"
           (PStr "black") (PStr "red") (PStr "blue"));
    try reflexivity.
  - discriminate.
  - apply (bool_decide_unpack _). vm_compute. exact I.
Defined.

(** Why the row dict and the cell dict must be two objects: the column
    overlay is written into the copy of the row dict, and when the cell
    entry is that very dict the cell overlay reads the colour of the
    column back. *)
Example shared_row_and_cell_dict :
  exists f,
    _convert_instructions_to_formats (Some shared_dict_example) 0 0 = Ok f
    /\ Formatter.field "text_color" f = PStr "red".
Proof. eexists. split; [vm_compute; reflexivity | reflexivity]. Qed.

(** C10: the two indices are turned into texts before any lookup, so
    instructions whose tiers are keyed by integers (integer tuples for the
    cells) match at no coordinate and give the default formatter; and for
    any instructions the result is the one of their entries under text
    keys alone. *)
Theorem C10_integer_keys_never_match :
  forall ins (row_idx col_idx : Z),
    int_keyed ins ->
    _convert_instructions_to_formats (Some ins) row_idx col_idx = Ok Formatter.default
    /\ forall ins',
         _convert_instructions_to_formats (Some ins') row_idx col_idx
         = _convert_instructions_to_formats (Some (text_keyed ins')) row_idx col_idx.
Proof.
  intros ins r c (Hrow & Hcol & Hcell). split.
  - unfold _convert_instructions_to_formats.
    rewrite (hit_int_keyed _ (cell ins)) by done.
    rewrite (hit_int_keyed _ (row ins)) by done.
    rewrite (hit_int_keyed _ (column ins)) by done.
    by destruct (Instr.is_empty ins).
  - intros ins'. unfold _convert_instructions_to_formats.
    assert (Instr.is_empty (text_keyed ins') = Instr.is_empty ins') as ->.
    { unfold Instr.is_empty, text_keyed; simpl.
      by destruct (row ins'), (column ins'), (cell ins'). }
    unfold text_keyed at 1 2 3 4 5 6; simpl.
    by rewrite !hit_text_keyed.
Qed.

(** The example of the docstring is keyed by integers, and resolves to
    the default formatter. *)
Lemma C10_integer_keys_never_match_witness :
  _convert_instructions_to_formats (Some int_keyed_example) 0 0 = Ok Formatter.default
  /\ forall ins',
       _convert_instructions_to_formats (Some ins') 0 0
       = _convert_instructions_to_formats (Some (text_keyed ins')) 0 0.
Proof.
  apply (C10_integer_keys_never_match int_keyed_example 0 0).
  repeat split; apply (bool_decide_unpack _); vm_compute; exact I.
Defined.

(** ** The cursor of [write_row] *)

(** What goes to [write] for an item the library takes is what
    [serialize] makes of it. *)
Lemma serialize_handed item : taken item -> DBUtility.serialize item = handed item.
Proof. unfold taken. by destruct item. Qed.

Lemma iter_row_items row_ : row_ok row_ -> Py.iter row_ = Ok (row_items row_).
Proof. by destruct row_. Qed.

Lemma row_ok_items row_ : row_ok row_ -> Forall taken (row_items row_).
Proof. by destruct row_. Qed.

Lemma written_set_offset s n : written (set_offset s n) = written s.
Proof. reflexivity. Qed.

Lemma writable_set_offset s n : writable s -> writable (set_offset s n).
Proof. intros (file & sheets & i & name & cells & H). by exists file, sheets, i, name, cells. Qed.

Lemma appends_refl s : appends s s [].
Proof. exists []. by rewrite app_nil_r. Qed.

Lemma appends_trans s1 s2 s3 a b :
  appends s1 s2 a -> appends s2 s3 b -> appends s1 s3 (a ++ b).
Proof.
  intros (ca & Ha & <- & Hoa) (cb & Hb & <- & Hob).
  exists (ca ++ cb). rewrite Hb, Ha, fmap_app, Hob, Hoa. by rewrite app_assoc.
Qed.

(** A call of [write_cell] that returns made one call of [write]. *)
Lemma write_cell_appends s r c v formatter s' :
  write_cell s r c v formatter = Ok s' ->
  appends s s' [(r, c, v)] /\ writable s'.
Proof.
  unfold write_cell. intros H.
  destruct (workbook s) as [[file sheets|]|] eqn:Hwb; try discriminate.
  destruct (Formatter.set_format formatter add_format) as [f|] eqn:Hf;
    simpl in H; try discriminate.
  destruct (current_sheet s) as [i|] eqn:Hi; try discriminate.
  destruct (sheets !! i) as [[name cells]|] eqn:Hsh; try discriminate.
  injection H as <-.
  assert (Hlt : (i < length sheets)%nat) by (eapply lookup_lt_Some; eauto).
  split.
  - exists [mkCell r c v f]. unfold written. simpl. rewrite Hwb, Hi, Hsh.
    rewrite list_lookup_insert_eq by done. done.
  - exists file, (<[i:=(name, cells ++ [mkCell r c v f])]> sheets), i, name,
      (cells ++ [mkCell r c v f]).
    simpl. rewrite list_lookup_insert_eq by done. done.
Qed.

(** On an open sheet [write_cell] returns, when the format can be set. *)
Lemma write_cell_written s r c v formatter f :
  writable s ->
  Formatter.set_format formatter add_format = Ok f ->
  exists s',
    write_cell s r c v formatter = Ok s'
    /\ written s' = written s ++ [mkCell r c v f]
    /\ _offset s' = _offset s
    /\ writable s'.
Proof.
  intros (file & sheets & i & name & cells & Hwb & Hi & Hsh) Hf.
  unfold write_cell. rewrite Hwb, Hf. simpl. rewrite Hi, Hsh.
  assert (Hlt : (i < length sheets)%nat) by (eapply lookup_lt_Some; eauto).
  eexists. split; [reflexivity|]. split; [|split].
  - unfold written. simpl. rewrite Hwb, Hi, Hsh.
    by rewrite list_lookup_insert_eq by done.
  - reflexivity.
  - exists file, (<[i:=(name, cells ++ [mkCell r c v f])]> sheets), i, name,
      (cells ++ [mkCell r c v f]).
    simpl. by rewrite list_lookup_insert_eq by done.
Qed.

(** Instructions that yield a format at every coordinate yield the
    format [format_at] names. *)
Lemma formats_ok_as instructions :
  formats_ok instructions -> formats_as instructions (format_at instructions).
Proof.
  intros H r c. destruct (H r c) as (formatter & f & Hc & Hf).
  exists formatter. split; [exact Hc|]. unfold format_at. by rewrite Hc, Hf.
Qed.

(** [write_row], by its two loops. *)
Lemma write_row_at instructions self values offset :
  write_row self values offset instructions
  = (let o := start_row self offset in
     '(self', new_offset) ←
       match is_nested values with
       | Some true =>
           for_each (enumerate values) (nested_body instructions o) (self, o)
       | Some false =>
           self' ← for_each (enumerate values) (cell_body instructions o o) self;
           Ok (self', o + 1)
       | None => Ok (self, o)
       end;
     Ok (set_offset self' new_offset, new_offset)).
Proof. by destruct offset. Qed.

(** The two kinds of lists [write_row] tells apart by the first
    element. *)
Lemma values_cases formats o values :
  values_ok values ->
  (values = [])
  \/ (is_nested values = Some true
      /\ Forall row_ok values
      /\ rows_written values = Z.of_nat (length values)
      /\ cells_written formats o values = nested_rows_of_cells formats o 0 values
      /\ cells_of o values = nested_cells o 0 values)
  \/ (is_nested values = Some false
      /\ Forall taken values
      /\ rows_written values = 1
      /\ cells_written formats o values = row_of_cells formats o o 0 values
      /\ cells_of o values = row_cells o 0 values).
Proof.
  intros Hok. destruct values as [|first rest]; [by left|]. right.
  destruct first; (by left) || (by right).
Qed.

Section Formats.

Variable instructions : option Instructions.
Variable formats : Z -> Z -> Format.
Hypothesis Hformats : formats_as instructions formats.

Lemma row_loop_cells r r0 items : forall start s,
  writable s ->
  Forall taken items ->
  exists s',
    for_each (enumerate_from start items) (cell_body instructions r r0) s = Ok s'
    /\ written s' = written s ++ row_of_cells formats r r0 start items
    /\ _offset s' = _offset s
    /\ writable s'.
Proof.
  induction items as [|item items IH]; intros start s Hw Hall.
  - exists s. simpl. by rewrite app_nil_r.
  - apply Forall_cons in Hall as [Hitem Hall].
    destruct (Hformats r0 start) as (formatter & Hc & Hf).
    destruct (write_cell_written s r start (DBUtility.serialize item) formatter _ Hw Hf)
      as (s1 & Hs1 & Hw1 & Ho1 & Hwr1).
    destruct (IH (start + 1) s1 Hwr1 Hall) as (s' & Hs' & Hw' & Ho' & Hwr').
    exists s'. cbn [enumerate_from for_each cell_body]. rewrite Hc. simpl.
    rewrite Hs1. simpl. rewrite Hs'. split; [reflexivity|].
    split; [|split; [congruence | done]].
    rewrite Hw', Hw1, (serialize_handed _ Hitem).
    unfold row_of_cells. simpl. by rewrite <- app_assoc.
Qed.

Lemma nested_loop_cells offset values : forall start s n,
  writable s ->
  Forall row_ok values ->
  exists s',
    for_each (enumerate_from start values) (nested_body instructions offset) (s, n)
    = Ok (s', n + Z.of_nat (length values))
    /\ written s' = written s ++ nested_rows_of_cells formats offset start values
    /\ _offset s' = _offset s
    /\ writable s'.
Proof.
  induction values as [|row_ values IH]; intros start s n Hw Hall.
  - exists s. simpl. rewrite app_nil_r, Z.add_0_r. done.
  - apply Forall_cons in Hall as [Hrow Hall].
    cbn [enumerate_from for_each nested_body nested_rows_of_cells].
    rewrite (iter_row_items _ Hrow). simpl.
    destruct (row_loop_cells (start + offset) start (row_items row_) 0 s Hw
                (row_ok_items _ Hrow))
      as (s1 & Hs1 & Hw1 & Ho1 & Hwr1).
    unfold enumerate. rewrite Hs1. simpl.
    destruct (IH (start + 1) s1 (n + 1) Hwr1 Hall) as (s' & Hs' & Hw' & Ho' & Hwr').
    exists s'. rewrite Hs'. split; [f_equal; f_equal; lia|].
    split; [|split; [congruence | done]].
    rewrite Hw', Hw1. by rewrite <- app_assoc.
Qed.

(** One call of [write_row]: the offset returned is the row it starts
    from plus the rows written, the cursor is set to it, and the cells
    go to the rows from the start on. *)
Lemma write_row_cells self values offset :
  writable self ->
  values_ok values ->
  exists self',
    write_row self values offset instructions
    = Ok (self', start_row self offset + rows_written values)
    /\ _offset self' = start_row self offset + rows_written values
    /\ written self'
       = written self ++ cells_written formats (start_row self offset) values
    /\ writable self'.
Proof.
  intros Hw Hok. rewrite write_row_at. cbv zeta.
  destruct (values_cases formats (start_row self offset) values Hok)
    as [-> | [(Hn & Hall & -> & -> & _) | (Hn & Hall & -> & -> & _)]].
  - simpl. eexists. split; [by rewrite Z.add_0_r|].
    split; [simpl; lia|]. split; [by rewrite written_set_offset, app_nil_r|].
    by apply writable_set_offset.
  - rewrite Hn.
    destruct (nested_loop_cells (start_row self offset) values 0 self
                (start_row self offset) Hw Hall) as (s1 & Hs1 & Hw1 & Ho1 & Hwr1).
    unfold enumerate. rewrite Hs1. simpl. eexists. split; [reflexivity|].
    split; [reflexivity|]. split; [by rewrite written_set_offset|].
    by apply writable_set_offset.
  - rewrite Hn.
    destruct (row_loop_cells (start_row self offset) (start_row self offset) values 0
                self Hw Hall) as (s1 & Hs1 & Hw1 & Ho1 & Hwr1).
    unfold enumerate. rewrite Hs1. simpl. eexists. split; [reflexivity|].
    split; [reflexivity|]. split; [by rewrite written_set_offset|].
    by apply writable_set_offset.
Qed.

End Formats.

Lemma coords_row_of_cells formats r r0 items : forall start,
  coords <$> row_of_cells formats r r0 start items = row_cells r start items.
Proof.
  unfold row_of_cells, row_cells.
  induction items as [|item items IH]; intros start; [done|].
  cbn [enumerate_from fmap list_fmap]. f_equal. apply IH.
Qed.

Lemma coords_nested_rows_of_cells formats offset values : forall start,
  coords <$> nested_rows_of_cells formats offset start values
  = nested_cells offset start values.
Proof.
  induction values as [|row_ values IH]; intros start; [done|].
  cbn [nested_rows_of_cells nested_cells].
  by rewrite fmap_app, coords_row_of_cells, IH.
Qed.

Lemma coords_cells_written formats offset values :
  coords <$> cells_written formats offset values = cells_of offset values.
Proof.
  destruct values as [|first rest]; [done|].
  destruct first; cbn [cells_written cells_of];
    apply coords_row_of_cells || apply coords_nested_rows_of_cells.
Qed.

Lemma write_row_next instructions self values :
  formats_ok instructions ->
  writable self ->
  values_ok values ->
  exists self' cells,
    write_row self values None instructions
      = Ok (self', _offset self + rows_written values)
    /\ _offset self' = _offset self + rows_written values
    /\ writable self'
    /\ written self' = written self ++ cells
    /\ coords <$> cells = cells_of (_offset self) values.
Proof.
  intros Hfmt Hw Hok.
  destruct (write_row_cells instructions _ (formats_ok_as _ Hfmt) self values None Hw Hok)
    as (self' & Hrun & Ho & Hc & Hw').
  exists self', (cells_written (format_at instructions) (_offset self) values).
  split; [exact Hrun|]. split; [exact Ho|]. split; [exact Hw'|].
  split; [exact Hc|]. apply coords_cells_written.
Qed.

(** The two forms of a loop agree: the one that threads the state, and
    the one that keeps the object a raise leaves. *)
Lemma for_each_in_place_agrees {A S : Type} (body : A -> S -> result S)
    (body' : A -> S -> S * option exn) :
  (forall x s, body x s = match body' x s with
                          | (s', None) => Ok s'
                          | (_, Some e) => Raise e
                          end) ->
  forall xs s,
    for_each xs body s = match for_each_in_place xs body' s with
                         | (s', None) => Ok s'
                         | (_, Some e) => Raise e
                         end.
Proof.
  intros Hbody. induction xs as [|x xs IH]; intros s; [done|].
  cbn [for_each for_each_in_place]. rewrite Hbody.
  destruct (body' x s) as [s' [e|]]; [done|]. apply IH.
Qed.

Lemma write_item_agrees instructions r r0 x s :
  cell_body instructions r r0 x s
  = match write_item instructions r r0 x s with
    | (s', None) => Ok s'
    | (_, Some e) => Raise e
    end.
Proof.
  destruct x as [col_idx item]. unfold cell_body, write_item.
  destruct (_convert_instructions_to_formats instructions r0 col_idx); [|done].
  cbn [mbind result_bind]. by destruct (write_cell _ _ _ _ _).
Qed.

(** A call of [write_row] returns what the call on the object returns,
    with the object as the call leaves it. *)
Lemma write_row_in_place_agrees self values offset instructions :
  write_row self values offset instructions
  = match write_row_in_place self values offset instructions with
    | (self', Ok new_offset) => Ok (self', new_offset)
    | (_, Raise e) => Raise e
    end.
Proof.
  rewrite write_row_at. unfold write_row_in_place. cbv zeta.
  change (match offset with Some o => o | None => _offset self end)
    with (start_row self offset).
  destruct (is_nested values) as [[|]|]; [| |done].
  - rewrite (for_each_in_place_agrees (nested_body instructions (start_row self offset))
               (fun '(row_idx, row_) '(s, new_offset) =>
                  match Py.iter row_ with
                  | Ok items =>
                      match for_each_in_place (enumerate items)
                              (write_item instructions
                                 (row_idx + start_row self offset) row_idx) s with
                      | (s', None) => ((s', new_offset + 1), None)
                      | (s', Some e) => ((s', new_offset), Some e)
                      end
                  | Raise e => ((s, new_offset), Some e)
                  end)).
    + by destruct (for_each_in_place _ _ _) as [[s n] [e|]].
    + intros [row_idx row_] [s n]. unfold nested_body.
      destruct (Py.iter row_) as [items|]; [|done]. cbn [mbind result_bind].
      rewrite (for_each_in_place_agrees _ _ (write_item_agrees instructions _ _)).
      by destruct (for_each_in_place _ _ _) as [s' [e|]].
  - rewrite (for_each_in_place_agrees _ _ (write_item_agrees instructions _ _)).
    by destruct (for_each_in_place _ _ _) as [s' [e|]].
Qed.

(** C5, as stated, fails for a call that raises: the call below writes
    the row [[1]] to row 1, where the cursor is, and raises [TypeError] at
    the second element, which is no row; the cursor is left at 1, one row
    behind the rows written, and the next call writes to row 1 again. *)
Lemma C5_a_call_that_raises_leaves_the_cursor :
  exists self',
    write_row_in_place fresh_sheet [PList [PInt 1]; PInt 5] None None
    = (self', Raise TypeError)
    /\ coords <$> written self' = [(1, 0, PInt 1)]
    /\ _offset self' = 1
    /\ exists self'',
         write_row self' [PStr "a"] None None = Ok (self'', 2)
         /\ coords <$> written self'' = [(1, 0, PInt 1); (1, 0, PStr "a")].
Proof.
  eexists. split; [vm_compute; reflexivity|].
  split; [reflexivity|]. split; [reflexivity|].
  eexists. split; [vm_compute; reflexivity|]. reflexivity.
Qed.

(** C5, amended: every call of [write_row] without an offset that is
    made on an open sheet, with instructions that yield a format at every
    coordinate and with values the call can write (the rows of a nested
    list are lists or tuples, and every item is [None], a bool, a str, a
    number, or a list, a tuple or bytes), returns;
    it writes from the cursor on and moves the cursor by the rows it
    wrote (none for an empty list, one for a flat list, one per row for a
    nested list); after a sequence of such calls the cursor is its first
    value plus the rows of all calls, and the next call writes from
    there. *)
Theorem C5_write_row_advances_cursor :
  forall instructions calls self,
    formats_ok instructions ->
    writable self ->
    Forall values_ok calls ->
    cursor_advances instructions calls self.
Proof.
  intros instructions calls. unfold cursor_advances.
  induction calls as [|values calls IH]; intros self Hfmt Hw Hall.
  - exists self. simpl. split; [done|]. split; [done|]. split; [lia|].
    split; [exists []; by rewrite app_nil_r|].
    intros values Hok.
    destruct (write_row_next instructions self values Hfmt Hw Hok)
      as (self'' & cells & H & Ho & _ & Hc & Hco).
    exists self'', cells. rewrite Z.add_0_r. auto.
  - apply Forall_cons in Hall as [Hok Hall].
    destruct (write_row_next instructions self values Hfmt Hw Hok)
      as (s1 & cells1 & H1 & Ho1 & Hw1 & Hc1 & Hco1).
    destruct (IH s1 Hfmt Hw1 Hall) as (self' & Hrun & Hw' & Ho' & (cells & Hc & Hco) & Hnext).
    exists self'. unfold write_rows in *. simpl. rewrite H1. simpl.
    split; [exact Hrun|]. split; [exact Hw'|].
    split; [rewrite Ho', Ho1; lia|].
    split.
    + exists (cells1 ++ cells). rewrite Hc, Hc1, fmap_app, Hco1, Hco, Ho1.
      by rewrite app_assoc.
    + intros values' Hok'. destruct (Hnext values' Hok') as (s'' & cells' & Hr & Ho'' & Hc'' & Hco'').
      exists s'', cells'. rewrite Ho1 in *.
      replace (_offset self + (rows_written values + total_rows calls))
        with (_offset self + rows_written values + total_rows calls) by lia.
      auto.
Qed.

(** A flat row, then a nested list of two rows, with no instructions, on
    a sheet whose cursor is at row 1: the flat row goes to row 1, the two
    rows of the nested list to rows 2 and 3, the cursor ends at 4, and a
    next call writes its row to row 4 and leaves the cursor at 5. *)
Lemma C5_write_row_advances_cursor_witness :
  exists self',
    write_rows None [[PStr "a"; PStr "b"]; [PList [PInt 1; PInt 2]; PList [PInt 3]]]
      fresh_sheet
    = Ok self'
    /\ _offset self' = 4
    /\ coords <$> written self'
       = [(1, 0, PStr "a"); (1, 1, PStr "b");
          (2, 0, PInt 1); (2, 1, PInt 2);
          (3, 0, PInt 3)]
    /\ exists self'',
         write_row self' [PStr "c"] None None = Ok (self'', 5)
         /\ _offset self'' = 5
         /\ coords <$> written self''
            = [(1, 0, PStr "a"); (1, 1, PStr "b");
               (2, 0, PInt 1); (2, 1, PInt 2);
               (3, 0, PInt 3); (4, 0, PStr "c")].
Proof.
  destruct (C5_write_row_advances_cursor None
              [[PStr "a"; PStr "b"]; [PList [PInt 1; PInt 2]; PList [PInt 3]]]
              fresh_sheet)
    as (self' & Hrun & _ & Ho & (cells & Hc & Hco) & Hnext).
  - intros r c. exists Formatter.default, add_format. split; reflexivity.
  - exists "report.xlsx", [("Sheet1", [])], 0%nat, "Sheet1", []. repeat split.
  - repeat constructor.
  - change (written fresh_sheet ++ cells) with cells in Hc.
    exists self'. split; [exact Hrun|]. split; [exact Ho|].
    split; [rewrite Hc; exact Hco|].
    destruct (Hnext [PStr "c"]) as (self'' & cells' & Hrun' & Ho' & Hc' & Hco').
    + repeat constructor.
    + exists self''. split; [exact Hrun'|]. split; [exact Ho'|].
      rewrite Hc', Hc, fmap_app, Hco, Hco'. reflexivity.
Defined.

Example cells_of_calls_example :
  total_rows [[PStr "a"; PStr "b"]; [PList [PInt 1; PInt 2]; PList [PInt 3]]] = 3
  /\ cells_of_calls 1 [[PStr "a"; PStr "b"]; [PList [PInt 1; PInt 2]; PList [PInt 3]]]
     = [(1, 0, PStr "a"); (1, 1, PStr "b");
        (2, 0, PInt 1); (2, 1, PInt 2);
        (3, 0, PInt 3)].
Proof. split; vm_compute; reflexivity. Qed.

(** ** The header row *)

Section Below.

Variable instructions : option Instructions.

(** A loop over the items of a row writes to that row only. *)
Lemma row_loop_row r r0 items : forall start s s',
  for_each (enumerate_from start items) (cell_body instructions r r0) s = Ok s' ->
  exists new, appends s s' new /\ Forall (fun t : Z * Z * pyval => t.1.1 = r) new.
Proof.
  induction items as [|item items IH]; intros start s s' H; simpl in H.
  - injection H as <-. exists []. split; [apply appends_refl | constructor].
  - destruct (_convert_instructions_to_formats instructions r0 start)
      as [formatter|] eqn:Hc; simpl in H; try discriminate.
    destruct (write_cell s r start (DBUtility.serialize item) formatter)
      as [s1|] eqn:Hcell; simpl in H; try discriminate.
    apply write_cell_appends in Hcell as [Ha _].
    apply IH in H as (new & Hb & Hall).
    eexists. split; [exact (appends_trans _ _ _ _ _ Ha Hb)|].
    by constructor.
Qed.

(** The loop over the rows of a nested list writes to the rows from
    [offset + start] on. *)
Lemma nested_loop_below offset values : forall start s n s' n',
  for_each (enumerate_from start values) (nested_body instructions offset) (s, n)
  = Ok (s', n') ->
  n <= n'
  /\ exists new,
       appends s s' new
       /\ Forall (fun t : Z * Z * pyval => start + offset <= t.1.1) new.
Proof.
  induction values as [|row_ values IH]; intros start s n s' n' H; simpl in H.
  - injection H as <- <-. split; [lia|].
    exists []. split; [apply appends_refl | constructor].
  - destruct (Py.iter row_) as [items|] eqn:Hit; simpl in H; try discriminate.
    destruct (for_each (enumerate items) (cell_body instructions (start + offset) start) s)
      as [s1|] eqn:Hrow; simpl in H; try discriminate.
    apply row_loop_row in Hrow as (new1 & Ha & Hall1).
    apply IH in H as (Hn & new2 & Hb & Hall2).
    split; [lia|]. exists (new1 ++ new2). split; [by eapply appends_trans|].
    apply Forall_app. split.
    + eapply Forall_impl; [exact Hall1|]. simpl. intros t ->. lia.
    + eapply Forall_impl; [exact Hall2|]. simpl. intros t Ht. lia.
Qed.

(** A call of [write_row] without an offset writes no row above the
    cursor, and does not move the cursor up. *)
Lemma write_row_below self values self' n :
  write_row self values None instructions = Ok (self', n) ->
  _offset self <= _offset self'
  /\ exists cells,
       written self' = written self ++ cells
       /\ Forall (fun t : Z * Z * pyval => _offset self <= t.1.1) (coords <$> cells).
Proof.
  rewrite write_row_at. cbv zeta. cbn [start_row]. intros H.
  destruct (is_nested values) as [[|]|] eqn:Hn.
  - destruct (for_each (enumerate values) (nested_body instructions (_offset self))
                (self, _offset self)) as [[s1 n1]|] eqn:Hloop;
      simpl in H; try discriminate.
    injection H as <- <-.
    apply nested_loop_below in Hloop as (Hle & new & (cells & Hc & <- & Ho) & Hall).
    split; [exact Hle|]. exists cells. split; [exact Hc|].
    eapply Forall_impl; [exact Hall|]. simpl. intros t Ht. lia.
  - destruct (for_each (enumerate values)
                (cell_body instructions (_offset self) (_offset self)) self)
      as [s1|] eqn:Hloop; simpl in H; try discriminate.
    injection H as <- <-.
    apply row_loop_row in Hloop as (new & (cells & Hc & <- & Ho) & Hall).
    split; [simpl; lia|]. exists cells. split; [exact Hc|].
    eapply Forall_impl; [exact Hall|]. simpl. intros t ->. lia.
  - simpl in H. injection H as <- <-. split; [simpl; lia|].
    exists []. split; [by rewrite app_nil_r | constructor].
Qed.

End Below.

Lemma write_rows_cons instructions values calls self :
  write_rows instructions (values :: calls) self
  = ('(self', _) ← write_row self values None instructions;
     write_rows instructions calls self').
Proof.
  unfold write_rows. simpl.
  by destruct (write_row self values None instructions) as [[s n]|].
Qed.

(** The calls of [write_row] of the script leave the rows above the
    cursor as they are. *)
Lemma write_rows_below instructions calls : forall self self',
  write_rows instructions calls self = Ok self' ->
  exists cells,
    written self' = written self ++ cells
    /\ Forall (fun t : Z * Z * pyval => _offset self <= t.1.1) (coords <$> cells).
Proof.
  induction calls as [|values calls IH]; intros self self' H.
  - injection H as <-. exists []. by rewrite app_nil_r.
  - rewrite write_rows_cons in H.
    destruct (write_row self values None instructions) as [[s1 n]|] eqn:Hrow;
      simpl in H; try discriminate.
    apply write_row_below in Hrow as (Hle & cells1 & Hc1 & Hall1).
    destruct (IH _ _ H) as (cells & Hc & Hall).
    exists (cells1 ++ cells). split; [by rewrite Hc, Hc1, app_assoc|].
    rewrite fmap_app. apply Forall_app. split; [exact Hall1|].
    eapply Forall_impl; [exact Hall|]. simpl. intros t Ht. lia.
Qed.

Lemma filter_rows_below (cells : list (Z * Z * pyval)) :
  Forall (fun t : Z * Z * pyval => 1 <= t.1.1) cells ->
  filter (fun t : Z * Z * pyval => t.1.1 = 0) cells = [].
Proof.
  induction 1 as [|t cells Ht _ IH]; [done|].
  rewrite filter_cons_False by lia. exact IH.
Qed.

(** The writing of the report, by its two steps. *)
Lemma write_report_steps exists_ temp_path doc_gen :
  Main.write_report exists_ temp_path doc_gen
  = ('(xl_utility, _) ← create_new exists_ ExcelUtils.init temp_path [PList Main.headers] true
                         "Sheet1" None
                         (Some (Main.get_initial_row_formatting Main.headers));
     write_rows
       (Some (Main.get_rest_rows_formatting 1 (replicate (length Main.headers) (PStr ""))))
       (table_data doc_gen) xl_utility).
Proof. reflexivity. Qed.

(** C9: whatever the document, the first row of the sheet the script
    writes is its list [headers], whose last entry reads
    "Depency Task: Condition": the row is not the documented header, which
    spells "Dependency". *)
Theorem C9_header_row_is_misspelt :
  forall json_data exists_ temp_path doc_gen xl_utility,
    Main.main json_data exists_ temp_path = Ok (doc_gen, xl_utility) ->
    row_values 0 (coords <$> written xl_utility) = Main.headers
    /\ Main.headers !! 4%nat = Some (PStr "Depency Task: Condition")
    /\ Main.headers <> documented_headers.
Proof.
  intros json_data exists_ temp_path doc_gen xl_utility Hmain.
  split; [|split; [reflexivity | discriminate]].
  unfold Main.main in Hmain.
  destruct (Main.parse_document json_data) as [dg|]; simpl in Hmain; try discriminate.
  destruct (Main.write_report exists_ temp_path dg) as [xl|] eqn:Hreport;
    simpl in Hmain; try discriminate.
  injection Hmain as -> ->.
  rewrite write_report_steps in Hreport.
  assert (Hnew : exists xl0,
             create_new exists_ ExcelUtils.init temp_path [PList Main.headers] true "Sheet1" None
               (Some (Main.get_initial_row_formatting Main.headers)) = Ok (xl0, 1)
             /\ _offset xl0 = 1
             /\ coords <$> written xl0
                = (fun '(i, h) => (0, i, h)) <$> enumerate Main.headers).
  { destruct exists_; eexists; (split; [vm_compute; reflexivity|]);
      split; vm_compute; reflexivity. }
  destruct Hnew as (xl0 & Hnew & Ho & Hcells). rewrite Hnew in Hreport.
  simpl in Hreport.
  apply write_rows_below in Hreport as (cells & -> & Hbelow).
  rewrite Ho in Hbelow. unfold row_values.
  rewrite fmap_app, filter_app, fmap_app, Hcells.
  replace (filter (fun t : Z * Z * pyval => t.1.1 = 0) (coords <$> cells))
    with (@nil (Z * Z * pyval)).
  - vm_compute. reflexivity.
  - symmetry. by apply filter_rows_below.
Qed.

(** ** The traversal of a single pipeline *)

Lemma recursive_parsing_Individual_dict kvs parent_task_name self :
  recursive_parsing_Individual (PDict kvs) parent_task_name self
  = individual_dict_loop recursive_parsing_Individual kvs parent_task_name kvs None self.
Proof. reflexivity. Qed.

Lemma recursive_parsing_Individual_list l parent_task_name self :
  recursive_parsing_Individual (PList l) parent_task_name self
  = list_loop recursive_parsing_Individual parent_task_name l self.
Proof. reflexivity. Qed.

Lemma recursive_parsing_Individual_tuple l parent_task_name self :
  recursive_parsing_Individual (PTuple l) parent_task_name self
  = list_loop recursive_parsing_Individual parent_task_name l self.
Proof. reflexivity. Qed.

(** *** The pipeline name *)

Lemma captured_once_refl self : captured_once self self None.
Proof. unfold captured_once. by destruct (pipeline_name_flag self). Qed.

Lemma captured_once_trans s1 s2 s3 a b :
  captured_once s1 s2 a ->
  captured_once s2 s3 b ->
  captured_once s1 s3 (match a with Some n => Some n | None => b end).
Proof.
  unfold captured_once.
  destruct (pipeline_name_flag s1), a as [n|]; intros [H1 H2]; rewrite H2;
    destruct b; intros [H3 H4]; split; congruence.
Qed.

Lemma record_task_keeps kvs name parent_task_name self self' :
  record_task kvs name parent_task_name self = Ok self' ->
  pipeline_name_flag self' = pipeline_name_flag self
  /\ pipeline_name self' = pipeline_name self.
Proof.
  unfold record_task. intros H.
  destruct (any_in tasks _) as [[|]|]; simpl in H; try discriminate.
  - destruct (parse_task_details _ _); simpl in H; try discriminate.
    destruct (parse_dependsOn _); simpl in H; try discriminate.
    by injection H as <-.
  - by injection H as <-.
Qed.

Section PipelineName.

Let holds (v : pyval) : Prop :=
  forall parent_task_name self self',
    recursive_parsing_Individual v parent_task_name self = Ok self' ->
    captured_once self self' (first_name v).

Lemma individual_dict_loop_captures kvs parent_task_name items :
  Forall (fun kv => holds kv.2) items ->
  forall current_task_name self self',
    individual_dict_loop recursive_parsing_Individual kvs parent_task_name
      items current_task_name self = Ok self' ->
    captured_once self self' (first_name_items first_name items).
Proof.
  intros Hall.
  induction Hall as [|[data value] items Hv Hrest IH]; intros current self self' H;
    simpl in H.
  - injection H as <-. apply captured_once_refl.
  - simpl in Hv.
    destruct value as [| b | z | r | name | l | l | kvs' | y m d | bs];
      simpl; try (by eapply IH).
    + destruct (String.eqb data "name"); [|by eapply IH].
      destruct (pipeline_name_flag self) eqn:Hflag.
      * apply IH in H. unfold captured_once in *. rewrite Hflag. simpl in H. done.
      * destruct (record_task kvs name parent_task_name self) as [s1|] eqn:Hrec;
          simpl in H; try discriminate.
        apply record_task_keeps in Hrec as [Hf Hn]. apply IH in H.
        unfold captured_once in *. rewrite Hflag. rewrite Hf, Hflag in H.
        destruct H as [H1 H2]. split; congruence.
    + destruct (recursive_parsing_Individual (PList l) _ self) as [s1|] eqn:Hrec;
        simpl in H; try discriminate.
      apply Hv in Hrec. apply IH in H.
      exact (captured_once_trans _ _ _ _ _ Hrec H).
    + destruct (recursive_parsing_Individual (PDict kvs') _ self) as [s1|] eqn:Hrec;
        simpl in H; try discriminate.
      apply Hv in Hrec. apply IH in H.
      exact (captured_once_trans _ _ _ _ _ Hrec H).
Qed.

Lemma list_loop_captures parent_task_name items :
  Forall holds items ->
  forall self self',
    list_loop recursive_parsing_Individual parent_task_name items self = Ok self' ->
    captured_once self self' (first_name_elements first_name items).
Proof.
  intros Hall.
  induction Hall as [|data items Hv Hrest IH]; intros self self' H; simpl in H.
  - injection H as <-. apply captured_once_refl.
  - destruct data as [| b | z | r | name | l | l | kvs' | y m d | bs];
      simpl; try (by eapply IH).
    destruct (recursive_parsing_Individual (PDict kvs') _ self) as [s1|] eqn:Hrec;
      simpl in H; try discriminate.
    apply Hv in Hrec. apply IH in H.
    exact (captured_once_trans _ _ _ _ _ Hrec H).
Qed.

Lemma recursive_parsing_Individual_captures v : holds v.
Proof.
  induction v as [| b | z | r | s | l IH | l IH | kvs IH | y m d | bs]
    using pyval_ind;
    intros parent self self' Hrun; try discriminate.
  - injection Hrun as <-. apply captured_once_refl.
  - rewrite recursive_parsing_Individual_list in Hrun.
    by eapply list_loop_captures.
  - rewrite recursive_parsing_Individual_tuple in Hrun.
    by eapply list_loop_captures.
  - rewrite recursive_parsing_Individual_dict in Hrun.
    by eapply individual_dict_loop_captures.
  - injection Hrun as <-. apply captured_once_refl.
Qed.

End PipelineName.

Example parse_sample_document : Main.parse_document sample_document = Ok sample_table.
Proof. vm_compute. reflexivity. Qed.

(** The report of the sample: four rows, the first being the headers. *)
Lemma C9_header_row_is_misspelt_witness :
  row_values 0 (coords <$> written sample_report) = Main.headers
  /\ Main.headers !! 4%nat = Some (PStr "Depency Task: Condition")
  /\ Main.headers <> documented_headers.
Proof.
  apply (C9_header_row_is_misspelt sample_document false "report.xlsx"
           sample_table sample_report).
  vm_compute. reflexivity.
Defined.

Example sample_report_rows :
  _offset sample_report = 4
  /\ row_values 1 (coords <$> written sample_report)
     = [PStr "PL1"; PStr "A1"; PStr "Lookup"; PStr "sp_x ,    Parameters: p1: 5";
        PStr ""]
  /\ row_values 3 (coords <$> written sample_report)
     = [PStr "PL1"; PStr "W"; PStr "Wait"; PStr "Wait time in Seconds:  5";
        PStr "If1"].
Proof. repeat split; vm_compute; reflexivity. Qed.

(** C4, as stated, fails: for a template with two pipelines the pipeline
    name is set once per pipeline; after the first resource it is PL_A,
    after the second one PL_B. *)
Lemma C4_template_sets_pipeline_name_per_resource :
  exists s1 s2,
    recursive_parsing (pipeline_resource "PL_A" "A1") "" init = Ok s1
    /\ pipeline_name s1 = "PL_A"
    /\ recursive_parsing (pipeline_resource "PL_B" "B1") "" s1 = Ok s2
    /\ pipeline_name s2 = "PL_B"
    /\ Main.parse_document envelope_document = Ok s2
    /\ table_data s2
       = [[PStr "PL_A"; PStr "A1"; PStr "Wait"; PStr ""; PStr ""];
          [PStr "PL_B"; PStr "B1"; PStr "Wait"; PStr ""; PStr ""]].
Proof.
  eexists. eexists. split; [vm_compute; reflexivity|].
  split; [reflexivity|]. split; [vm_compute; reflexivity|].
  split; [reflexivity|]. split; vm_compute; reflexivity.
Qed.

(** C4, amended: in the traversal of a single pipeline
    ([recursive_parsing_Individual]) the pipeline name is set at most
    once.  A call that starts with the flag up ends with the name being
    the first str under a key [name] that the traversal meets, and the
    flag down; when it meets none, name and flag are as they were.  A call
    that starts with the flag down leaves the name as it was, whatever
    names it meets. *)
Theorem C4_pipeline_name_is_the_first_name :
  forall input_data parent_task_name self self',
    recursive_parsing_Individual input_data parent_task_name self = Ok self' ->
    captured_once self self' (first_name input_data).
Proof. intros v. apply recursive_parsing_Individual_captures. Qed.

(** The sample: the name is PL1, the first of four names. *)
Lemma C4_pipeline_name_is_the_first_name_witness :
  captured_once init sample_table (first_name sample_document).
Proof.
  apply (C4_pipeline_name_is_the_first_name sample_document "" init sample_table).
  vm_compute. reflexivity.
Defined.

(** *** The dependency of a task without [dependsOn] *)

Lemma assoc_cons k k' v kvs :
  Py.assoc k ((k', v) :: kvs) = if String.eqb k k' then Some v else Py.assoc k kvs.
Proof. reflexivity. Qed.

Lemma before_name_cons k v kvs :
  before_name ((k, v) :: kvs)
  = if String.eqb k "name" then [] else (k, v) :: before_name kvs.
Proof. reflexivity. Qed.

Lemma assoc_name_split kvs x :
  Py.assoc "name" kvs = Some x ->
  exists post, kvs = before_name kvs ++ ("name", x) :: post.
Proof.
  induction kvs as [|[k v] kvs IH]; [discriminate|].
  rewrite assoc_cons, before_name_cons, (String.eqb_sym "name" k).
  destruct (String.eqb k "name") eqn:Hk.
  - apply String.eqb_eq in Hk as ->. intros [= ->]. by exists kvs.
  - intros H. destruct (IH H) as [post Hpost]. exists post.
    rewrite <- app_comm_cons. by rewrite <- Hpost.
Qed.

Lemma before_name_keys kvs : Forall (fun kv => kv.1 <> "name") (before_name kvs).
Proof.
  induction kvs as [|[k v] kvs IH]; [constructor|].
  rewrite before_name_cons.
  destruct (String.eqb k "name") eqn:Hk; [constructor|].
  constructor; [|done]. by apply String.eqb_neq.
Qed.

Lemma assoc_name_None kvs :
  Py.assoc "name" kvs = None -> Forall (fun kv => kv.1 <> "name") kvs.
Proof.
  induction kvs as [|[k v] kvs IH]; [constructor|].
  rewrite assoc_cons.
  destruct (String.eqb "name" k) eqn:Hk; [discriminate|].
  intros H. constructor; [|auto]. apply String.eqb_neq in Hk. simpl. congruence.
Qed.

(** In a dict with no repeated key, the key [name] occurs once. *)
Lemma name_once pre x post :
  NoDup (pre ++ ("name", x) :: post).*1 ->
  Forall (fun kv : string * pyval => kv.1 <> "name") post.
Proof.
  rewrite fmap_app, fmap_cons. simpl. intros H.
  apply NoDup_app in H as (_ & _ & H). apply NoDup_cons in H as [Hnot _].
  apply Forall_forall. intros [k v] Hin Hk. simpl in Hk. subst k. apply Hnot.
  apply list_elem_of_fmap. by exists ("name", v).
Qed.

Lemma rows_added_refl self :
  pipeline_name_flag self = false -> rows_added self self [].
Proof. intros H. split; [done|]. exists []. split; [by rewrite app_nil_r | constructor]. Qed.

Lemma rows_added_trans s1 s2 s3 a b :
  rows_added s1 s2 a -> rows_added s2 s3 b -> rows_added s1 s3 (a ++ b).
Proof.
  intros (_ & ra & Ha & Hsa) (Hf & rb & Hb & Hsb). split; [done|].
  exists (ra ++ rb). split; [by rewrite Hb, Ha, app_assoc|].
  by apply Forall2_app.
Qed.

(** Only an equal str is equal to a str. *)
Lemma py_eq_str x s : Eq.py_eq x (PStr s) = Py.eq_str x s.
Proof.
  destruct x as [| b | z | r | t | l | l | kvs | y m d | bs]; try reflexivity.
  cbn [Eq.py_eq Eq.number Py.eq_str]. by destruct (String.eqb r "nan").
Qed.

(** [x in type] picks the kinds the type holds. *)
Lemma contains_str_holds type kind b :
  contains_str type kind = Ok b -> b = holds_kind type kind.
Proof.
  destruct type as [| b0 | z | r | s | l | l | kvs | y m d | bs];
    try discriminate; intros [= <-]; cbn [holds_kind]; try reflexivity.
  - induction l as [|x l IH]; [done|]. cbn [existsb]. by rewrite IH, py_eq_str.
  - induction l as [|x l IH]; [done|]. cbn [existsb]. by rewrite IH, py_eq_str.
  - induction kvs as [|[k v] kvs IH]; [done|].
    cbn [existsb fst]. rewrite <- IH, assoc_cons, (String.eqb_sym k kind).
    destruct (String.eqb kind k); [done|]. reflexivity.
Qed.

Lemma any_in_holds type kinds : forall b,
  any_in kinds type = Ok b -> b = existsb (holds_kind type) kinds.
Proof.
  induction kinds as [|kind kinds IH]; intros b H; simpl in H.
  - by injection H as <-.
  - destruct (contains_str type kind) as [b0|] eqn:Hc; simpl in H; try discriminate.
    apply contains_str_holds in Hc as ->. cbn [existsb].
    destruct (holds_kind type kind); [by injection H as <-|]. by apply IH.
Qed.

(** The nodes a dict with a name holds lie under that name, unless it is
    empty. *)
Lemma or_parent_name_inside kvs current ancestor :
  current = own_name kvs ->
  or_parent current ancestor = name_inside kvs ancestor.
Proof.
  intros ->. unfold or_parent, name_inside.
  destruct (own_name kvs) as [[|c n]|]; reflexivity.
Qed.

Lemma nodes_scalar v nearest : is_container v = false -> nodes v nearest = [].
Proof. by destruct v. Qed.

Lemma nodes_of_values_skips nearest pre rest :
  forallb (fun kv => negb (is_container kv.2)) pre = true ->
  nodes_of_values nodes nearest (pre ++ rest) = nodes_of_values nodes nearest rest.
Proof.
  induction pre as [|[k v] pre IH]; intros Hscalar; [done|].
  simpl in Hscalar. apply andb_true_iff in Hscalar as [Hv Hscalar].
  apply negb_true_iff in Hv.
  change (nodes_of_values nodes nearest (((k, v) :: pre) ++ rest))
    with (nodes v nearest ++ nodes_of_values nodes nearest (pre ++ rest)).
  by rewrite (nodes_scalar _ _ Hv), IH.
Qed.

Lemma well_ordered_dict kvs :
  well_ordered (PDict kvs) = true ->
  NoDup kvs.*1 /\ name_first kvs = true
  /\ Forall (fun kv => well_ordered kv.2 = true) kvs.
Proof.
  simpl. intros H. apply andb_true_iff in H as [H Hall].
  apply andb_true_iff in H as [Hnd Hnf]. apply bool_decide_eq_true in Hnd.
  split; [done|]. split; [done|].
  clear Hnd Hnf. induction kvs as [|[k x] kvs IH]; [constructor|].
  apply andb_true_iff in Hall as [Hx Hall]. constructor; auto.
Qed.

Lemma well_ordered_elements l :
  well_ordered (PList l) = true ->
  Forall (fun v => well_ordered v = true) l.
Proof.
  simpl. induction l as [|x l IH]; [constructor|].
  intros H. apply andb_true_iff in H as [Hx H]. constructor; auto.
Qed.

Lemma lists_of_nodes_dict kvs :
  lists_of_nodes (PDict kvs) = true ->
  Forall (fun kv => lists_of_nodes kv.2 = true) kvs.
Proof.
  simpl. induction kvs as [|[k x] kvs IH]; [constructor|].
  intros H. apply andb_true_iff in H as [Hx H]. constructor; auto.
Qed.

Lemma lists_of_nodes_elements l :
  lists_of_nodes (PList l) = true ->
  Forall (fun v => Py.is_list v = false /\ lists_of_nodes v = true) l.
Proof.
  simpl. induction l as [|x l IH]; [constructor|].
  intros H. apply andb_true_iff in H as [H Hl]. apply andb_true_iff in H as [Hx Hn].
  apply negb_true_iff in Hx. constructor; auto.
Qed.

Section Dependency.

Variable kvs : list (string * pyval).
Variable parent_task_name : string.

Let loop := individual_dict_loop recursive_parsing_Individual kvs parent_task_name.

Let holds (v : pyval) : Prop :=
  forall ancestor self self',
    well_ordered v = true ->
    lists_of_nodes v = true ->
    pipeline_name_flag self = false ->
    recursive_parsing_Individual v ancestor self = Ok self' ->
    rows_added self self' (expected_rows v ancestor).

(** The items before the name do nothing when none of them is a dict or
    a list. *)
Lemma loop_skips pre rest current self :
  Forall (fun kv => kv.1 <> "name") pre ->
  forallb (fun kv => negb (is_container kv.2)) pre = true ->
  loop (pre ++ rest) current self = loop rest current self.
Proof.
  induction pre as [|[k v] pre IH]; intros Hkeys Hscalar; [done|].
  apply Forall_cons in Hkeys as [Hk Hkeys]. simpl in Hscalar, Hk.
  apply andb_true_iff in Hscalar as [Hv Hscalar].
  simpl. destruct v; try discriminate; try (by apply IH).
  apply String.eqb_neq in Hk. rewrite Hk. by apply IH.
Qed.

(** The items after the name, or all items of a dict without a name:
    the nested dicts and lists are traversed under the current name. *)
Lemma loop_nested items :
  Forall (fun kv => holds kv.2) items ->
  Forall (fun kv => well_ordered kv.2 = true) items ->
  Forall (fun kv => lists_of_nodes kv.2 = true) items ->
  Forall (fun kv => kv.1 = "name" -> Py.is_str kv.2 = false) items ->
  forall current self self',
    pipeline_name_flag self = false ->
    loop items current self = Ok self' ->
    rows_added self self'
      (omap expected_row
         (nodes_of_values nodes (or_parent current parent_task_name) items)).
Proof.
  intros Hall. induction Hall as [|[data value] items Hv Hrest IH];
    intros Hwf Hflat Hname current self self' Hflag Hrun; simpl in Hrun.
  - injection Hrun as <-. by apply rows_added_refl.
  - apply Forall_cons in Hwf as [Hwfv Hwf].
    apply Forall_cons in Hflat as [Hflatv Hflat].
    apply Forall_cons in Hname as [Hnv Hname]. simpl in Hv, Hwfv, Hflatv, Hnv.
    change (nodes_of_values nodes (or_parent current parent_task_name)
              ((data, value) :: items))
      with (nodes value (or_parent current parent_task_name)
              ++ nodes_of_values nodes (or_parent current parent_task_name) items).
    rewrite omap_app.
    destruct value as [| b | z | r | name | l | l | kvs' | y m d | bs];
      try (by eapply IH); try discriminate.
    + destruct (String.eqb data "name") eqn:Hd; [|by eapply IH].
      apply String.eqb_eq in Hd. by specialize (Hnv Hd).
    + destruct (recursive_parsing_Individual (PList l) _ self) as [s1|] eqn:Hrec;
        simpl in Hrun; try discriminate.
      apply Hv in Hrec; [|done..].
      pose proof Hrec as [Hf1 _].
      eapply rows_added_trans; [exact Hrec|]. by eapply IH.
    + destruct (recursive_parsing_Individual (PDict kvs') _ self) as [s1|] eqn:Hrec;
        simpl in Hrun; try discriminate.
      apply Hv in Hrec; [|done..].
      pose proof Hrec as [Hf1 _].
      eapply rows_added_trans; [exact Hrec|]. by eapply IH.
Qed.

End Dependency.

(** The fallback of [record_task] is the name the row was called
    with. *)
Lemma dependency_fallback kvs ancestor d :
  parse_dependsOn (Py.dict_get kvs "dependsOn" (PStr "")) = Ok d ->
  no_dependsOn kvs = true ->
  Py.or_ d (PStr ancestor) = PStr ancestor.
Proof.
  unfold Py.dict_get, no_dependsOn.
  destruct (Py.assoc "dependsOn" kvs) as [dependency_list|].
  - destruct dependency_list as [| b | z | r | s | l | l | kvs' | y m dd | bs];
      try discriminate.
    destruct l as [|x l]; [|discriminate].
    by intros [= <-].
  - by intros [= <-].
Qed.

Lemma record_task_row kvs name parent_task_name self self' :
  record_task kvs name parent_task_name self = Ok self' ->
  own_name kvs = Some name ->
  pipeline_name_flag self = false ->
  rows_added self self' (omap expected_row [(kvs, parent_task_name)]).
Proof.
  unfold record_task. intros H Hown Hflag.
  cbn [omap list_omap]. unfold expected_row. cbn [fst snd]. rewrite Hown.
  unfold recognised.
  change (default (PStr "") (Py.assoc "type" kvs)) with (Py.dict_get kvs "type" (PStr "")).
  destruct (any_in tasks _) as [b|] eqn:Hany; simpl in H; try discriminate.
  apply any_in_holds in Hany. change tasks with known_kinds in Hany. rewrite <- Hany.
  destruct b.
  - destruct (parse_task_details _ _) as [details|]; simpl in H; try discriminate.
    destruct (parse_dependsOn _) as [d|] eqn:Hd; simpl in H; try discriminate.
    injection H as <-. split; [done|]. eexists. split; [reflexivity|].
    constructor; [|constructor]. split; [reflexivity|].
    cbn [task_and_dependency fst snd]. intros dependency Hdep.
    destruct (no_dependsOn kvs) eqn:Hno; [|discriminate]. injection Hdep as <-.
    exact (dependency_fallback _ _ _ Hd Hno).
  - injection H as <-. by apply rows_added_refl.
Qed.

Section Nearest.

Let holds (v : pyval) : Prop :=
  forall ancestor self self',
    well_ordered v = true ->
    lists_of_nodes v = true ->
    pipeline_name_flag self = false ->
    recursive_parsing_Individual v ancestor self = Ok self' ->
    rows_added self self' (expected_rows v ancestor).

Lemma list_loop_rows ancestor items :
  Forall holds items ->
  Forall (fun v => well_ordered v = true) items ->
  Forall (fun v => Py.is_list v = false /\ lists_of_nodes v = true) items ->
  forall self self',
    pipeline_name_flag self = false ->
    list_loop recursive_parsing_Individual ancestor items self = Ok self' ->
    rows_added self self' (omap expected_row (nodes_of_elements nodes ancestor items)).
Proof.
  intros Hall. induction Hall as [|data items Hv Hrest IH];
    intros Hwf Hflat self self' Hflag Hrun; simpl in Hrun.
  - injection Hrun as <-. by apply rows_added_refl.
  - apply Forall_cons in Hwf as [Hwfv Hwf].
    apply Forall_cons in Hflat as [[Hnl Hflatv] Hflat].
    change (nodes_of_elements nodes ancestor (data :: items))
      with (nodes data ancestor ++ nodes_of_elements nodes ancestor items).
    rewrite omap_app.
    destruct data as [| b | z | r | name | l | l | kvs' | y m d | bs];
      try (by eapply IH); try discriminate.
    destruct (recursive_parsing_Individual (PDict kvs') _ self) as [s1|] eqn:Hrec;
      simpl in Hrun; try discriminate.
    apply Hv in Hrec; [|done..].
    pose proof Hrec as [Hf1 _].
    eapply rows_added_trans; [exact Hrec|]. by eapply IH.
Qed.

(** A dict with a name: the row of the node itself, then the rows of
    what it holds, under its name. *)
Lemma dict_loop_named kvs ancestor items pre name post self self' :
  items = pre ++ ("name", PStr name) :: post ->
  own_name kvs = Some name ->
  Forall (fun kv => kv.1 <> "name") pre ->
  forallb (fun kv => negb (is_container kv.2)) pre = true ->
  Forall (fun kv => kv.1 <> "name") post ->
  Forall (fun kv => holds kv.2) post ->
  Forall (fun kv => well_ordered kv.2 = true) post ->
  Forall (fun kv => lists_of_nodes kv.2 = true) post ->
  pipeline_name_flag self = false ->
  individual_dict_loop recursive_parsing_Individual kvs ancestor items None self
    = Ok self' ->
  rows_added self self'
    (omap expected_row
       ((kvs, ancestor) :: nodes_of_values nodes (name_inside kvs ancestor) items)).
Proof.
  intros -> Hown Hpre Hscalar Hpost Hall Hwf Hflat Hflag Hrun.
  rewrite loop_skips in Hrun by done. rewrite nodes_of_values_skips by done.
  simpl in Hrun. rewrite Hflag in Hrun.
  destruct (record_task kvs name ancestor self) as [s1|] eqn:Hrec;
    simpl in Hrun; try discriminate.
  apply record_task_row in Hrec; [|done..]. pose proof Hrec as [Hf1 _].
  change ((kvs, ancestor)
            :: nodes_of_values nodes (name_inside kvs ancestor)
                 (("name", PStr name) :: post))
    with ([(kvs, ancestor)]
            ++ nodes_of_values nodes (name_inside kvs ancestor) post).
  rewrite omap_app.
  eapply rows_added_trans; [exact Hrec|].
  rewrite <- (or_parent_name_inside kvs (Some name) ancestor) by done.
  eapply loop_nested; eauto.
  eapply Forall_impl; [exact Hpost|]. intros kv Hne Heq. done.
Qed.

Lemma recursive_parsing_Individual_rows v : holds v.
Proof.
  induction v as [| b | z | r | s | l IH | l IH | kvs IH | y m d | bs]
    using pyval_ind;
    intros ancestor self self' Hwf Hflat Hflag Hrun; try discriminate.
  - injection Hrun as <-. by apply rows_added_refl.
  - rewrite recursive_parsing_Individual_list in Hrun.
    eapply list_loop_rows; eauto using well_ordered_elements, lists_of_nodes_elements.
  - rewrite recursive_parsing_Individual_dict in Hrun.
    apply well_ordered_dict in Hwf as (Hnd & Hnf & Hwf).
    apply lists_of_nodes_dict in Hflat.
    change (expected_rows (PDict kvs) ancestor)
      with (omap expected_row
              ((kvs, ancestor) :: nodes_of_values nodes (name_inside kvs ancestor) kvs)).
    destruct (own_name kvs) as [name|] eqn:Hown.
    + assert (Hassoc : Py.assoc "name" kvs = Some (PStr name)).
      { unfold own_name in Hown. destruct (Py.assoc "name" kvs) as [[]|];
          try discriminate. by injection Hown as ->. }
      destruct (assoc_name_split _ _ Hassoc) as [post Hsplit].
      unfold name_first in Hnf. rewrite Hown in Hnf.
      assert (Hpost : Forall (fun kv : string * pyval => kv.1 <> "name") post).
      { eapply name_once. rewrite <- Hsplit. exact Hnd. }
      assert (Hsub : Forall (fun kv => holds kv.2) post
                     /\ Forall (fun kv => well_ordered kv.2 = true) post
                     /\ Forall (fun kv => lists_of_nodes kv.2 = true) post).
      { rewrite Hsplit in IH, Hwf, Hflat.
        apply Forall_app in IH as [_ IH]. apply Forall_cons in IH as [_ IH].
        apply Forall_app in Hwf as [_ Hwf]. apply Forall_cons in Hwf as [_ Hwf].
        apply Forall_app in Hflat as [_ Hflat]. apply Forall_cons in Hflat as [_ Hflat].
        done. }
      destruct Hsub as (Hall & Hwfp & Hflatp).
      eapply (dict_loop_named kvs ancestor kvs (before_name kvs) name post);
        eauto using before_name_keys.
    + assert (Hnone : expected_row (kvs, ancestor) = None).
      { unfold expected_row. cbn [fst]. by rewrite Hown. }
      cbn [omap list_omap]. rewrite Hnone.
      rewrite <- (or_parent_name_inside kvs None ancestor) by done.
      assert (Hname : Forall (fun kv : string * pyval =>
                                kv.1 = "name" -> Py.is_str kv.2 = false) kvs).
      { unfold own_name in Hown.
        destruct (Py.assoc "name" kvs) as [x|] eqn:Hassoc.
        - destruct (assoc_name_split _ _ Hassoc) as [post Hsplit].
          pose proof (before_name_keys kvs) as Hpre.
          assert (Hpost : Forall (fun kv : string * pyval => kv.1 <> "name") post).
          { eapply name_once. rewrite <- Hsplit. exact Hnd. }
          rewrite Hsplit. apply Forall_app. split.
          + eapply Forall_impl; [exact Hpre|]. intros kv Hne Heq. done.
          + constructor.
            * intros _. simpl. by destruct x.
            * eapply Forall_impl; [exact Hpost|]. intros kv Hne Heq. done.
        - eapply Forall_impl; [exact (assoc_name_None _ Hassoc)|].
          intros kv Hne Heq. done. }
      exact (loop_nested kvs ancestor kvs IH Hwf Hflat Hname None self self' Hflag Hrun).
  - injection Hrun as <-. by apply rows_added_refl.
Qed.

End Nearest.

(** C2, as stated, fails: the wait W has no [dependsOn] and lies inside
    the condition named If1, so the claim expects the dependency If1 for
    it; yet its dependency is empty, because the name of the condition
    comes after the properties that hold W. *)
Lemma C2_name_after_children_is_not_handed_down :
  Main.parse_document late_name_document
  = Ok (mkDocGen false "PL1"
          [[PStr "PL1"; PStr "W"; PStr "Wait"; PStr ""; PStr ""];
           [PStr "PL1"; PStr "If1"; PStr "IfCondition"; PStr ""; PStr ""]])
  /\ expected_rows
       (PDict [("type", PStr "IfCondition");
               ("typeProperties",
                PDict [("ifTrueActivities",
                        PList [PDict [("name", PStr "W"); ("type", PStr "Wait")]])]);
               ("name", PStr "If1")]) ""
     = [("If1", Some ""); ("W", Some "If1")].
Proof. split; vm_compute; reflexivity. Qed.

(** A node in a list that lies in a list is not visited: the wait A
    gets no row. *)
Example list_in_list_is_not_visited :
  Main.parse_document nested_list_document = Ok (mkDocGen false "PL1" [])
  /\ expected_rows
       (PList [PList [PDict [("name", PStr "A"); ("type", PStr "Wait")]]]) ""
     = [("A", Some "")].
Proof. split; vm_compute; reflexivity. Qed.

(** C2, amended: in a document whose dicts have no repeated key and list
    their name before their nested dicts and lists, and none of whose
    lists holds a list, traversed once the pipeline name is taken, the
    rows appended are those of the recognised nodes that have a str as
    their name, one row for each and in document order, each with the
    name of its node as the task; the dependency of a node whose
    [dependsOn] is absent or an empty list is the name of the nearest
    enclosing node that has a str, not empty, as its name; it is the
    ancestor name the call was given (empty at the top) when no enclosing
    node has one. *)
Theorem C2_dependency_is_nearest_named_ancestor :
  forall input_data ancestor self self',
    well_ordered input_data = true ->
    lists_of_nodes input_data = true ->
    pipeline_name_flag self = false ->
    recursive_parsing_Individual input_data ancestor self = Ok self' ->
    exists rows,
      table_data self' = table_data self ++ rows
      /\ Forall2 shows rows (expected_rows input_data ancestor).
Proof.
  intros v ancestor self self' Hwf Hflat Hflag Hrun.
  by destruct (recursive_parsing_Individual_rows v ancestor self self' Hwf Hflat Hflag Hrun).
Qed.

(** The activities of the sample, traversed after the name PL1 is taken:
    the rows are those of A1, If1 and W; A1 at the top depends on
    nothing, and the wait W inside If1 on If1.  (If1 has a [dependsOn],
    and its dependency is what [parse_dependsOn] makes of it.) *)
Lemma C2_dependency_is_nearest_named_ancestor_witness :
  exists rows,
    table_data sample_table = table_data (mkDocGen false "PL1" []) ++ rows
    /\ Forall2 shows rows [("A1", Some ""); ("If1", None); ("W", Some "If1")].
Proof.
  apply (C2_dependency_is_nearest_named_ancestor sample_activities ""
           (mkDocGen false "PL1" []) sample_table).
  - vm_compute. reflexivity.
  - vm_compute. reflexivity.
  - reflexivity.
  - vm_compute. reflexivity.
Defined.

(** A whole document that starts with its name: the name is the pipeline
    name, and the rows are those of what the document holds, with no
    ancestor at the top. *)
Lemma document_rows pl rest self' :
  well_ordered (PDict (("name", PStr pl) :: rest)) = true ->
  lists_of_nodes (PDict (("name", PStr pl) :: rest)) = true ->
  recursive_parsing_Individual (PDict (("name", PStr pl) :: rest)) "" init = Ok self' ->
  pipeline_name self' = pl
  /\ Forall2 shows (table_data self')
       (omap expected_row (nodes_of_values nodes "" rest)).
Proof.
  intros Hwf Hflat Hrun.
  pose proof (recursive_parsing_Individual_captures _ _ _ _ Hrun) as Hcap.
  rewrite recursive_parsing_Individual_dict in Hrun. simpl in Hrun.
  apply well_ordered_dict in Hwf as (Hnd & _ & Hwf).
  apply Forall_cons in Hwf as [_ Hwf].
  apply lists_of_nodes_dict in Hflat. apply Forall_cons in Hflat as [_ Hflat].
  assert (Hname : Forall (fun kv : string * pyval =>
                            kv.1 = "name" -> Py.is_str kv.2 = false) rest).
  { eapply Forall_impl; [exact (name_once [] _ _ Hnd)|]. intros kv Hne Heq. done. }
  assert (Hall : Forall (fun kv : string * pyval =>
                   forall ancestor self self',
                     well_ordered kv.2 = true ->
                     lists_of_nodes kv.2 = true ->
                     pipeline_name_flag self = false ->
                     recursive_parsing_Individual kv.2 ancestor self = Ok self' ->
                     rows_added self self' (expected_rows kv.2 ancestor)) rest).
  { apply Forall_forall. intros kv _. apply recursive_parsing_Individual_rows. }
  destruct (loop_nested _ "" rest Hall Hwf Hflat Hname None (mkDocGen false pl []) self'
              eq_refl Hrun) as (_ & rows & Hrows & Hview).
  simpl in Hrows. subst rows. split; [|exact Hview].
  simpl in Hcap. by destruct Hcap.
Qed.

(** * Further properties *)

(** ** The style cascade as an overlay *)

Lemma init_empty : Formatter.init ∅ = Ok Formatter.default.
Proof. reflexivity. Qed.

(** [Formatter] takes each parameter from the dict, [None] for one that
    is missing. *)
Lemma init_fields (kwargs : style) f :
  Formatter.init kwargs = Ok f ->
  forall name, name ∈ Formatter.parameters ->
    Formatter.field name f = match kwargs !! name with Some v => v | None => PNone end.
Proof.
  unfold Formatter.init. destruct (bool_decide _); [|discriminate].
  intros [= <-] name Hin. unfold Formatter.parameters in Hin.
  repeat (apply elem_of_cons in Hin as [->|Hin]; [reflexivity|]).
  by apply elem_of_nil in Hin.
Qed.

(** A keyword that is no parameter makes [Formatter] raise. *)
Lemma init_unknown_keyword (kwargs : style) k v :
  kwargs !! k = Some v -> k ∉ Formatter.parameters ->
  Formatter.init kwargs = Raise TypeError.
Proof.
  intros Hk Hnot. unfold Formatter.init.
  rewrite bool_decide_eq_false_2; [done|].
  intros Hall. apply Hnot. exact (Hall _ _ Hk).
Qed.

(** What [_convert_instructions_to_formats] hands to [Formatter]. *)
Lemma convert_merged ins r c :
  cell_apart_from_row ins r c ->
  _convert_instructions_to_formats (Some ins) r c = Formatter.init (merged ins r c).
Proof.
  intros Hapart. unfold _convert_instructions_to_formats, merged.
  unfold cell_apart_from_row, cell_found, row_found, column_found in *.
  destruct (Instr.is_empty ins) eqn:Hempty.
  { unfold Instr.is_empty in Hempty.
    destruct (row ins), (column ins), (cell ins); try discriminate.
    simpl. by rewrite !(left_id_L ∅ (∪)). }
  cbv zeta.
  destruct (Instr.hit (store ins) (cell ins) _) as [lcell|] eqn:Hcell;
    destruct (Instr.hit (store ins) (row ins) _) as [lrow|] eqn:Hrow;
    destruct (Instr.hit (store ins) (column ins) _) as [lcol|] eqn:Hcol;
    simpl; rewrite ?content_update, ?(left_id_L ∅ (∪)), ?(right_id_L ∅ (∪));
    try reflexivity.
  - rewrite decide_True by done. rewrite (decide_False (P := lcell = lrow)) by eauto.
    by rewrite decide_True by done.
  - rewrite decide_True by done. reflexivity.
  - rewrite decide_True by done. reflexivity.
  - rewrite decide_True by done. by rewrite (idemp_L (∪)).
  - rewrite decide_True by done. reflexivity.
Qed.

(** X1: when the cell entry of the coordinate is not the very dict object
    of its row entry, the formatter is built from the overlay of the
    entries found: the cell entry over the column entry over the row
    entry, a tier with no entry (or an empty one) adding nothing. *)
Theorem X1_cascade_is_an_overlay :
  forall ins r c,
    cell_apart_from_row ins r c ->
    _convert_instructions_to_formats (Some ins) r c = Formatter.init (merged ins r c).
Proof. exact convert_merged. Qed.

Lemma X1_cascade_is_an_overlay_witness :
  _convert_instructions_to_formats (Some text_keyed_example) 0 0
  = Formatter.init (merged text_keyed_example 0 0).
Proof.
  apply (X1_cascade_is_an_overlay text_keyed_example 0 0).
  intros lcell lrow Hc Hr. vm_compute in Hc, Hr. congruence.
Defined.

(** X2: with a row tier only, the formatter of a cell of row [r] is the
    one built from the entry of the row, whatever the column: each field
    has the value the entry gives it, and is [None] when the entry does
    not give one. *)
Theorem X2_row_entry_applies_to_every_column :
  forall rows st (r : Z) l,
    rows !! KAtom (AStr (pretty r)) = Some l ->
    map_Forall (fun k _ => k ∈ Formatter.parameters) (Instr.content st l) ->
    exists f,
      (forall c, _convert_instructions_to_formats (Some (row_tier_only rows st)) r c = Ok f)
      /\ forall name, name ∈ Formatter.parameters ->
           Formatter.field name f
           = match Instr.content st l !! name with Some v => v | None => PNone end.
Proof.
  intros rows st r l Hl Hpar.
  destruct (init_parameters _ Hpar) as (f & Hf & _).
  exists f. split; [|by apply init_fields].
  intros c. rewrite convert_merged.
  - unfold merged, cell_found, column_found, row_found, row_tier_only, Instr.hit.
    simpl. rewrite Hl. simpl. rewrite !(left_id_L ∅ (∪)).
    case_bool_decide as Hempty; simpl; [|exact Hf].
    rewrite Hempty in Hf. by rewrite init_empty in *.
  - intros lcell lrow Hc. discriminate Hc.
Qed.

Lemma X2_row_entry_applies_to_every_column_witness :
  exists f,
    (forall c,
       _convert_instructions_to_formats
         (Some (row_tier_only {[ KAtom (AStr "0") := 1%positive ]}
                  {[ 1%positive := {[ "text_color" := PStr "black" ]} ]})) 0 c = Ok f)
    /\ forall name, name ∈ Formatter.parameters ->
         Formatter.field name f
         = match Instr.content {[ 1%positive := {[ "text_color" := PStr "black" ]} ]}
                   1%positive !! name with
           | Some v => v
           | None => PNone
           end.
Proof.
  apply (X2_row_entry_applies_to_every_column
           {[ KAtom (AStr "0") := 1%positive ]}
           {[ 1%positive := {[ "text_color" := PStr "black" ]} ]} 0 1%positive).
  - reflexivity.
  - apply (bool_decide_unpack _). vm_compute. exact I.
Defined.

(** X3: a keyword that is no parameter of [Formatter], in any entry found
    for the coordinate, makes the call raise [TypeError]; the entries of
    the docstring's own example do, with their keyword [font]. *)
Theorem X3_unknown_keyword_raises_TypeError :
  forall ins r c k v,
    cell_apart_from_row ins r c ->
    merged ins r c !! k = Some v ->
    k ∉ Formatter.parameters ->
    _convert_instructions_to_formats (Some ins) r c = Raise TypeError.
Proof.
  intros ins r c k v Hapart Hk Hnot. rewrite convert_merged by done.
  by eapply init_unknown_keyword.
Qed.

Lemma X3_unknown_keyword_raises_TypeError_witness :
  _convert_instructions_to_formats (Some docstring_example) 0 0 = Raise TypeError.
Proof.
  apply (X3_unknown_keyword_raises_TypeError docstring_example 0 0 "font" (PStr "bold")).
  - intros lcell lrow Hc Hr. vm_compute in Hc, Hr. congruence.
  - vm_compute. reflexivity.
  - apply (bool_decide_unpack _). vm_compute. exact I.
Defined.

(** ** The format a formatter sets *)

Lemma fold_font_styles styles : forall f,
  foldl (fun f fs => Formatter.apply_font_style fs f) f styles
  = mkFormat (num_format f) (font_color f) (fmt_bg_color f)
      (bold f || named "bold" styles) (italic f || named "italics" styles)
      (underline f || named "underline" styles)
      (font_strikeout f || named "strikethrough" styles)
      (top f) (bottom f) (left f) (right f).
Proof.
  induction styles as [|fs styles IH]; intros f.
  - destruct f. simpl. by rewrite !orb_false_r.
  - simpl. rewrite IH. unfold Formatter.apply_font_style. destruct f. simpl.
    destruct (Py.eq_str fs "bold"), (Py.eq_str fs "italics"),
      (Py.eq_str fs "underline"), (Py.eq_str fs "strikethrough");
      simpl; rewrite ?orb_true_r, ?orb_false_r; reflexivity.
Qed.

Lemma fold_borders borders : forall f,
  foldl (fun f b => Formatter.apply_border b f) f borders
  = mkFormat (num_format f) (font_color f) (fmt_bg_color f)
      (bold f) (italic f) (underline f) (font_strikeout f)
      (if named "top" borders then 2 else top f)
      (if named "bottom" borders then 2 else bottom f)
      (if named "left" borders then 2 else left f)
      (if named "right" borders then 2 else right f).
Proof.
  induction borders as [|b borders IH]; intros f.
  - by destruct f.
  - simpl. rewrite IH. unfold Formatter.apply_border. destruct f. simpl.
    destruct (Py.eq_str b "top"), (Py.eq_str b "bottom"),
      (Py.eq_str b "left"), (Py.eq_str b "right");
      simpl; repeat case_match; reflexivity.
Qed.

Lemma set_format_listed self styles borders :
  listed (font_styles self) = Ok styles ->
  listed (cell_borders self) = Ok borders ->
  Formatter.set_format self add_format = Ok (format_of self styles borders).
Proof.
  unfold listed, Formatter.set_format, format_of, border_width.
  intros Hs Hb.
  assert (Hfs : (if Formatter.is_not_None (font_styles self)
                 then styles ← Py.iter (font_styles self);
                      Ok (foldl (fun f fs => Formatter.apply_font_style fs f)
                            (plain_format self) styles)
                 else Ok (plain_format self))
                = Ok (foldl (fun f fs => Formatter.apply_font_style fs f)
                        (plain_format self) styles)).
  { destruct (Formatter.is_not_None (font_styles self)).
    - by rewrite Hs.
    - by injection Hs as <-. }
  assert (Hplain :
            (let f := add_format in
             let f := if Formatter.is_not_None (cell_str_format self)
                      then mkFormat (cell_str_format self) (font_color f) (fmt_bg_color f)
                             (bold f) (italic f) (underline f) (font_strikeout f)
                             (top f) (bottom f) (left f) (right f)
                      else f in
             let f := if Formatter.is_not_None (text_color self)
                      then mkFormat (num_format f) (text_color self) (fmt_bg_color f)
                             (bold f) (italic f) (underline f) (font_strikeout f)
                             (top f) (bottom f) (left f) (right f)
                      else f in
             if Formatter.is_not_None (bg_color self)
             then mkFormat (num_format f) (font_color f) (bg_color self)
                    (bold f) (italic f) (underline f) (font_strikeout f)
                    (top f) (bottom f) (left f) (right f)
             else f) = plain_format self).
  { unfold plain_format, add_format.
    destruct (cell_str_format self), (text_color self), (bg_color self); reflexivity. }
  cbv zeta in Hplain. cbv zeta. rewrite Hplain, Hfs. simpl.
  rewrite fold_font_styles.
  destruct (Formatter.is_not_None (cell_borders self)).
  - rewrite Hb. simpl. rewrite fold_borders. reflexivity.
  - injection Hb as <-. reflexivity.
Qed.

(** X4: on a fresh format object, [set_format] leaves the number format
    and the two colours of the formatter, sets a font flag exactly when
    its name is among the font styles, and sets a border (to width 2)
    exactly when its name is among the borders; the order of the names
    and their repetition do not matter, and any other name is passed
    over. *)
Theorem X4_set_format_on_a_fresh_format :
  forall self styles borders,
    listed (font_styles self) = Ok styles ->
    listed (cell_borders self) = Ok borders ->
    Formatter.set_format self add_format = Ok (format_of self styles borders).
Proof. exact set_format_listed. Qed.

Lemma X4_set_format_on_a_fresh_format_witness :
  Formatter.set_format
    (mkFormatter PNone (PList [PStr "italics"; PStr "bold"; PStr "bold"; PStr "Bold"])
       (PList [PStr "right"; PStr "inner"]) (PStr "black") PNone)
    add_format
  = Ok (mkFormat PNone (PStr "black") PNone true true false false 0 0 0 2).
Proof.
  apply (X4_set_format_on_a_fresh_format
           (mkFormatter PNone (PList [PStr "italics"; PStr "bold"; PStr "bold"; PStr "Bold"])
              (PList [PStr "right"; PStr "inner"]) (PStr "black") PNone)
           [PStr "italics"; PStr "bold"; PStr "bold"; PStr "Bold"]
           [PStr "right"; PStr "inner"]); reflexivity.
Defined.

(** No character of a text is a name of two characters or more. *)
Lemma named_chars name s :
  (1 < String.length name)%nat -> named name (PStr <$> Str.chars s) = false.
Proof.
  intros Hlen. induction s as [|c s IH]; [reflexivity|].
  change (named name (PStr <$> Str.chars (String c s)))
    with (Py.eq_str (PStr (String c EmptyString)) name
          || named name (PStr <$> Str.chars s)).
  rewrite IH, orb_false_r.
  destruct name as [|a [|b name]]; simpl in Hlen; try lia.
  simpl. destruct (Ascii.eqb c a); reflexivity.
Qed.

(** X5: font styles or borders given as one text, and not as a list of
    texts, set nothing: the loops of [set_format] run over the characters
    of the text, and no character is the name of a style or of a
    border. *)
Theorem X5_style_given_as_text_sets_nothing :
  forall cell_str_format_ styles borders text_color_ bg_color_,
    Formatter.set_format
      (mkFormatter cell_str_format_ (PStr styles) (PStr borders) text_color_ bg_color_)
      add_format
    = Ok (mkFormat cell_str_format_ text_color_ bg_color_
            false false false false 0 0 0 0).
Proof.
  intros csf styles borders tc bg.
  rewrite (set_format_listed _ (PStr <$> Str.chars styles) (PStr <$> Str.chars borders))
    by reflexivity.
  unfold format_of, border_width. simpl.
  rewrite !named_chars by (simpl; lia). reflexivity.
Qed.

(** ** The formats of the report *)

Lemma layer_hit st tier key :
  layer st (Instr.hit st tier key)
  = match tier ≫= (.!! key) with
    | Some l => Instr.content st l
    | None => ∅
    end.
Proof.
  unfold Instr.hit. destruct tier as [t|]; [|reflexivity]. simpl.
  destruct (t !! key) as [l|]; [|reflexivity]. simpl.
  case_bool_decide as Hempty; [|reflexivity]. by rewrite Hempty.
Qed.

Lemma column_key_inj i j : Main.column_key i = Main.column_key j -> i = j.
Proof. unfold Main.column_key. intros [= H]. by apply (inj pretty). Qed.

Lemma column_loc_inj i j :
  0 <= i -> 0 <= j -> Main.column_loc i = Main.column_loc j -> i = j.
Proof. intros _ _. unfold Main.column_loc. destruct i, j; congruence. Qed.

Lemma column_tier_lookup indices c : forall m : gmap pykey loc,
  foldl (fun m i => <[Main.column_key i := Main.column_loc i]> m) m indices
    !! Main.column_key c
  = if bool_decide (c ∈ indices) then Some (Main.column_loc c)
    else m !! Main.column_key c.
Proof.
  induction indices as [|i indices IH]; intros m; cbn [foldl].
  - rewrite bool_decide_eq_false_2; [done | apply not_elem_of_nil].
  - rewrite IH. case_bool_decide as Hin.
    + rewrite bool_decide_eq_true_2; [done | by right].
    + destruct (decide (c = i)) as [->|Hne].
      * rewrite lookup_insert_eq. rewrite bool_decide_eq_true_2; [done | by left].
      * rewrite lookup_insert_ne by (intros H; by apply column_key_inj in H).
        rewrite bool_decide_eq_false_2; [done|].
        intros [->|H]%elem_of_cons; done.
Qed.

Lemma column_store_lookup (styles : Z -> style) indices c :
  Forall (fun i => 0 <= i) indices -> 0 <= c ->
  forall st : gmap loc style,
    foldl (fun st i => <[Main.column_loc i := styles i]> st) st indices
      !! Main.column_loc c
    = if bool_decide (c ∈ indices) then Some (styles c) else st !! Main.column_loc c.
Proof.
  intros Hall Hc. induction Hall as [|i indices Hi Hall IH]; intros st; cbn [foldl].
  - rewrite bool_decide_eq_false_2; [done | apply not_elem_of_nil].
  - rewrite IH. case_bool_decide as Hin.
    + rewrite bool_decide_eq_true_2; [done | by right].
    + destruct (decide (c = i)) as [->|Hne].
      * rewrite lookup_insert_eq. rewrite bool_decide_eq_true_2; [done | by left].
      * rewrite lookup_insert_ne by (intros H; by apply column_loc_inj in H).
        rewrite bool_decide_eq_false_2; [done|].
        intros [->|H]%elem_of_cons; done.
Qed.

(** What instructions with a column tier only give at a coordinate. *)
Lemma convert_column_instructions indices styles r c :
  Forall (fun i => 0 <= i) indices ->
  _convert_instructions_to_formats (Some (Main.column_instructions indices styles)) r c
  = if bool_decide (c ∈ indices) then Formatter.init (styles c)
    else Ok Formatter.default.
Proof.
  intros Hall. rewrite convert_merged by (intros lcell lrow Hc; discriminate Hc).
  unfold merged, cell_found, row_found, column_found. rewrite !layer_hit.
  unfold Main.column_instructions. simpl.
  rewrite !(left_id_L ∅ (∪)), (right_id_L ∅ (∪)).
  change (KAtom (AStr (pretty c))) with (Main.column_key c).
  rewrite column_tier_lookup, lookup_empty.
  case_bool_decide as Hin; [|reflexivity].
  unfold Instr.content. rewrite column_store_lookup; [|done|].
  - by rewrite bool_decide_eq_true_2.
  - rewrite Forall_forall in Hall. by apply Hall.
Qed.

Lemma elem_of_range n c : c ∈ range n <-> 0 <= c < Z.of_nat n.
Proof.
  unfold range. rewrite list_elem_of_fmap. split.
  - intros (k & -> & Hk%elem_of_seq). lia.
  - intros Hc. exists (Z.to_nat c). split; [lia|]. apply elem_of_seq. lia.
Qed.

Lemma range_nonneg n : Forall (fun i => 0 <= i) (range n).
Proof. apply Forall_forall. intros i Hi%elem_of_range. lia. Qed.

Lemma elem_of_range_from start n c :
  0 <= start ->
  c ∈ Main.range_from start n <-> start <= c < Z.of_nat n.
Proof.
  intros _. unfold Main.range_from. rewrite list_elem_of_fmap. split.
  - intros (k & -> & Hk%elem_of_seq). lia.
  - intros Hc. exists (Z.to_nat (c - start)). split; [lia|]. apply elem_of_seq. lia.
Qed.

Lemma convert_initial_row_formatting initial_row r c :
  _convert_instructions_to_formats
    (Some (Main.get_initial_row_formatting initial_row)) r c
  = Ok (header_formatter (length initial_row) c).
Proof.
  unfold Main.get_initial_row_formatting. cbv zeta.
  rewrite convert_column_instructions by apply range_nonneg.
  unfold header_formatter.
  rewrite (bool_decide_ext _ _ (elem_of_range (length initial_row) c)).
  case_bool_decide; [|reflexivity].
  destruct (c =? Z.of_nat (length initial_row) - 1); reflexivity.
Qed.

Lemma convert_rest_rows_formatting start_position formatted_row r c :
  0 <= start_position ->
  _convert_instructions_to_formats
    (Some (Main.get_rest_rows_formatting start_position formatted_row)) r c
  = Ok (record_formatter start_position (length formatted_row) c).
Proof.
  intros Hstart. unfold Main.get_rest_rows_formatting. cbv zeta.
  rewrite convert_column_instructions.
  - unfold record_formatter.
    rewrite (bool_decide_ext _ _
               (elem_of_range_from start_position (length formatted_row) c Hstart)).
    case_bool_decide; [|reflexivity].
    destruct (c =? 3), (c =? Z.of_nat (length formatted_row) - 1); reflexivity.
  - apply Forall_forall. intros i Hi%elem_of_range_from; lia.
Qed.

Lemma header_formatter_format n c :
  Formatter.set_format (header_formatter n c) add_format = Ok (header_format n c).
Proof.
  unfold header_formatter, header_format. case_bool_decide; [|reflexivity].
  destruct (c =? Z.of_nat n - 1); reflexivity.
Qed.

Lemma record_formatter_format start n c :
  Formatter.set_format (record_formatter start n c) add_format
  = Ok (record_format start n c).
Proof.
  unfold record_formatter, record_format. case_bool_decide; [|reflexivity].
  destruct (c =? 3), (c =? Z.of_nat n - 1); reflexivity.
Qed.

(** X6: whatever the header row, and at every row index, the
    instructions of [get_initial_row_formatting] give each of its columns
    a bold black text on the background [#99CCFF] with a top border, the
    last column a right border too, and give a column past the header
    row the default formatter, which sets nothing. *)
Theorem X6_initial_row_formatting :
  forall initial_row r c,
    _convert_instructions_to_formats
      (Some (Main.get_initial_row_formatting initial_row)) r c
    = Ok (header_formatter (length initial_row) c)
    /\ Formatter.set_format (header_formatter (length initial_row) c) add_format
       = Ok (header_format (length initial_row) c).
Proof.
  intros. split; [apply convert_initial_row_formatting | apply header_formatter_format].
Qed.

(** X7: for a start position that is not negative, the instructions of
    [get_rest_rows_formatting] give the columns from the start position
    on the currency format, except column 3, and the last column a right
    border; a column before the start position gets the default
    formatter, as does column 3 when it is not the last one (its style
    dict is empty). *)
Theorem X7_rest_rows_formatting :
  forall start_position formatted_row r c,
    0 <= start_position ->
    _convert_instructions_to_formats
      (Some (Main.get_rest_rows_formatting start_position formatted_row)) r c
    = Ok (record_formatter start_position (length formatted_row) c)
    /\ Formatter.set_format
         (record_formatter start_position (length formatted_row) c) add_format
       = Ok (record_format start_position (length formatted_row) c)
    /\ (c < start_position \/ (c = 3 /\ c <> Z.of_nat (length formatted_row) - 1) ->
        record_formatter start_position (length formatted_row) c = Formatter.default).
Proof.
  intros start_position formatted_row r c Hstart.
  split; [by apply convert_rest_rows_formatting|].
  split; [apply record_formatter_format|].
  unfold record_formatter. intros Hc. case_bool_decide; [|reflexivity].
  destruct Hc as [Hc|[-> Hc]]; [lia|].
  rewrite (proj2 (Z.eqb_neq _ _) Hc). reflexivity.
Qed.

Lemma X7_rest_rows_formatting_witness :
  _convert_instructions_to_formats
    (Some (Main.get_rest_rows_formatting 1 (replicate 5 (PStr "")))) 7 4
  = Ok (record_formatter 1 (length (replicate 5 (PStr ""))) 4)
  /\ Formatter.set_format
       (record_formatter 1 (length (replicate 5 (PStr ""))) 4) add_format
     = Ok (record_format 1 (length (replicate 5 (PStr ""))) 4)
  /\ (4 < 1 \/ (4 = 3 /\ 4 <> Z.of_nat (length (replicate 5 (PStr ""))) - 1) ->
      record_formatter 1 (length (replicate 5 (PStr ""))) 4 = Formatter.default).
Proof.
  apply (X7_rest_rows_formatting 1 (replicate 5 (PStr "")) 7 4). lia.
Defined.

(** ** The cells of [write_row], with their formats *)

(** X8: on an open sheet, with instructions that give the format
    [formats r c] at every coordinate, and with values the call can write
    (the rows of a nested list are lists or tuples, and the library takes
    every item), [write_row] returns.  It starts from the offset given,
    or from the cursor when none is given, and leaves the cursor past the
    rows it wrote (none for an empty list, one for a flat list, one per
    row for a nested list), so an offset given moves the cursor wherever
    it was.  The items go to [write] as they are, a list, a tuple or
    bytes as [None].  A flat list goes to the start row, each cell with
    the format the instructions give for that row of the sheet; row [i]
    of a nested list goes to row [i] past the start, but with the format
    the instructions give for row [i] itself, not for the row of the
    sheet it is written to. *)
Theorem X8_write_row_cells_and_formats :
  forall instructions formats self values offset,
    formats_as instructions formats ->
    writable self ->
    values_ok values ->
    exists self',
      write_row self values offset instructions
      = Ok (self', start_row self offset + rows_written values)
      /\ _offset self' = start_row self offset + rows_written values
      /\ written self'
         = written self ++ cells_written formats (start_row self offset) values
      /\ writable self'.
Proof.
  intros instructions formats self values offset Hformats.
  by apply write_row_cells.
Qed.

(** A nested list of two rows written from row 5, on a sheet whose
    cursor is at row 1: the rows go to rows 5 and 6, and the cursor to
    row 7. *)
Lemma X8_write_row_cells_and_formats_witness :
  exists self',
    write_row fresh_sheet [PList [PStr "a"; PInt 1; PList []]; PTuple [PStr "b"]]
      (Some 5) None
    = Ok (self', 7)
    /\ _offset self' = 7
    /\ written self'
       = [mkCell 5 0 (PStr "a") add_format; mkCell 5 1 (PInt 1) add_format;
          mkCell 5 2 PNone add_format; mkCell 6 0 (PStr "b") add_format]
    /\ writable self'.
Proof.
  apply (X8_write_row_cells_and_formats None (fun _ _ => add_format) fresh_sheet
           [PList [PStr "a"; PInt 1; PList []]; PTuple [PStr "b"]] (Some 5)).
  - intros r c. exists Formatter.default. split; reflexivity.
  - exists "report.xlsx", [("Sheet1", [])], 0%nat, "Sheet1", []. repeat split.
  - repeat constructor.
Defined.

(** ** The rows of [table_data] *)

(** Runs a formatter whose result is known, one call at a time. *)
Ltac run_parse H :=
  lazymatch type of H with
  | Ok _ = Ok _ => injection H as <-
  | Raise _ = Ok _ => discriminate H
  | context [mbind _ ?m] =>
      destruct m eqn:?; cbn [mbind result_bind] in H; run_parse H
  | context [if ?b then _ else _] => destruct b eqn:?; run_parse H
  | context [match ?x with _ => _ end] => destruct x eqn:?; run_parse H
  | _ => idtac
  end.

Lemma text_text inputreferenceName outputreferenceName v_source v_foldername v :
  Parse.ParseCopyActivity.text inputreferenceName outputreferenceName v_source v_foldername
  = Ok v ->
  text_or_None v.
Proof.
  unfold Parse.ParseCopyActivity.text. intros H.
  destruct inputreferenceName, outputreferenceName; try discriminate.
  by injection H as <-.
Qed.

(** Every detail formatter returns a text or [None]. *)
Lemma parse_task_details_text task_type obj v :
  parse_task_details task_type obj = Ok v -> text_or_None v.
Proof.
  unfold parse_task_details. intros H.
  repeat match type of H with
         | (if ?b then _ else _) = _ => destruct b
         end.
  - unfold Parse.ParseLookup.parse in H. run_parse H; exact I.
  - unfold Parse.ParseIfCondition.parse in H. run_parse H; exact I.
  - unfold Parse.ParseSPROC.parse in H. run_parse H; exact I.
  - unfold Parse.ParseWebActivity.parse in H. run_parse H; exact I.
  - unfold Parse.ParseWaitActivity.parse in H. run_parse H; exact I.
  - unfold Parse.ParseDeleteActivity.parse in H. run_parse H; exact I.
  - unfold Parse.ParseExecutePipeline.parse in H. run_parse H; exact I.
  - unfold Parse.ParseCopyActivity.parse in H.
    run_parse H; try exact I; by eapply text_text.
  - unfold Parse.ParseNotebookActivity.parse in H. run_parse H; exact I.
  - unfold Parse.ParseGetMetadataActivity.parse in H. run_parse H; exact I.
  - by injection H as <-.
Qed.

Lemma parse_dependsOn_text dependency_list v :
  parse_dependsOn dependency_list = Ok v -> text_or_None v.
Proof.
  unfold parse_dependsOn. intros H.
  destruct (Py.truthy dependency_list); [|by injection H as <-].
  destruct (Py.iter dependency_list); [|discriminate]. cbn [mbind result_bind] in H.
  destruct (for_each _ _ _); [|discriminate]. by injection H as <-.
Qed.

Lemma or_text v s : text_or_None v -> exists t, Py.or_ v (PStr s) = PStr t.
Proof.
  unfold Py.or_. destruct v; try done; intros _.
  - by exists s.
  - simpl. destruct (negb _); eauto.
Qed.

(** What [record_task] does: nothing, or one row appended. *)
Lemma record_task_appends kvs name parent_task_name self self' :
  record_task kvs name parent_task_name self = Ok self' ->
  pipeline_name_flag self' = pipeline_name_flag self
  /\ pipeline_name self' = pipeline_name self
  /\ (table_data self' = table_data self
      \/ exists type details dependency,
           table_data self'
           = table_data self ++ [[PStr (pipeline_name self); PStr name; type;
                                  PStr details; PStr dependency]]
           /\ any_in tasks type = Ok true).
Proof.
  unfold record_task. intros H.
  destruct (any_in tasks _) as [[|]|] eqn:Hany; cbn [mbind result_bind] in H;
    try discriminate.
  - destruct (parse_task_details _ _) as [details|] eqn:Hd;
      cbn [mbind result_bind] in H; try discriminate.
    destruct (parse_dependsOn _) as [dependency|] eqn:Hdep;
      cbn [mbind result_bind] in H; try discriminate.
    injection H as <-. simpl. split; [done|]. split; [done|]. right.
    apply parse_task_details_text in Hd. apply parse_dependsOn_text in Hdep.
    destruct (or_text details "" Hd) as (d & ->).
    destruct (or_text dependency parent_task_name Hdep) as (p & ->).
    eauto 6.
  - injection H as <-. auto.
Qed.

Lemma recursive_parsing_dict kvs parent_task_name self :
  recursive_parsing (PDict kvs) parent_task_name self
  = template_dict_loop recursive_parsing kvs parent_task_name kvs None self.
Proof. reflexivity. Qed.

Lemma recursive_parsing_list l parent_task_name self :
  recursive_parsing (PList l) parent_task_name self
  = list_loop recursive_parsing parent_task_name l self.
Proof. reflexivity. Qed.

Lemma recursive_parsing_tuple l parent_task_name self :
  recursive_parsing (PTuple l) parent_task_name self
  = list_loop recursive_parsing parent_task_name l self.
Proof. reflexivity. Qed.

(** A relation between the state before and the state after, kept by
    every step of a traversal, is kept by the traversal. *)
Section Invariant.

Variable R : DocGen -> DocGen -> Prop.
Hypothesis R_refl : forall s, R s s.
Hypothesis R_trans : forall s1 s2 s3, R s1 s2 -> R s2 s3 -> R s1 s3.

Lemma list_loop_invariant rec parent_task_name items :
  Forall (fun v => forall parent self self', rec v parent self = Ok self' -> R self self')
    items ->
  forall self self',
    list_loop rec parent_task_name items self = Ok self' -> R self self'.
Proof.
  intros Hall.
  induction Hall as [|data items Hv Hrest IH]; intros self self' Hrun; simpl in Hrun.
  - injection Hrun as <-. apply R_refl.
  - destruct data as [| b | z | r | name | l | l | kvs' | y m d | bs];
      try (by eapply IH).
    destruct (rec (PDict kvs') parent_task_name self) as [s1|] eqn:Hrec;
      simpl in Hrun; try discriminate.
    eapply R_trans; [by eapply Hv | by eapply IH].
Qed.

Section Individual.

Hypothesis R_capture : forall self name,
  pipeline_name_flag self = true -> R self (mkDocGen false name (table_data self)).
Hypothesis R_record : forall kvs name parent_task_name self self',
  pipeline_name_flag self = false ->
  record_task kvs name parent_task_name self = Ok self' -> R self self'.

Lemma individual_dict_loop_invariant kvs parent_task_name items :
  Forall (fun kv => forall parent self self',
            recursive_parsing_Individual kv.2 parent self = Ok self' -> R self self')
    items ->
  forall current_task_name self self',
    individual_dict_loop recursive_parsing_Individual kvs parent_task_name
      items current_task_name self = Ok self' ->
    R self self'.
Proof.
  intros Hall.
  induction Hall as [|[data value] items Hv Hrest IH]; intros current self self' Hrun;
    simpl in Hrun.
  - injection Hrun as <-. apply R_refl.
  - simpl in Hv.
    destruct value as [| b | z | r | name | l | l | kvs' | y m d | bs];
      try (by eapply IH).
    + destruct (String.eqb data "name"); [|by eapply IH].
      destruct (pipeline_name_flag self) eqn:Hflag.
      * eapply R_trans; [by apply (R_capture self name) | by eapply IH].
      * destruct (record_task kvs name parent_task_name self) as [s1|] eqn:Hrec;
          simpl in Hrun; try discriminate.
        eapply R_trans; [by eapply R_record | by eapply IH].
    + destruct (recursive_parsing_Individual (PList l) _ self) as [s1|] eqn:Hrec;
        simpl in Hrun; try discriminate.
      eapply R_trans; [by eapply Hv | by eapply IH].
    + destruct (recursive_parsing_Individual (PDict kvs') _ self) as [s1|] eqn:Hrec;
        simpl in Hrun; try discriminate.
      eapply R_trans; [by eapply Hv | by eapply IH].
Qed.

Lemma recursive_parsing_Individual_invariant v :
  forall parent_task_name self self',
    recursive_parsing_Individual v parent_task_name self = Ok self' -> R self self'.
Proof.
  induction v as [| b | z | r | s | l IH | l IH | kvs IH | y m d | bs]
    using pyval_ind;
    intros parent self self' Hrun; try discriminate.
  - injection Hrun as <-. apply R_refl.
  - rewrite recursive_parsing_Individual_list in Hrun.
    by eapply list_loop_invariant.
  - rewrite recursive_parsing_Individual_tuple in Hrun.
    by eapply list_loop_invariant.
  - rewrite recursive_parsing_Individual_dict in Hrun.
    by eapply individual_dict_loop_invariant.
  - injection Hrun as <-. apply R_refl.
Qed.

End Individual.

Section Template.

Hypothesis R_set : forall self name,
  R self (mkDocGen (pipeline_name_flag self) name (table_data self)).
Hypothesis R_record : forall kvs name parent_task_name self self',
  record_task kvs name parent_task_name self = Ok self' -> R self self'.

Lemma template_dict_loop_invariant kvs parent_task_name items :
  Forall (fun kv => forall parent self self',
            recursive_parsing kv.2 parent self = Ok self' -> R self self')
    items ->
  forall current_task_name self self',
    template_dict_loop recursive_parsing kvs parent_task_name
      items current_task_name self = Ok self' ->
    R self self'.
Proof.
  intros Hall.
  induction Hall as [|[data value] items Hv Hrest IH]; intros current self self' Hrun;
    simpl in Hrun.
  - injection Hrun as <-. apply R_refl.
  - simpl in Hv.
    destruct value as [| b | z | r | name | l | l | kvs' | y m d | bs];
      try (by eapply IH).
    + destruct (String.eqb data "name"); [|by eapply IH].
      destruct (Str.contains v_type name).
      * eapply R_trans; [apply (R_set self) | by eapply IH].
      * destruct (record_task kvs name parent_task_name self) as [s1|] eqn:Hrec;
          simpl in Hrun; try discriminate.
        eapply R_trans; [by eapply R_record | by eapply IH].
    + destruct (recursive_parsing (PList l) _ self) as [s1|] eqn:Hrec;
        simpl in Hrun; try discriminate.
      eapply R_trans; [by eapply Hv | by eapply IH].
    + destruct (recursive_parsing (PDict kvs') _ self) as [s1|] eqn:Hrec;
        simpl in Hrun; try discriminate.
      eapply R_trans; [by eapply Hv | by eapply IH].
Qed.

Lemma recursive_parsing_invariant v :
  forall parent_task_name self self',
    recursive_parsing v parent_task_name self = Ok self' -> R self self'.
Proof.
  induction v as [| b | z | r | s | l IH | l IH | kvs IH | y m d | bs]
    using pyval_ind;
    intros parent self self' Hrun; try discriminate.
  - injection Hrun as <-. apply R_refl.
  - rewrite recursive_parsing_list in Hrun. by eapply list_loop_invariant.
  - rewrite recursive_parsing_tuple in Hrun. by eapply list_loop_invariant.
  - rewrite recursive_parsing_dict in Hrun. by eapply template_dict_loop_invariant.
  - injection Hrun as <-. apply R_refl.
Qed.

End Template.

End Invariant.

Lemma records_appended_refl s : records_appended s s.
Proof. exists []. by rewrite app_nil_r. Qed.

Lemma records_appended_trans s1 s2 s3 :
  records_appended s1 s2 -> records_appended s2 s3 -> records_appended s1 s3.
Proof.
  intros (a & Ha & Hsa) (b & Hb & Hsb). exists (a ++ b).
  split; [by rewrite Hb, Ha, app_assoc | by apply Forall_app].
Qed.

Lemma record_task_shape kvs name parent_task_name self self' :
  record_task kvs name parent_task_name self = Ok self' -> records_appended self self'.
Proof.
  intros H. apply record_task_appends in H as (_ & _ & [H|(type & d & p & H & Hany)]).
  - exists []. by rewrite app_nil_r.
  - eexists. split; [exact H|]. constructor; [|constructor].
    by exists (pipeline_name self), name, type, d, p.
Qed.

Lemma for_each_invariant {A S} (R : S -> S -> Prop) (body : A -> S -> result S) xs :
  (forall s, R s s) ->
  (forall s1 s2 s3, R s1 s2 -> R s2 s3 -> R s1 s3) ->
  (forall x s s', body x s = Ok s' -> R s s') ->
  forall s s', for_each xs body s = Ok s' -> R s s'.
Proof.
  intros Hrefl Htrans Hbody.
  induction xs as [|x xs IH]; intros s s' H; simpl in H.
  - injection H as <-. apply Hrefl.
  - destruct (body x s) as [s1|] eqn:Hx; simpl in H; try discriminate.
    eapply Htrans; [by eapply Hbody | by eapply IH].
Qed.

Lemma parse_document_shape json_data doc_gen :
  Main.parse_document json_data = Ok doc_gen -> records_appended init doc_gen.
Proof.
  unfold Main.parse_document. intros H.
  destruct (Py.get json_data "resources" (PStr "")) as [resources|]; simpl in H;
    try discriminate.
  assert (Hind : forall v parent self self',
             recursive_parsing_Individual v parent self = Ok self' ->
             records_appended self self').
  { intros v. apply recursive_parsing_Individual_invariant.
    - apply records_appended_refl.
    - apply records_appended_trans.
    - intros self name _. exists []. simpl. by rewrite app_nil_r.
    - intros kvs name parent self self' _. apply record_task_shape. }
  destruct resources; try (by eapply Hind).
  revert H. apply for_each_invariant.
  - apply records_appended_refl.
  - apply records_appended_trans.
  - intros data s s' H.
    destruct (Py.get data "type" PNone) as [type|]; simpl in H; try discriminate.
    destruct (Py.eq_str type _).
    + revert H. apply recursive_parsing_invariant.
      * apply records_appended_refl.
      * apply records_appended_trans.
      * intros self name. exists []. simpl. by rewrite app_nil_r.
      * apply record_task_shape.
    + injection H as <-. apply records_appended_refl.
Qed.

(** X9: in both modes, when the parsing of a document returns, every row
    of [table_data] has five entries, the name of a pipeline, the name of
    the task, its type, the details and the dependency; the type holds one
    of the kinds of [tasks], and the four other entries are texts (the
    details and the dependency are the empty text, never [None], when
    there are none). *)
Theorem X9_rows_have_five_entries :
  forall json_data doc_gen,
    Main.parse_document json_data = Ok doc_gen ->
    Forall record_shape (table_data doc_gen).
Proof.
  intros json_data doc_gen H.
  apply parse_document_shape in H as (rows & -> & Hrows). exact Hrows.
Qed.

Lemma X9_rows_have_five_entries_witness :
  Forall record_shape (table_data sample_table).
Proof.
  apply (X9_rows_have_five_entries sample_document sample_table).
  vm_compute. reflexivity.
Defined.

Lemma carries_refl s : carries s s.
Proof.
  exists []. rewrite app_nil_r. repeat split; try done. by intros [H|H].
Qed.

Lemma carries_trans s1 s2 s3 : carries s1 s2 -> carries s2 s3 -> carries s1 s3.
Proof.
  intros (a & Ha & Hca & Hna & Hfa) (b & Hb & Hcb & Hnb & Hfb).
  exists (a ++ b). split; [by rewrite Hb, Ha, app_assoc|].
  split; [|split].
  - apply Forall_app. split; [|done].
    destruct a as [|row_ a]; [constructor|].
    rewrite Hnb; [done|]. apply Hfa. by right.
  - intros Hflag. rewrite Hnb; [by apply Hna|]. apply Hfa. by left.
  - intros [Hflag|Hrows].
    + apply Hfb. left. apply Hfa. by left.
    + destruct a as [|row_ a].
      * apply Hfb. by right.
      * apply Hfb. left. apply Hfa. by right.
Qed.

Lemma record_task_carries kvs name parent_task_name self self' :
  pipeline_name_flag self = false ->
  record_task kvs name parent_task_name self = Ok self' -> carries self self'.
Proof.
  intros Hflag H.
  apply record_task_appends in H as (Hf & Hn & [H|(type & d & p & H & Hany)]).
  - exists []. rewrite app_nil_r. repeat split; try done. intros _. congruence.
  - eexists. split; [exact H|]. split; [|split].
    + constructor; [|constructor]. simpl. by rewrite Hn.
    + done.
    + intros _. congruence.
Qed.

Lemma recursive_parsing_Individual_carries v parent_task_name self self' :
  recursive_parsing_Individual v parent_task_name self = Ok self' -> carries self self'.
Proof.
  apply recursive_parsing_Individual_invariant.
  - apply carries_refl.
  - apply carries_trans.
  - intros s name Hflag. exists []. simpl. rewrite app_nil_r.
    repeat split; try done. intros H. congruence.
  - apply record_task_carries.
Qed.

(** X10: in the traversal of a single pipeline, every row carries one and
    the same pipeline name, the one the generator holds at the end: a row
    is appended only once the name is captured, and the name is not set
    again. *)
Theorem X10_rows_carry_the_pipeline_name :
  forall json_data parent_task_name doc_gen,
    recursive_parsing_Individual json_data parent_task_name init = Ok doc_gen ->
    Forall (fun row_ : list pyval => row_ !! 0%nat = Some (PStr (pipeline_name doc_gen)))
      (table_data doc_gen).
Proof.
  intros json_data parent doc_gen H.
  apply recursive_parsing_Individual_carries in H as (rows & -> & Hrows & _).
  exact Hrows.
Qed.

Lemma X10_rows_carry_the_pipeline_name_witness :
  Forall (fun row_ : list pyval => row_ !! 0%nat = Some (PStr (pipeline_name sample_table)))
    (table_data sample_table).
Proof.
  apply (X10_rows_carry_the_pipeline_name sample_document "" sample_table).
  vm_compute. reflexivity.
Defined.

(** ** The two traversals *)

Lemma plain_names_dict_cons k x kvs :
  plain_names (PDict ((k, x) :: kvs))
  = match x with
    | PStr name => negb (String.eqb k "name" && Str.contains v_type name)
    | _ => plain_names x
    end && plain_names (PDict kvs).
Proof. reflexivity. Qed.

Lemma plain_names_list_cons x l :
  plain_names (PList (x :: l)) = plain_names x && plain_names (PList l).
Proof. reflexivity. Qed.

Lemma recursive_parsing_Individual_flag v parent_task_name self self' :
  pipeline_name_flag self = false ->
  recursive_parsing_Individual v parent_task_name self = Ok self' ->
  pipeline_name_flag self' = false.
Proof.
  intros Hflag H. apply recursive_parsing_Individual_carries in H as (rows & _ & _ & _ & Hf).
  apply Hf. by left.
Qed.

Section Agreement.

Let agree (v : pyval) : Prop :=
  plain_names v = true ->
  forall parent_task_name self,
    pipeline_name_flag self = false ->
    recursive_parsing v parent_task_name self
    = recursive_parsing_Individual v parent_task_name self.

Lemma dict_loops_agree kvs parent_task_name items :
  Forall (fun kv => agree kv.2) items ->
  plain_names (PDict items) = true ->
  forall current_task_name self,
    pipeline_name_flag self = false ->
    template_dict_loop recursive_parsing kvs parent_task_name items current_task_name self
    = individual_dict_loop recursive_parsing_Individual kvs parent_task_name items
        current_task_name self.
Proof.
  intros Hall.
  induction Hall as [|[data value] items Hv Hrest IH]; intros Hplain current self Hflag;
    [reflexivity|].
  rewrite plain_names_dict_cons in Hplain. apply andb_prop in Hplain as [Hx Hplain].
  simpl in Hv. specialize (IH Hplain).
  destruct value as [| b | z | r | name | l | l | kvs' | y m d | bs];
    try (by apply IH).
  - cbn [template_dict_loop individual_dict_loop].
    destruct (String.eqb data "name"); [|by apply IH].
    simpl in Hx. apply negb_true_iff in Hx. rewrite Hx, Hflag.
    destruct (record_task kvs name parent_task_name self) as [s1|] eqn:Hrec;
      [|reflexivity].
    cbn [mbind result_bind]. apply IH.
    apply record_task_keeps in Hrec as [-> _]. exact Hflag.
  - cbn [template_dict_loop individual_dict_loop]. rewrite (Hv Hx _ _ Hflag).
    destruct (recursive_parsing_Individual (PList l) _ self) as [s1|] eqn:Hrec;
      [|reflexivity].
    cbn [mbind result_bind]. apply IH.
    by eapply recursive_parsing_Individual_flag.
  - cbn [template_dict_loop individual_dict_loop]. rewrite (Hv Hx _ _ Hflag).
    destruct (recursive_parsing_Individual (PDict kvs') _ self) as [s1|] eqn:Hrec;
      [|reflexivity].
    cbn [mbind result_bind]. apply IH.
    by eapply recursive_parsing_Individual_flag.
Qed.

Lemma list_loops_agree parent_task_name items :
  Forall agree items ->
  plain_names (PList items) = true ->
  forall self,
    pipeline_name_flag self = false ->
    list_loop recursive_parsing parent_task_name items self
    = list_loop recursive_parsing_Individual parent_task_name items self.
Proof.
  intros Hall.
  induction Hall as [|data items Hv Hrest IH]; intros Hplain self Hflag; [reflexivity|].
  rewrite plain_names_list_cons in Hplain. apply andb_prop in Hplain as [Hx Hplain].
  specialize (IH Hplain).
  destruct data as [| b | z | r | name | l | l | kvs' | y m d | bs];
    try (by apply IH).
  cbn [list_loop]. rewrite (Hv Hx _ _ Hflag).
  destruct (recursive_parsing_Individual (PDict kvs') _ self) as [s1|] eqn:Hrec;
    [|reflexivity].
  cbn [mbind result_bind]. apply IH.
  by eapply recursive_parsing_Individual_flag.
Qed.

Lemma traversals_agree v : agree v.
Proof.
  induction v as [| b | z | r | s | l IH | l IH | kvs IH | y m d | bs]
    using pyval_ind;
    intros Hplain parent self Hflag; try reflexivity.
  - rewrite recursive_parsing_list, recursive_parsing_Individual_list.
    by apply list_loops_agree.
  - rewrite recursive_parsing_tuple, recursive_parsing_Individual_tuple.
    by apply list_loops_agree.
  - rewrite recursive_parsing_dict, recursive_parsing_Individual_dict.
    by apply dict_loops_agree.
Qed.

End Agreement.

(** X11: the two traversals differ only in how they take a pipeline
    name.  On a value that holds no name of a resource of a template (no
    str under a key [name] with the text [v_type] in it), and once the
    flag of the generator is down, [recursive_parsing] and
    [recursive_parsing_Individual] do the same: the same rows, or the same
    exception. *)
Theorem X11_traversals_agree :
  forall input_data parent_task_name self,
    plain_names input_data = true ->
    pipeline_name_flag self = false ->
    recursive_parsing input_data parent_task_name self
    = recursive_parsing_Individual input_data parent_task_name self.
Proof. intros v parent self Hplain Hflag. by apply traversals_agree. Qed.

Lemma X11_traversals_agree_witness :
  recursive_parsing sample_document "" (mkDocGen false "PL0" [])
  = recursive_parsing_Individual sample_document "" (mkDocGen false "PL0" []).
Proof.
  apply (X11_traversals_agree sample_document "" (mkDocGen false "PL0" []));
    reflexivity.
Defined.

(** ** The pipeline name of a resource of a template *)

Lemma prefix_quote c s :
  String.prefix "'" (String c s) = bool_decide (c = "'"%char).
Proof.
  change (String.prefix "'" (String c s))
    with (match ascii_dec "'" c with
          | Specif.left _ => String.prefix "" s
          | Specif.right _ => false
          end).
  destruct (ascii_dec "'" c) as [<-|Hne].
  - rewrite bool_decide_eq_true_2 by done. by destruct s.
  - rewrite bool_decide_eq_false_2; [done | congruence].
Qed.

Lemma occurrences_quote_cons c s i :
  Str.occurrences "'" (String c s) i
  = (if bool_decide (c = "'"%char) then [i] else []) ++ Str.occurrences "'" s (i + 1).
Proof.
  change (Str.occurrences "'" (String c s) i)
    with ((if String.prefix "'" (String c s) then [i] else [])
            ++ Str.occurrences "'" s (i + 1)).
  by rewrite prefix_quote.
Qed.

Lemma occurrences_quote_nil i : Str.occurrences "'" "" i = [].
Proof. reflexivity. Qed.

Lemma occurrences_quote_none t : forall i,
  Str.contains "'" t = false -> Str.occurrences "'" t i = [].
Proof.
  induction t as [|c t IH]; intros i H; [reflexivity|].
  rewrite occurrences_quote_cons.
  change (Str.contains "'" (String c t))
    with (String.prefix "'" (String c t) || Str.contains "'" t) in H.
  rewrite prefix_quote in H. apply orb_false_elim in H as [-> H].
  by rewrite IH.
Qed.

Lemma occurrences_quote_app a b : forall i,
  Str.occurrences "'" (a +:+ b) i
  = Str.occurrences "'" a i ++ Str.occurrences "'" b (i + Str.len a).
Proof.
  induction a as [|c a IH]; intros i.
  - rewrite occurrences_quote_nil. unfold Str.len. simpl. by rewrite Z.add_0_r.
  - change (String c a +:+ b) with (String c (a +:+ b)).
    rewrite !occurrences_quote_cons, IH, <- app_assoc. do 3 f_equal.
    unfold Str.len. simpl String.length. lia.
Qed.

(** The last quote of a text that ends with a quote and a text without
    one. *)
Lemma rfind_last_quote a t :
  Str.contains "'" t = false ->
  Str.rfind "'" (a +:+ "'" +:+ t) = Str.len a.
Proof.
  intros Ht. unfold Str.rfind. rewrite occurrences_quote_app.
  change ("'" +:+ t) with (String "'"%char t).
  rewrite occurrences_quote_cons, bool_decide_eq_true_2 by done.
  rewrite (occurrences_quote_none t) by done. simpl.
  by rewrite last_last.
Qed.

Lemma substring_0_app n r :
  String.substring 0 (String.length n) (n +:+ r) = n.
Proof.
  induction n as [|c n IH]; [by destruct r|].
  change (String c n +:+ r) with (String c (n +:+ r)).
  cbn [String.length String.substring]. by rewrite IH.
Qed.

Lemma substring_app p n r :
  String.substring (String.length p) (String.length n) (p +:+ n +:+ r) = n.
Proof.
  induction p as [|c p IH]; [exact (substring_0_app n r)|].
  change (String c p +:+ n +:+ r) with (String c (p +:+ n +:+ r)).
  cbn [String.length String.substring]. exact IH.
Qed.

Lemma string_length_app (a b : string) :
  String.length (a +:+ b) = (String.length a + String.length b)%nat.
Proof.
  induction a as [|c a IH]; [done|].
  change (String c a +:+ b) with (String c (a +:+ b)).
  cbn [String.length]. by rewrite IH.
Qed.

Lemma app_assoc_string (a b c : string) : (a +:+ b) +:+ c = a +:+ b +:+ c.
Proof.
  induction a as [|x a IH]; [done|].
  change ((String x a +:+ b) +:+ c) with (String x ((a +:+ b) +:+ c)).
  change (String x a +:+ b +:+ c) with (String x (a +:+ b +:+ c)).
  by rewrite IH.
Qed.

(** The slice of a resource name that [recursive_parsing] takes. *)
Lemma slice_resource_name prefix name rest :
  String.length prefix = 37%nat ->
  Str.contains "'" rest = false ->
  Str.slice (resource_name prefix name rest) 37
    (Str.rfind "'" (resource_name prefix name rest))
  = name.
Proof.
  intros Hp Hrest. unfold resource_name.
  rewrite <- (app_assoc_string prefix name), rfind_last_quote by done.
  rewrite (app_assoc_string prefix name).
  unfold Str.slice, Str.clamp, Str.len. rewrite !string_length_app, Hp.
  change (String.length ("'" +:+ rest)) with (S (String.length rest)).
  rewrite (proj2 (Z.ltb_ge _ _)) by lia.
  rewrite (proj2 (Z.ltb_ge _ _)) by lia.
  replace (Z.to_nat (Z.max 0 (Z.min _ 37))) with (String.length prefix) by lia.
  match goal with
  | |- String.substring _ (Z.to_nat ?k) _ = _ =>
      replace (Z.to_nat k) with (String.length name) by lia
  end.
  apply substring_app.
Qed.

Lemma keeps_name_refl s : keeps_name s s.
Proof. split; [done|]. exists []. by rewrite app_nil_r. Qed.

Lemma keeps_name_trans s1 s2 s3 :
  keeps_name s1 s2 -> keeps_name s2 s3 -> keeps_name s1 s3.
Proof.
  intros (Hn1 & a & Ha & Hca) (Hn2 & b & Hb & Hcb). split; [congruence|].
  exists (a ++ b). split; [by rewrite Hb, Ha, app_assoc|].
  apply Forall_app. split; [done|]. by rewrite <- Hn1.
Qed.

Lemma record_task_keeps_name kvs name parent_task_name self self' :
  record_task kvs name parent_task_name self = Ok self' -> keeps_name self self'.
Proof.
  intros H.
  apply record_task_appends in H as (_ & Hn & [H|(type & d & p & H & _)]).
  - split; [done|]. exists []. by rewrite app_nil_r.
  - split; [done|]. eexists. split; [exact H|]. by repeat constructor.
Qed.

Section Plain.

Let holds (v : pyval) : Prop :=
  plain_names v = true ->
  forall parent_task_name self self',
    recursive_parsing v parent_task_name self = Ok self' -> keeps_name self self'.

Lemma plain_dict_loop_keeps_name kvs parent_task_name items :
  Forall (fun kv => holds kv.2) items ->
  plain_names (PDict items) = true ->
  forall current_task_name self self',
    template_dict_loop recursive_parsing kvs parent_task_name items current_task_name self
    = Ok self' ->
    keeps_name self self'.
Proof.
  intros Hall.
  induction Hall as [|[data value] items Hv Hrest IH]; intros Hplain current self self' Hrun.
  - injection Hrun as <-. apply keeps_name_refl.
  - rewrite plain_names_dict_cons in Hplain. apply andb_prop in Hplain as [Hx Hplain].
    simpl in Hv. specialize (IH Hplain). cbn [template_dict_loop] in Hrun.
    destruct value as [| b | z | r | name | l | l | kvs' | y m d | bs];
      try (by eapply IH).
    + destruct (String.eqb data "name"); [|by eapply IH].
      simpl in Hx. apply negb_true_iff in Hx. rewrite Hx in Hrun.
      destruct (record_task kvs name parent_task_name self) as [s1|] eqn:Hrec;
        cbn [mbind result_bind] in Hrun; try discriminate.
      eapply keeps_name_trans; [by eapply record_task_keeps_name | by eapply IH].
    + destruct (recursive_parsing (PList l) _ self) as [s1|] eqn:Hrec;
        cbn [mbind result_bind] in Hrun; try discriminate.
      eapply keeps_name_trans; [by eapply Hv | by eapply IH].
    + destruct (recursive_parsing (PDict kvs') _ self) as [s1|] eqn:Hrec;
        cbn [mbind result_bind] in Hrun; try discriminate.
      eapply keeps_name_trans; [by eapply Hv | by eapply IH].
Qed.

Lemma plain_list_loop_keeps_name parent_task_name items :
  Forall holds items ->
  plain_names (PList items) = true ->
  forall self self',
    list_loop recursive_parsing parent_task_name items self = Ok self' ->
    keeps_name self self'.
Proof.
  intros Hall.
  induction Hall as [|data items Hv Hrest IH]; intros Hplain self self' Hrun.
  - injection Hrun as <-. apply keeps_name_refl.
  - rewrite plain_names_list_cons in Hplain. apply andb_prop in Hplain as [Hx Hplain].
    specialize (IH Hplain). cbn [list_loop] in Hrun.
    destruct data as [| b | z | r | name | l | l | kvs' | y m d | bs];
      try (by eapply IH).
    destruct (recursive_parsing (PDict kvs') _ self) as [s1|] eqn:Hrec;
      cbn [mbind result_bind] in Hrun; try discriminate.
    eapply keeps_name_trans; [by eapply Hv | by eapply IH].
Qed.

Lemma plain_keeps_name v : holds v.
Proof.
  induction v as [| b | z | r | s | l IH | l IH | kvs IH | y m d | bs]
    using pyval_ind;
    intros Hplain parent self self' Hrun; try discriminate.
  - injection Hrun as <-. apply keeps_name_refl.
  - rewrite recursive_parsing_list in Hrun. by eapply plain_list_loop_keeps_name.
  - rewrite recursive_parsing_tuple in Hrun. by eapply plain_list_loop_keeps_name.
  - rewrite recursive_parsing_dict in Hrun. by eapply plain_dict_loop_keeps_name.
  - injection Hrun as <-. apply keeps_name_refl.
Qed.

End Plain.

(** X12: a resource of a template whose first entry is a name of the
    form [prefix], of 37 characters, then the name of the pipeline, then
    a quote and a rest without a quote, and which holds no other such
    name: the traversal takes the name of the pipeline out of it (the
    text from position 37 to the last quote), holds it at the end, and
    every row it appends for the resource carries it. *)
Theorem X12_template_rows_carry_the_resource_name :
  forall prefix name rest entries parent_task_name self self',
    String.length prefix = 37%nat ->
    Str.contains "'" rest = false ->
    Str.contains v_type (resource_name prefix name rest) = true ->
    plain_names (PDict entries) = true ->
    recursive_parsing
      (PDict (("name", PStr (resource_name prefix name rest)) :: entries))
      parent_task_name self = Ok self' ->
    pipeline_name self' = name
    /\ exists rows,
         table_data self' = table_data self ++ rows
         /\ Forall (fun row_ : list pyval => row_ !! 0%nat = Some (PStr name)) rows.
Proof.
  intros prefix name rest entries parent self self' Hp Hrest Hv Hplain Hrun.
  rewrite recursive_parsing_dict in Hrun. cbn [template_dict_loop] in Hrun.
  change (String.eqb "name" "name") with true in Hrun. cbv iota in Hrun.
  rewrite Hv in Hrun. cbv zeta in Hrun.
  rewrite slice_resource_name in Hrun by done.
  eapply plain_dict_loop_keeps_name in Hrun as (Hn & rows & Hrows & Hall).
  - simpl in *. split; [done|]. by exists rows.
  - apply Forall_forall. intros kv _. apply plain_keeps_name.
  - exact Hplain.
Qed.

Lemma X12_template_rows_carry_the_resource_name_witness :
  pipeline_name (mkDocGen true "PL_A" [[PStr "PL_A"; PStr "A1"; PStr "Wait"; PStr ""; PStr ""]])
  = "PL_A"
  /\ exists rows,
       table_data
         (mkDocGen true "PL_A" [[PStr "PL_A"; PStr "A1"; PStr "Wait"; PStr ""; PStr ""]])
       = table_data init ++ rows
       /\ Forall (fun row_ : list pyval => row_ !! 0%nat = Some (PStr "PL_A")) rows.
Proof.
  apply (X12_template_rows_carry_the_resource_name
           "[concat(parameters('factoryName'), '/" "PL_A" ")]"
           [("type", PStr "Microsoft.DataFactory/factories/pipelines");
            ("properties",
             PDict [("activities",
                     PList [PDict [("name", PStr "A1"); ("type", PStr "Wait")]])])]
           "" init); vm_compute; reflexivity.
Defined.

(** ** The sheet of the report *)

Lemma rest_rows_formats :
  formats_as
    (Some (Main.get_rest_rows_formatting 1 (replicate (length Main.headers) (PStr ""))))
    (fun _ c => record_format 1 (length Main.headers) c).
Proof.
  intros r c. exists (record_formatter 1 (length Main.headers) c). split.
  - by rewrite convert_rest_rows_formatting.
  - apply record_formatter_format.
Qed.

(** A record whose type is a text is a list of five texts. *)
Lemma record_texts row_ :
  record_shape row_ -> typed_by_text row_ ->
  exists name task type details dependency,
    row_ = [PStr name; PStr task; PStr type; PStr details; PStr dependency].
Proof.
  intros (name & task & type & details & dependency & -> & _) [t Ht].
  injection Ht as ->. by exists name, task, t, details, dependency.
Qed.

(** The loop of the script over [table_data]. *)
Lemma write_records rows : forall self,
  Forall record_shape rows ->
  Forall typed_by_text rows ->
  writable self ->
  exists self',
    write_rows
      (Some (Main.get_rest_rows_formatting 1 (replicate (length Main.headers) (PStr ""))))
      rows self = Ok self'
    /\ _offset self' = _offset self + Z.of_nat (length rows)
    /\ written self' = written self ++ records_cells (_offset self) rows
    /\ writable self'.
Proof.
  induction rows as [|row_ rows IH]; intros self Hall Htext Hw.
  - exists self. simpl. rewrite app_nil_r, Z.add_0_r. done.
  - apply Forall_cons in Hall as [Hrow Hall].
    apply Forall_cons in Htext as [Htype Htext].
    destruct (record_texts _ Hrow Htype)
      as (name & task & type & details & dependency & ->).
    destruct (write_row_cells _ _ rest_rows_formats self
                [PStr name; PStr task; PStr type; PStr details; PStr dependency]
                None Hw)
      as (s1 & Hs1 & Ho1 & Hw1 & Hwr1).
    { repeat constructor. }
    cbn [start_row rows_written] in Hs1, Ho1, Hw1.
    destruct (IH s1 Hall Htext Hwr1) as (self' & Hrun & Ho' & Hw' & Hwr').
    exists self'. rewrite write_rows_cons, Hs1. cbn [mbind result_bind].
    split; [exact Hrun|]. split; [rewrite Ho', Ho1; simpl length; lia|].
    split; [|done].
    rewrite Hw', Hw1, Ho1, <- app_assoc. reflexivity.
Qed.

(** X13: the writing of the report raises nothing of its own when the
    type of every row of [table_data] is a text, so that the library
    takes every value.  Whenever the parsing of the document returns such
    rows, the script goes through: the calls of [write] it makes are the
    header row in row 0, each cell with the header format, then the rows
    of [table_data] in their order, row [k] of the table in row [k + 1]
    of the sheet, each entry in its column as it is and each cell with
    the format of its column; the cursor ends one past the last row. *)
Theorem X13_report_sheet :
  forall json_data exists_ temp_path doc_gen,
    Main.parse_document json_data = Ok doc_gen ->
    Forall typed_by_text (table_data doc_gen) ->
    exists xl_utility,
      Main.main json_data exists_ temp_path = Ok (doc_gen, xl_utility)
      /\ _offset xl_utility = 1 + Z.of_nat (length (table_data doc_gen))
      /\ written xl_utility = header_cells ++ records_cells 1 (table_data doc_gen).
Proof.
  intros json_data exists_ temp_path doc_gen Hparse Htext.
  pose proof (parse_document_shape _ _ Hparse) as (rows & Hrows & Hshape).
  simpl in Hrows. subst rows.
  assert (Hnew : exists xl0,
             create_new exists_ ExcelUtils.init temp_path [PList Main.headers] true "Sheet1"
               None (Some (Main.get_initial_row_formatting Main.headers)) = Ok (xl0, 1)
             /\ _offset xl0 = 1
             /\ written xl0 = header_cells
             /\ writable xl0).
  { destruct exists_; eexists; (split; [vm_compute; reflexivity|]);
      (split; [reflexivity|]); (split; [vm_compute; reflexivity|]);
      eexists _, _, 0%nat, _, _; repeat split. }
  destruct Hnew as (xl0 & Hnew & Ho & Hcells & Hw).
  destruct (write_records (table_data doc_gen) xl0 Hshape Htext Hw)
    as (xl & Hrun & Ho' & Hw' & _).
  exists xl. unfold Main.main. rewrite Hparse. cbn [mbind result_bind].
  rewrite write_report_steps, Hnew. cbn [mbind result_bind]. rewrite Hrun.
  cbn [mbind result_bind]. split; [done|]. split; [by rewrite Ho', Ho|].
  by rewrite Hw', Hcells, Ho.
Qed.

(** The sheet of the sample: the header row, then the three rows of the
    table in rows 1 to 3, and the cursor at row 4. *)
Lemma X13_report_sheet_witness :
  exists xl_utility,
    Main.main sample_document false "report.xlsx" = Ok (sample_table, xl_utility)
    /\ _offset xl_utility = 4
    /\ coords <$> written xl_utility
       = [(0, 0, PStr "Pipeline Name"); (0, 1, PStr "Task Name"); (0, 2, PStr "Type");
          (0, 3, PStr "Details"); (0, 4, PStr "Depency Task: Condition");
          (1, 0, PStr "PL1"); (1, 1, PStr "A1"); (1, 2, PStr "Lookup");
          (1, 3, PStr "sp_x ,    Parameters: p1: 5"); (1, 4, PStr "");
          (2, 0, PStr "PL1"); (2, 1, PStr "If1"); (2, 2, PStr "IfCondition");
          (2, 3, PStr ""); (2, 4, PStr "A1:Succeeded");
          (3, 0, PStr "PL1"); (3, 1, PStr "W"); (3, 2, PStr "Wait");
          (3, 3, PStr "Wait time in Seconds:  5"); (3, 4, PStr "If1")]
    /\ cell_format <$> written xl_utility
       = (header_format 5 <$> [0; 1; 2; 3; 4])
           ++ (record_format 1 5 <$> [0; 1; 2; 3; 4])
           ++ (record_format 1 5 <$> [0; 1; 2; 3; 4])
           ++ (record_format 1 5 <$> [0; 1; 2; 3; 4]).
Proof.
  destruct (X13_report_sheet sample_document false "report.xlsx" sample_table)
    as (xl_utility & Hrun & Ho & Hcells).
  - vm_compute. reflexivity.
  - repeat constructor; by eexists.
  - exists xl_utility. split; [exact Hrun|]. split; [exact Ho|].
    rewrite Hcells. split; vm_compute; reflexivity.
Defined.

(** ** The rows [get_rows] returns *)

Lemma read_rows_generator strptime filters datemode g sheet_rows :
  given filters = false ->
  for_each sheet_rows (read_row strptime filters None datemode) (RowGenerator g)
  = if all_empty sheet_rows then Ok (RowGenerator g) else Raise AttributeError.
Proof.
  intros Hg. induction sheet_rows as [|row_ sheet_rows IH]; [done|].
  cbn [for_each all_empty forallb]. rewrite read_row_at. cbn [default].
  rewrite row_error_none.
  unfold kept. rewrite (given_default _ Hg), matches_nil, andb_true_r.
  destruct row_ as [|cell_val row_]; cbn; [exact IH | reflexivity].
Qed.

(** X14: read without date columns, and unless the headers are asked for
    with no filter, [get_rows] returns a list: the rows of the sheet in
    their order, from the second row on (from the first one with
    [grab_headers]), that have a cell and whose cells equal the filters at
    their positions.  A filter past the end of a row and a cell past the
    end of the filters are not compared; a row without a cell is left
    out. *)
Theorem X14_get_rows_returns_the_rows_that_match :
  forall strptime self filters grab_headers datemode sheet_rows,
    current_rows self = Ok (datemode, sheet_rows) ->
    grab_headers = false \/ given filters = true ->
    get_rows strptime self filters grab_headers None
    = Ok (RowList (List.filter (kept filters) (rows_read grab_headers sheet_rows))).
Proof.
  intros sp self filters grab_headers datemode sheet_rows Hrows Hlist.
  rewrite (get_rows_list sp self filters grab_headers None datemode sheet_rows Hrows Hlist).
  apply rows_returned_no_dates.
Qed.

(** A sheet read with its header row and the filter list [["x", 1]]: the
    number 1 of the list equals the float 1.0 of the sheet; the rows
    returned are the two that agree with the list, the second of them
    shorter than the list. *)
Lemma X14_get_rows_returns_the_rows_that_match_witness :
  get_rows (fun _ _ => None)
    (reading 0 [[PStr "h1"; PStr "h2"]; [PStr "x"; PFloat "1.0"; PStr "more"]; [];
                [PStr "x"]; [PStr "y"; PFloat "1.0"]; [PStr "x"; PFloat "1.5"]])
    (Some [PStr "x"; PInt 1]) true None
  = Ok (RowList [[PStr "x"; PFloat "1.0"; PStr "more"]; [PStr "x"]]).
Proof.
  exact (X14_get_rows_returns_the_rows_that_match (fun _ _ => None)
           (reading 0 [[PStr "h1"; PStr "h2"]; [PStr "x"; PFloat "1.0"; PStr "more"]; [];
                       [PStr "x"]; [PStr "y"; PFloat "1.0"]; [PStr "x"; PFloat "1.5"]])
           (Some [PStr "x"; PInt 1]) true 0
           [[PStr "h1"; PStr "h2"]; [PStr "x"; PFloat "1.0"; PStr "more"]; [];
            [PStr "x"]; [PStr "y"; PFloat "1.0"]; [PStr "x"; PFloat "1.5"]]
           eq_refl (or_intror eq_refl)).
Defined.

(** X15: asked for the headers with no filter (and no date column),
    [get_rows] starts from the generator of the sheet and not from a
    list: it raises [AttributeError] as soon as a row has a cell, the
    generator having no [append], and returns the generator itself only
    when no row of the sheet has a cell. *)
Theorem X15_get_rows_with_headers_and_no_filter :
  forall strptime self filters datemode sheet_rows,
    current_rows self = Ok (datemode, sheet_rows) ->
    given filters = false ->
    get_rows strptime self filters true None
    = if all_empty sheet_rows then Ok (RowGenerator sheet_rows)
      else Raise AttributeError.
Proof.
  intros sp self filters datemode sheet_rows Hrows Hg.
  rewrite get_rows_loops, Hrows. cbn [mbind result_bind].
  rewrite Hg. cbn [negb andb]. change (rows_read true sheet_rows) with sheet_rows.
  by apply read_rows_generator.
Qed.

Lemma X15_get_rows_with_headers_and_no_filter_witness :
  get_rows (fun _ _ => None)
    (reading 0 [[PStr "h1"; PStr "h2"]; [PStr "x"; PStr "B"]]) None true None
  = if all_empty [[PStr "h1"; PStr "h2"]; [PStr "x"; PStr "B"]]
    then Ok (RowGenerator [[PStr "h1"; PStr "h2"]; [PStr "x"; PStr "B"]])
    else Raise AttributeError.
Proof.
  apply (X15_get_rows_with_headers_and_no_filter
           (fun _ _ => None)
           (reading 0 [[PStr "h1"; PStr "h2"]; [PStr "x"; PStr "B"]]) None 0);
    reflexivity.
Defined.

(** ** The cells of [create_new] *)

Lemma same_file_refl s : same_file s s.
Proof. by repeat split. Qed.

Lemma same_file_trans s1 s2 s3 : same_file s1 s2 -> same_file s2 s3 -> same_file s1 s3.
Proof. intros (? & ? & ? & ?) (? & ? & ? & ?). repeat split; congruence. Qed.

Lemma write_cell_same_file s r c v formatter s' :
  write_cell s r c v formatter = Ok s' -> same_file s s'.
Proof.
  unfold write_cell, same_file, workbook_file. intros H.
  destruct (workbook s) as [[file sheets|]|]; try discriminate.
  destruct (Formatter.set_format formatter add_format); simpl in H; try discriminate.
  destruct (current_sheet s) as [i|]; try discriminate.
  destruct (sheets !! i) as [[name cells]|]; try discriminate.
  by injection H as <-.
Qed.

Section Created.

Variable instructions : option Instructions.
Variable formats : Z -> Z -> Format.
Hypothesis Hformats : formats_as instructions formats.

Lemma row_loop_same_file r r0 items start s s' :
  for_each (enumerate_from start items) (cell_body instructions r r0) s = Ok s' ->
  same_file s s'.
Proof.
  apply for_each_invariant; [apply same_file_refl | apply same_file_trans|].
  intros [col_idx item] s1 s2 H. unfold cell_body in H.
  destruct (_convert_instructions_to_formats instructions r0 col_idx);
    simpl in H; try discriminate.
  by eapply write_cell_same_file.
Qed.

Lemma write_headers_cells separate_headers : forall start s,
  writable s ->
  exists s',
    for_each (enumerate_from start separate_headers)
      (fun '(idx, header) self =>
         formatter ← _convert_instructions_to_formats instructions 0 idx;
         write_cell self 0 idx header formatter) s = Ok s'
    /\ written s' = written s ++ cells_of_headers formats start separate_headers
    /\ _offset s' = _offset s
    /\ same_file s s'
    /\ writable s'.
Proof.
  induction separate_headers as [|header separate_headers IH]; intros start s Hw.
  - exists s. simpl. rewrite app_nil_r. by auto using same_file_refl.
  - destruct (Hformats 0 start) as (formatter & Hc & Hf).
    destruct (write_cell_written s 0 start header formatter _ Hw Hf)
      as (s1 & Hs1 & Hw1 & Ho1 & Hwr1).
    destruct (IH (start + 1) s1 Hwr1) as (s' & Hs' & Hw' & Ho' & Hsf' & Hwr').
    exists s'. cbn [enumerate_from for_each]. rewrite Hc. simpl.
    rewrite Hs1. simpl. rewrite Hs'. split; [reflexivity|].
    split; [|split; [congruence | split; [|done]]].
    + rewrite Hw', Hw1. unfold cells_of_headers. simpl. by rewrite <- app_assoc.
    + eapply same_file_trans; [by eapply write_cell_same_file | done].
Qed.

Lemma write_values_cells offset values : forall start s,
  writable s ->
  Forall row_taken values ->
  exists s',
    for_each (enumerate_from start values)
      (fun '(row_idx, row) self =>
         match row with
         | PList items | PTuple items =>
             for_each (enumerate items)
               (cell_body instructions (row_idx + offset) (row_idx + offset)) self
         | _ => Ok self
         end) s = Ok s'
    /\ written s' = written s ++ cells_of_values formats offset start values
    /\ _offset s' = _offset s
    /\ same_file s s'
    /\ writable s'.
Proof.
  induction values as [|row_ values IH]; intros start s Hw Hall.
  - exists s. simpl. rewrite app_nil_r. by auto using same_file_refl.
  - apply Forall_cons in Hall as [Htaken Hall].
    cbn [enumerate_from for_each cells_of_values].
    assert (Hrow : exists s1,
               match row_ with
               | PList items | PTuple items =>
                   for_each (enumerate items)
                     (cell_body instructions (start + offset) (start + offset)) s
               | _ => Ok s
               end = Ok s1
               /\ written s1
                  = written s
                      ++ match row_ with
                         | PList items | PTuple items =>
                             row_of_cells formats (start + offset) (start + offset) 0 items
                         | _ => []
                         end
               /\ _offset s1 = _offset s
               /\ same_file s s1
               /\ writable s1).
    { destruct row_ as [| b | z | r | name | l | l | kvs' | y m d | bs];
        try (exists s; rewrite app_nil_r; by auto using same_file_refl).
      - destruct (row_loop_cells instructions formats Hformats (start + offset)
                    (start + offset) l 0 s Hw Htaken) as (s1 & Hs1 & Hw1 & Ho1 & Hwr1).
        exists s1. unfold enumerate. split; [done|]. split; [done|]. split; [done|].
        split; [by eapply row_loop_same_file | done].
      - destruct (row_loop_cells instructions formats Hformats (start + offset)
                    (start + offset) l 0 s Hw Htaken) as (s1 & Hs1 & Hw1 & Ho1 & Hwr1).
        exists s1. unfold enumerate. split; [done|]. split; [done|]. split; [done|].
        split; [by eapply row_loop_same_file | done]. }
    destruct Hrow as (s1 & Hs1 & Hw1 & Ho1 & Hsf1 & Hwr1). rewrite Hs1.
    cbn [mbind result_bind].
    destruct (IH (start + 1) s1 Hwr1 Hall) as (s' & Hs' & Hw' & Ho' & Hsf' & Hwr').
    exists s'. split; [exact Hs'|].
    split; [by rewrite Hw', Hw1, <- app_assoc|].
    split; [congruence|]. split; [by eapply same_file_trans | done].
Qed.

(** The headers are written when the list of headers has an element. *)
Lemma write_headers_given separate_headers s :
  writable s ->
  exists s',
    (if headers_given separate_headers
     then write_headers instructions (default [] separate_headers) s
     else Ok s) = Ok s'
    /\ written s' = written s ++ cells_of_headers formats 0 (default [] separate_headers)
    /\ (if headers_given separate_headers then 1 else 0) = below_headers separate_headers
    /\ same_file s s'
    /\ writable s'.
Proof.
  intros Hw. destruct separate_headers as [[|header headers]|].
  - exists s. cbn. rewrite app_nil_r. by auto using same_file_refl.
  - destruct (write_headers_cells (header :: headers) 0 s Hw)
      as (s1 & Hs1 & Hw1 & _ & Hsf1 & Hwr1). by exists s1.
  - exists s. cbn. rewrite app_nil_r. by auto using same_file_refl.
Qed.

(** [create_new] from the opening of the sheet on. *)
Lemma create_new_written exists_ self path_ values overwrite sheet_name separate_headers s :
  Forall row_taken values ->
  exists_ && negb overwrite = false ->
  (self ← match current_sheet
                  match workbook self with
                  | None => mkExcelUtils (Some (XlsxWriter path_ [])) (current_sheet self)
                              (path_or_bytes_stream self) (_offset self) (Some path_)
                  | Some _ => self
                  end with
          | None =>
              add_worksheet
                match workbook self with
                | None => mkExcelUtils (Some (XlsxWriter path_ [])) (current_sheet self)
                            (path_or_bytes_stream self) (_offset self) (Some path_)
                | Some _ => self
                end sheet_name
          | Some _ =>
              Ok match workbook self with
                 | None => mkExcelUtils (Some (XlsxWriter path_ [])) (current_sheet self)
                             (path_or_bytes_stream self) (_offset self) (Some path_)
                 | Some _ => self
                 end
          end; Ok self) = Ok s ->
  writable s ->
  exists self',
    create_new exists_ self path_ values overwrite sheet_name separate_headers instructions
    = Ok (self', offset_created separate_headers values)
    /\ _offset self' = offset_created separate_headers values
    /\ written self' = written s ++ cells_created formats separate_headers values
    /\ workbook_file self' = workbook_file s
    /\ current_sheet self' = current_sheet s
    /\ path self' = path s
    /\ path_or_bytes_stream self' = Some path_.
Proof.
  intros Hall Hover Hopen Hw. unfold create_new. rewrite Hover.
  destruct (match current_sheet _ with None => _ | Some _ => _ end) as [s0|];
    cbn [mbind result_bind] in Hopen |- *; try discriminate.
  injection Hopen as ->.
  destruct (write_headers_given separate_headers s Hw)
    as (s1 & Hs1 & Hw1 & Hbelow & Hsf1 & Hwr1).
  rewrite Hs1, Hbelow. cbn [mbind result_bind].
  destruct (write_values_cells (below_headers separate_headers) values 0 s1 Hwr1 Hall)
    as (s2 & Hs2 & Hw2 & _ & Hsf2 & Hwr2).
  assert (Hs2' : write_values instructions values (below_headers separate_headers) s1
                 = Ok s2)
    by exact Hs2.
  rewrite Hs2'. cbn [mbind result_bind].
  assert (Hoff : last_row_idx (length values) + 1 + below_headers separate_headers
                 = offset_created separate_headers values).
  { unfold offset_created, last_row_idx. destruct (length values); lia. }
  rewrite Hoff. eexists. split; [reflexivity|]. split; [reflexivity|].
  destruct (same_file_trans _ _ _ Hsf1 Hsf2) as (Hf & Hc & Hp & _).
  split; [|by repeat split].
  change (written (set_offset (set_path_or_bytes_stream s2 path_) _)) with (written s2).
  rewrite Hw2, Hw1, <- app_assoc. reflexivity.
Qed.

End Created.

(** X16: on a writer with no workbook and no sheet (a new one, or one
    whose workbook was closed), unless the file exists and is not to be
    overwritten, with a name the library gives to a sheet, instructions
    that give a format at every coordinate and values the library takes,
    [create_new] opens a workbook at the path and writes to its new sheet
    the headers, as they are, to row 0, then row [i] of the values to row
    [i] below the headers when that row is a list or a tuple (its items
    as they are, a list, a tuple or bytes as [None]); any other row is
    passed over.  The offset returned, which is also the cursor left, is
    the number of rows of the values, but 1 when there is none, plus 1
    when there is a header. *)
Theorem X16_create_new_on_a_new_writer :
  forall instructions formats exists_ self path_ values overwrite sheet_name
         separate_headers,
    formats_as instructions formats ->
    workbook self = None ->
    current_sheet self = None ->
    exists_ && negb overwrite = false ->
    sheet_name_ok sheet_name = true ->
    headers_ok separate_headers ->
    Forall row_taken values ->
    exists self',
      create_new exists_ self path_ values overwrite sheet_name separate_headers
        instructions
      = Ok (self', offset_created separate_headers values)
      /\ _offset self' = offset_created separate_headers values
      /\ written self' = cells_created formats separate_headers values
      /\ workbook_file self' = Some path_
      /\ path self' = Some path_
      /\ path_or_bytes_stream self' = Some path_.
Proof.
  intros instructions formats exists_ self path_ values overwrite sheet_name
    separate_headers Hformats Hwb Hcs Hover _ _ Hall.
  destruct (create_new_written instructions formats Hformats exists_ self path_ values
              overwrite sheet_name separate_headers
              (mkExcelUtils (Some (XlsxWriter path_ [(sheet_name, [])])) (Some 0%nat)
                 (path_or_bytes_stream self) (_offset self) (Some path_)) Hall Hover)
    as (self' & Hrun & Ho & Hw & Hfile & Hsheet & Hpath & Hstream).
  { rewrite Hwb. simpl. rewrite Hcs. reflexivity. }
  { by exists path_, [(sheet_name, [])], 0%nat, sheet_name, []. }
  by exists self'.
Qed.

(** Two headers and three rows, the second of which is a dict: the
    headers go to row 0, the first row to row 1, the third to row 3, and
    the offset is 4. *)
Lemma X16_create_new_on_a_new_writer_witness :
  exists self',
    create_new true ExcelUtils.init "book.xlsx"
      [PList [PInt 1; PList []]; PDict []; PTuple [PStr "a"]] true "Sheet1"
      (Some [PStr "n"; PStr "d"]) None
    = Ok (self', 4)
    /\ _offset self' = 4
    /\ written self'
       = [mkCell 0 0 (PStr "n") add_format; mkCell 0 1 (PStr "d") add_format;
          mkCell 1 0 (PInt 1) add_format; mkCell 1 1 PNone add_format;
          mkCell 3 0 (PStr "a") add_format]
    /\ workbook_file self' = Some "book.xlsx"
    /\ path self' = Some "book.xlsx"
    /\ path_or_bytes_stream self' = Some "book.xlsx".
Proof.
  apply (X16_create_new_on_a_new_writer None (fun _ _ => add_format) true
           ExcelUtils.init "book.xlsx"
           [PList [PInt 1; PList []]; PDict []; PTuple [PStr "a"]] true "Sheet1"
           (Some [PStr "n"; PStr "d"])).
  - intros r c. exists Formatter.default. split; reflexivity.
  - reflexivity.
  - reflexivity.
  - reflexivity.
  - reflexivity.
  - repeat constructor.
  - repeat constructor.
Defined.

(** X17: on a writer whose workbook and sheet are open, [create_new]
    opens nothing: the cells of the call go to the sheet at hand, after
    the ones it holds, to the rows from 0 on again, and the workbook
    keeps the file it was opened with; only [path_or_bytes_stream] takes
    the path given.  This is for instructions that give a format at every
    coordinate and values the library takes, and unless the file exists
    and is not to be overwritten. *)
Theorem X17_create_new_on_an_open_writer :
  forall instructions formats exists_ self path_ values overwrite sheet_name
         separate_headers,
    formats_as instructions formats ->
    writable self ->
    exists_ && negb overwrite = false ->
    headers_ok separate_headers ->
    Forall row_taken values ->
    exists self',
      create_new exists_ self path_ values overwrite sheet_name separate_headers
        instructions
      = Ok (self', offset_created separate_headers values)
      /\ written self'
         = written self ++ cells_created formats separate_headers values
      /\ workbook_file self' = workbook_file self
      /\ current_sheet self' = current_sheet self
      /\ path self' = path self
      /\ path_or_bytes_stream self' = Some path_.
Proof.
  intros instructions formats exists_ self path_ values overwrite sheet_name
    separate_headers Hformats Hw Hover _ Hall.
  destruct (create_new_written instructions formats Hformats exists_ self path_ values
              overwrite sheet_name separate_headers self Hall Hover)
    as (self' & Hrun & Ho & Hwr & Hfile & Hsheet & Hpath & Hstream).
  { destruct Hw as (file & sheets & i & name & cells & Hwb & Hcs & _).
    rewrite Hwb. simpl. rewrite Hcs. reflexivity. }
  { exact Hw. }
  by exists self'.
Qed.

(** A second call on the writer of the first: the header "h" and the row
    [["x"]] go to rows 0 and 1 of the same sheet, after the cells it
    holds, and the workbook stays the one of "book.xlsx". *)
Lemma X17_create_new_on_an_open_writer_witness :
  exists self',
    create_new false
      (mkExcelUtils
         (Some (XlsxWriter "book.xlsx" [("Sheet1", [mkCell 0 0 (PStr "n") add_format])]))
         (Some 0%nat) (Some "book.xlsx") 1 (Some "book.xlsx"))
      "other.xlsx" [PList [PStr "x"]] false "Sheet9" (Some [PStr "h"]) None
    = Ok (self', 2)
    /\ written self'
       = [mkCell 0 0 (PStr "n") add_format; mkCell 0 0 (PStr "h") add_format;
          mkCell 1 0 (PStr "x") add_format]
    /\ workbook_file self' = Some "book.xlsx"
    /\ current_sheet self' = Some 0%nat
    /\ path self' = Some "book.xlsx"
    /\ path_or_bytes_stream self' = Some "other.xlsx".
Proof.
  apply (X17_create_new_on_an_open_writer None (fun _ _ => add_format) false
           (mkExcelUtils
              (Some (XlsxWriter "book.xlsx"
                       [("Sheet1", [mkCell 0 0 (PStr "n") add_format])]))
              (Some 0%nat) (Some "book.xlsx") 1 (Some "book.xlsx"))
           "other.xlsx" [PList [PStr "x"]] false "Sheet9" (Some [PStr "h"])).
  - intros r c. exists Formatter.default. split; reflexivity.
  - by eexists _, _, 0%nat, _, _.
  - reflexivity.
  - repeat constructor.
  - repeat constructor.
Defined.

(** ** The entries of [dependsOn] *)

Lemma join_py_texts sep texts : join_py sep (PList (PStr <$> texts)) = Ok (Str.join sep texts).
Proof.
  unfold join_py. simpl.
  assert (H : forall parts,
             for_each (PStr <$> texts)
               (fun x parts =>
                  match x with
                  | PStr s => Ok (parts ++ [s])
                  | _ => Raise TypeError
                  end) parts = Ok (parts ++ texts)).
  { induction texts as [|t texts IH]; intros parts; simpl.
    - by rewrite app_nil_r.
    - rewrite IH, <- app_assoc. reflexivity. }
  by rewrite H.
Qed.

Lemma parse_dependsOn_loop dependency_list :
  parse_dependsOn dependency_list
  = (if Py.truthy dependency_list then
       objs ← Py.iter dependency_list;
       parent_task_name ← for_each objs depends_body [];
       Ok (PStr (Str.join "," parent_task_name))
     else Ok PNone).
Proof. reflexivity. Qed.

Lemma depends_body_dependency activity conditions parent_task_name :
  depends_body (entry_value (Dependency activity conditions)) parent_task_name
  = Ok (parent_task_name ++ [activity +:+ ":" +:+ Str.join "," conditions]).
Proof.
  change (depends_body (entry_value (Dependency activity conditions)) parent_task_name)
    with (conditions ← join_py "," (PList (PStr <$> conditions));
          Ok (parent_task_name ++ [activity +:+ ":" +:+ conditions])).
  by rewrite join_py_texts.
Qed.

Lemma depends_loop entries : forall parent_task_name,
  Forall entry_ok entries ->
  for_each (entry_value <$> entries) depends_body parent_task_name
  = Ok (parent_task_name ++ omap entry_text entries).
Proof.
  intros parent Hall. revert parent.
  induction Hall as [|e entries He Hall IH]; intros parent.
  - simpl. by rewrite app_nil_r.
  - rewrite fmap_cons. cbn [for_each omap].
    destruct e as [activity conditions|v].
    + rewrite depends_body_dependency. cbn [mbind result_bind entry_text].
      rewrite IH, <- app_assoc. reflexivity.
    + cbn [entry_value entry_text]. simpl in He.
      destruct v; try discriminate; cbn [depends_body mbind result_bind]; apply IH.
Qed.

(** X18: for a [dependsOn] list that is not empty, [parse_dependsOn]
    returns the texts of its dependencies with commas between them, in
    the order of the list, each one the name of the activity, a colon and
    its conditions with commas between them; an entry that is no dict
    (a str, as in the [dependsOn] of a resource of a template) is passed
    over, so that a list without any dict gives the empty text. *)
Theorem X18_parse_dependsOn_text :
  forall entries,
    entries <> [] ->
    Forall entry_ok entries ->
    parse_dependsOn (PList (entry_value <$> entries))
    = Ok (PStr (Str.join "," (omap entry_text entries))).
Proof.
  intros entries Hne Hall. rewrite parse_dependsOn_loop.
  replace (Py.truthy (PList (entry_value <$> entries))) with true
    by (by destruct entries).
  cbn [Py.iter mbind result_bind]. by rewrite depends_loop.
Qed.

Lemma X18_parse_dependsOn_text_witness :
  parse_dependsOn
    (PList (entry_value <$> [Dependency "A1" ["Succeeded"; "Skipped"];
                             Other (PStr "[concat(variables('factoryId'), '/x')]");
                             Dependency "A2" ["Failed"]]))
  = Ok (PStr (Str.join ","
                (omap entry_text
                   [Dependency "A1" ["Succeeded"; "Skipped"];
                    Other (PStr "[concat(variables('factoryId'), '/x')]");
                    Dependency "A2" ["Failed"]]))).
Proof.
  apply (X18_parse_dependsOn_text
           [Dependency "A1" ["Succeeded"; "Skipped"];
            Other (PStr "[concat(variables('factoryId'), '/x')]");
            Dependency "A2" ["Failed"]]).
  - discriminate.
  - repeat constructor.
Defined.

(** ** The detail formatters *)

Lemma get_typeProperties kvs :
  Py.get (PDict kvs) "typeProperties" (PStr "")
  = Ok (Py.dict_get kvs "typeProperties" (PStr "")).
Proof. reflexivity. Qed.

(** X19: for an activity without [typeProperties] (or with an empty
    one), the formatters of Lookup, IfCondition, SqlServerStoredProcedure,
    Wait, Delete, ExecutePipeline and GetMetadata return [None], which
    gives the row empty details; the formatters of WebActivity and
    DatabricksNotebook raise [UnboundLocalError], their last line reading
    names that were never bound, and so does the recording of such an
    activity, which ends the traversal. *)
Theorem X19_formatters_without_typeProperties :
  forall kvs,
    Py.truthy (Py.dict_get kvs "typeProperties" (PStr "")) = false ->
    Forall (fun t => parse_task_details (PStr t) (PDict kvs) = Ok PNone)
      ["Lookup"; "IfCondition"; "SqlServerStoredProcedure"; "Wait"; "Delete";
       "ExecutePipeline"; "GetMetadata"]
    /\ Forall (fun t =>
                 parse_task_details (PStr t) (PDict kvs) = Raise UnboundLocalError
                 /\ forall name parent_task_name self,
                      Py.dict_get kvs "type" (PStr "") = PStr t ->
                      record_task kvs name parent_task_name self
                      = Raise UnboundLocalError)
         ["WebActivity"; "DatabricksNotebook"].
Proof.
  intros kvs Hno. split.
  - repeat constructor.
    + change (Parse.ParseLookup.parse (PDict kvs) = Ok PNone).
      unfold Parse.ParseLookup.parse. rewrite get_typeProperties.
      cbn [mbind result_bind]. by rewrite Hno.
    + change (Parse.ParseIfCondition.parse (PDict kvs) = Ok PNone).
      unfold Parse.ParseIfCondition.parse. rewrite get_typeProperties.
      cbn [mbind result_bind]. by rewrite Hno.
    + change (Parse.ParseSPROC.parse (PDict kvs) = Ok PNone).
      unfold Parse.ParseSPROC.parse. rewrite get_typeProperties.
      cbn [mbind result_bind]. by rewrite Hno.
    + change (Parse.ParseWaitActivity.parse (PDict kvs) = Ok PNone).
      unfold Parse.ParseWaitActivity.parse. rewrite get_typeProperties.
      cbn [mbind result_bind]. by rewrite Hno.
    + change (Parse.ParseDeleteActivity.parse (PDict kvs) = Ok PNone).
      unfold Parse.ParseDeleteActivity.parse. rewrite get_typeProperties.
      cbn [mbind result_bind]. by rewrite Hno.
    + change (Parse.ParseExecutePipeline.parse (PDict kvs) = Ok PNone).
      unfold Parse.ParseExecutePipeline.parse. rewrite get_typeProperties.
      cbn [mbind result_bind]. by rewrite Hno.
    + change (Parse.ParseGetMetadataActivity.parse (PDict kvs) = Ok PNone).
      unfold Parse.ParseGetMetadataActivity.parse. rewrite get_typeProperties.
      cbn [mbind result_bind]. by rewrite Hno.
  - assert (Hweb : parse_task_details (PStr "WebActivity") (PDict kvs)
                   = Raise UnboundLocalError).
    { change (Parse.ParseWebActivity.parse (PDict kvs) = Raise UnboundLocalError).
      unfold Parse.ParseWebActivity.parse. rewrite get_typeProperties.
      cbn [mbind result_bind]. by rewrite Hno. }
    assert (Hnb : parse_task_details (PStr "DatabricksNotebook") (PDict kvs)
                  = Raise UnboundLocalError).
    { change (Parse.ParseNotebookActivity.parse (PDict kvs) = Raise UnboundLocalError).
      unfold Parse.ParseNotebookActivity.parse. rewrite get_typeProperties.
      cbn [mbind result_bind]. by rewrite Hno. }
    repeat constructor; try done.
    + intros name parent self Htype. unfold record_task. rewrite Htype.
      change (any_in tasks (PStr "WebActivity")) with (Ok true : result bool).
      cbn [mbind result_bind]. by rewrite Hweb.
    + intros name parent self Htype. unfold record_task. rewrite Htype.
      change (any_in tasks (PStr "DatabricksNotebook")) with (Ok true : result bool).
      cbn [mbind result_bind]. by rewrite Hnb.
Qed.

Lemma X19_formatters_without_typeProperties_witness :
  Forall (fun t =>
            parse_task_details (PStr t)
              (PDict [("name", PStr "Call"); ("type", PStr "WebActivity")]) = Ok PNone)
    ["Lookup"; "IfCondition"; "SqlServerStoredProcedure"; "Wait"; "Delete";
     "ExecutePipeline"; "GetMetadata"]
  /\ Forall (fun t =>
               parse_task_details (PStr t)
                 (PDict [("name", PStr "Call"); ("type", PStr "WebActivity")])
               = Raise UnboundLocalError
               /\ forall name parent_task_name self,
                    Py.dict_get [("name", PStr "Call"); ("type", PStr "WebActivity")]
                      "type" (PStr "") = PStr t ->
                    record_task [("name", PStr "Call"); ("type", PStr "WebActivity")]
                      name parent_task_name self
                    = Raise UnboundLocalError)
       ["WebActivity"; "DatabricksNotebook"].
Proof.
  apply (X19_formatters_without_typeProperties
           [("name", PStr "Call"); ("type", PStr "WebActivity")]).
  reflexivity.
Defined.

Lemma stored_procedure_parameters_loop param_obj :
  Parse.stored_procedure_parameters param_obj
  = (params ← Py.iter param_obj; for_each params (parameter_body param_obj) []).
Proof. reflexivity. Qed.

Lemma assoc_app_fresh k pre (post : list (string * pyval)) :
  k ∉ pre.*1 -> Py.assoc k (pre ++ post) = Py.assoc k post.
Proof.
  induction pre as [|[k' v] pre IH]; intros Hk; [done|].
  rewrite fmap_cons in Hk. apply not_elem_of_cons in Hk as [Hne Hk].
  rewrite <- app_comm_cons, assoc_cons.
  destruct (String.eqb_spec k k') as [->|_]; [done | by apply IH].
Qed.

Lemma parameter_body_entry param_obj k e param_details :
  Parse.get_by param_obj (PStr k) = Ok e ->
  parameter_body param_obj (PStr k) param_details
  = if Py.is_dict e then Ok (param_details ++ [parameter_text (k, e)])
    else Raise AttributeError.
Proof.
  intros Hget. unfold parameter_body. rewrite Hget. cbn [mbind result_bind].
  destruct e as [| b | z | r | s | l | l | entry | y m d | bs]; try reflexivity.
  cbn [Py.get Py.is_dict mbind result_bind]. unfold parameter_text, Py.dict_get.
  cbn [fst snd]. do 4 f_equal.
  destruct (Py.assoc "value" entry) as [val|]; [|reflexivity].
  by destruct val.
Qed.

Lemma parameters_loop params :
  NoDup params.*1 ->
  forall items pre param_details,
    params = pre ++ items ->
    for_each ((fun kv : string * pyval => PStr kv.1) <$> items)
      (parameter_body (PDict params)) param_details
    = if parameters_are_dicts items
      then Ok (param_details ++ (parameter_text <$> items))
      else Raise AttributeError.
Proof.
  intros Hnodup items.
  induction items as [|[k e] items IH]; intros pre acc Hparams.
  - simpl. by rewrite app_nil_r.
  - rewrite fmap_cons. cbn [for_each parameters_are_dicts forallb].
    assert (Hget : Parse.get_by (PDict params) (PStr k) = Ok e).
    { unfold Parse.get_by, Py.dict_get. rewrite Hparams, assoc_app_fresh.
      - by rewrite assoc_cons, String.eqb_refl.
      - rewrite Hparams, fmap_app, fmap_cons in Hnodup.
        apply NoDup_app in Hnodup as (_ & Hdisj & _).
        intros Hin. apply (Hdisj _ Hin). by left. }
    cbn [fst snd]. rewrite (parameter_body_entry _ _ _ _ Hget).
    destruct (Py.is_dict e); [|reflexivity]. cbn [mbind result_bind andb].
    rewrite (IH (pre ++ [(k, e)])) by (by rewrite <- app_assoc).
    fold (parameters_are_dicts items).
    destruct (parameters_are_dicts items); [|reflexivity].
    rewrite <- app_assoc. reflexivity.
Qed.

(** X20: for an activity that calls a stored procedure, the details are
    the name of the procedure and its parameters in their order, with
    commas between them, each as its name, a colon and the text of its
    value (of the inner value, when the value is itself a dict).  A
    parameter that is not given as a dict makes the formatter raise
    [AttributeError]. *)
Theorem X20_stored_procedure_parameters :
  forall name params,
    NoDup params.*1 ->
    Parse.ParseSPROC.parse (sproc_activity name params)
    = if parameters_are_dicts params
      then Ok (PStr ("Stored procedure name " +:+ Repr.str name
                       +:+ " ,    Parameters: "
                       +:+ Str.join "," (parameter_text <$> params)))
      else Raise AttributeError.
Proof.
  intros name params Hnodup.
  change (Parse.ParseSPROC.parse (sproc_activity name params))
    with (param_details ← Parse.stored_procedure_parameters (PDict params);
          Ok (PStr ("Stored procedure name " +:+ Repr.str name
                      +:+ " ,    Parameters: " +:+ Str.join "," param_details))).
  rewrite stored_procedure_parameters_loop. cbn [Py.iter mbind result_bind].
  rewrite (parameters_loop params Hnodup params [] []) by done.
  by destruct (parameters_are_dicts params).
Qed.

(** A procedure with two parameters, the second one given by an
    expression: the text of the expression is its inner value. *)
Lemma X20_stored_procedure_parameters_witness :
  Parse.ParseSPROC.parse
    (sproc_activity (PStr "sp_load")
       [("day", PDict [("value", PInt 5); ("type", PStr "Int32")]);
        ("run", PDict [("value", PDict [("value", PStr "@pipeline().RunId");
                                        ("type", PStr "Expression")])]);
        ("tag", PDict [("type", PStr "String")])])
  = Ok (PStr "Stored procedure name sp_load ,    Parameters: day: 5,run: @pipeline().RunId,tag: None").
Proof.
  apply (X20_stored_procedure_parameters (PStr "sp_load")
           [("day", PDict [("value", PInt 5); ("type", PStr "Int32")]);
            ("run", PDict [("value", PDict [("value", PStr "@pipeline().RunId");
                                            ("type", PStr "Expression")])]);
            ("tag", PDict [("type", PStr "String")])]).
  apply (bool_decide_unpack _). vm_compute. exact I.
Defined.

Lemma string_app_nil_r (s : string) : s +:+ "" = s.
Proof.
  induction s as [|c s IH]; [done|].
  change (String c s +:+ "") with (String c (s +:+ "")). by rewrite IH.
Qed.

Lemma concat_empty_cons x (l : list string) :
  String.concat "" (x :: l) = x +:+ String.concat "" l.
Proof. destruct l as [|y l]; [by rewrite string_app_nil_r | reflexivity]. Qed.

Lemma concat_empty_app (a b : list string) :
  String.concat "" (a ++ b) = String.concat "" a +:+ String.concat "" b.
Proof.
  induction a as [|x a IH]; [done|].
  rewrite <- app_comm_cons, !concat_empty_cons, IH. by rewrite app_assoc_string.
Qed.

Lemma fields_loop fields : forall attr,
  for_each (PStr <$> fields)
    (fun i attr =>
       match i with
       | PStr s => Ok (s +:+ " , " +:+ attr)
       | _ => Raise TypeError
       end) attr
  = Ok (String.concat "" ((fun f => f +:+ " , ") <$> reverse fields) +:+ attr).
Proof.
  induction fields as [|f fields IH]; intros attr; [done|].
  rewrite fmap_cons. cbn [for_each mbind result_bind]. rewrite IH.
  rewrite reverse_cons, fmap_app, concat_empty_app.
  change (String.concat "" ((fun f0 : string => f0 +:+ " , ") <$> [f]))
    with (f +:+ " , ").
  by rewrite !app_assoc_string.
Qed.

(** X21: the details of a GetMetadata activity list the fields of
    [fieldList] in reverse order, each followed by a comma between
    spaces, the last one too: every field is put before the text built
    so far. *)
Theorem X21_metadata_fields_are_listed_in_reverse :
  forall dataset fields,
    Parse.ParseGetMetadataActivity.parse (metadata_activity dataset fields)
    = Ok (PStr ("Dataset name: " +:+ Repr.str dataset +:+ " " +:+ nl +:+ nl
                  +:+ " Metadata attributes: "
                  +:+ String.concat "" ((fun f => f +:+ " , ") <$> reverse fields))).
Proof.
  intros dataset fields.
  change (Parse.ParseGetMetadataActivity.parse (metadata_activity dataset fields))
    with (attr ← for_each (PStr <$> fields)
                   (fun i attr =>
                      match i with
                      | PStr s => Ok (s +:+ " , " +:+ attr)
                      | _ => Raise TypeError
                      end) "";
          Ok (PStr ("Dataset name: " +:+ Repr.str dataset +:+ " " +:+ nl +:+ nl
                      +:+ " Metadata attributes: " +:+ attr))).
  rewrite fields_loop. cbn [mbind result_bind]. by rewrite string_app_nil_r.
Qed.

(** ** The sheet [create_new_sheet] adds *)

Lemma only_current_trans s1 s2 s3 :
  only_current s1 s2 -> only_current s2 s3 -> only_current s1 s3.
Proof.
  intros (file & sheets & i & name & cells & cells2 & Hwb1 & Hcs1 & Hi & Hwb2 & Hcs2)
         (file' & sheets' & i' & name' & cells' & cells3 & Hwb2' & Hcs2' & Hi' & Hwb3 & Hcs3).
  rewrite Hwb2 in Hwb2'. injection Hwb2' as <- <-.
  rewrite Hcs2 in Hcs2'. injection Hcs2' as <-.
  assert (Hlt : (i < length sheets)%nat) by (eapply lookup_lt_Some; eauto).
  rewrite list_lookup_insert_eq in Hi' by done. injection Hi' as <- <-.
  exists file, sheets, i, name, cells, cells3.
  rewrite list_insert_insert_eq in Hwb3. done.
Qed.

Lemma write_cell_only_current s r c v formatter s' :
  write_cell s r c v formatter = Ok s' -> only_current s s'.
Proof.
  unfold write_cell. intros H.
  destruct (workbook s) as [[file sheets|]|] eqn:Hwb; try discriminate.
  destruct (Formatter.set_format formatter add_format) as [f|]; simpl in H;
    try discriminate.
  destruct (current_sheet s) as [i|] eqn:Hi; try discriminate.
  destruct (sheets !! i) as [[name cells]|] eqn:Hsh; try discriminate.
  injection H as <-.
  by exists file, sheets, i, name, cells, (cells ++ [mkCell r c v f]).
Qed.

Lemma only_current_refl s : writable s -> only_current s s.
Proof.
  intros (file & sheets & i & name & cells & Hwb & Hcs & Hi).
  exists file, sheets, i, name, cells, cells. by rewrite list_insert_id.
Qed.

(** A loop of calls of [write_cell] that makes a call. *)
Lemma for_each_only_current {A} (body : A -> ExcelUtils -> result ExcelUtils) xs :
  (forall x s s', body x s = Ok s' -> only_current s s') ->
  forall s s', writable s -> for_each xs body s = Ok s' -> only_current s s'.
Proof.
  intros Hbody. induction xs as [|x xs IH]; intros s s' Hw H; simpl in H.
  - injection H as <-. by apply only_current_refl.
  - destruct (body x s) as [s1|] eqn:Hx; simpl in H; try discriminate.
    pose proof (Hbody _ _ _ Hx) as H1.
    eapply only_current_trans; [exact H1|]. apply IH; [|done].
    destruct H1 as (file & sheets & i & name & cells & cells' & _ & _ & Hi & Hwb & Hcs).
    exists file, (<[i:=(name, cells')]> sheets), i, name, cells'.
    split; [done|]. split; [done|].
    apply list_lookup_insert_eq. by eapply lookup_lt_Some.
Qed.

Lemma cell_loop_only_current instructions r r0 items start s s' :
  writable s ->
  for_each (enumerate_from start items) (cell_body instructions r r0) s = Ok s' ->
  only_current s s'.
Proof.
  apply for_each_only_current. intros [col_idx item] s1 s2 H. unfold cell_body in H.
  destruct (_convert_instructions_to_formats instructions r0 col_idx);
    simpl in H; try discriminate.
  by eapply write_cell_only_current.
Qed.

Lemma write_headers_only_current instructions separate_headers s s' :
  writable s ->
  write_headers instructions separate_headers s = Ok s' -> only_current s s'.
Proof.
  apply for_each_only_current. intros [idx header] s1 s2 H.
  destruct (_convert_instructions_to_formats instructions 0 idx);
    simpl in H; try discriminate.
  by eapply write_cell_only_current.
Qed.

Lemma only_current_writable s s' : only_current s s' -> writable s'.
Proof.
  intros (file & sheets & i & name & cells & cells' & _ & _ & Hi & Hwb & Hcs).
  exists file, (<[i:=(name, cells')]> sheets), i, name, cells'.
  split; [done|]. split; [done|].
  apply list_lookup_insert_eq. by eapply lookup_lt_Some.
Qed.

Lemma write_values_only_current instructions values offset : forall start s s',
  writable s ->
  for_each (enumerate_from start values)
    (fun '(row_idx, row) self =>
       match row with
       | PList items | PTuple items =>
           for_each (enumerate items)
             (cell_body instructions (row_idx + offset) (row_idx + offset)) self
       | _ => Ok self
       end) s = Ok s' ->
  only_current s s'.
Proof.
  induction values as [|row_ values IH]; intros start s s' Hw H.
  - injection H as <-. by apply only_current_refl.
  - cbn [enumerate_from for_each] in H.
    assert (Hrow : forall s1,
               match row_ with
               | PList items | PTuple items =>
                   for_each (enumerate items)
                     (cell_body instructions (start + offset) (start + offset)) s
               | _ => Ok s
               end = Ok s1 -> only_current s s1).
    { intros s1 H1.
      destruct row_; try (injection H1 as <-; by apply only_current_refl);
        by eapply cell_loop_only_current. }
    destruct (match row_ with PList _ | PTuple _ => _ | _ => _ end) as [s1|];
      cbn [mbind result_bind] in H; try discriminate.
    specialize (Hrow s1 eq_refl).
    eapply only_current_trans; [exact Hrow|].
    eapply IH; [|exact H]. by eapply only_current_writable.
Qed.

(** X22: on a writer whose workbook is open, for a name the library
    gives to a sheet and that no sheet of the workbook has, with
    instructions that give a format at every coordinate and values the
    library takes, [create_new_sheet] adds a sheet of the given name
    after the sheets of the workbook, makes it the current one and writes
    to it what [create_new] writes to its sheet: the headers as they are
    to row 0, then the rows of the values that are lists or tuples below
    them.  The sheets the workbook had are left as they were, and the
    offset returned, which is the cursor left, is the number of rows of
    the values, but 1 when there is none, plus 1 when there is a
    header. *)
Theorem X22_create_new_sheet_adds_a_sheet :
  forall instructions formats self file sheets values separate_headers sheet_name,
    formats_as instructions formats ->
    workbook self = Some (XlsxWriter file sheets) ->
    sheet_name_ok sheet_name = true ->
    fresh_name sheet_name sheets ->
    headers_ok separate_headers ->
    Forall row_taken values ->
    exists self',
      create_new_sheet self values separate_headers sheet_name instructions
      = Ok (self', offset_created separate_headers values)
      /\ _offset self' = offset_created separate_headers values
      /\ workbook self'
         = Some (XlsxWriter file
                   (sheets ++ [(sheet_name,
                                cells_created formats separate_headers values)]))
      /\ current_sheet self' = Some (length sheets).
Proof.
  intros instructions formats self file sheets values separate_headers sheet_name
    Hformats Hwb _ _ _ Hall.
  unfold create_new_sheet, add_worksheet. rewrite Hwb. cbn [mbind result_bind].
  set (s := mkExcelUtils (Some (XlsxWriter file (sheets ++ [(sheet_name, [])])))
              (Some (length sheets)) (path_or_bytes_stream self) (_offset self)
              (path self)).
  assert (Hlast : (sheets ++ [(sheet_name, @nil Cell)]) !! length sheets
                  = Some (sheet_name, [])).
  { by rewrite list_lookup_middle. }
  assert (Hw : writable s).
  { by exists file, (sheets ++ [(sheet_name, [])]), (length sheets), sheet_name, []. }
  assert (Hnone : written s = []).
  { unfold written, s. simpl. by rewrite Hlast. }
  destruct (write_headers_given instructions formats Hformats separate_headers s Hw)
    as (s1 & Hs1 & Hw1 & Hbelow & _ & Hwr1).
  assert (Hoc1 : only_current s s1).
  { destruct separate_headers as [[|header headers]|];
      try (injection Hs1 as <-; by apply only_current_refl).
    exact (write_headers_only_current _ _ _ _ Hw Hs1). }
  rewrite Hs1, Hbelow. rewrite Hnone in Hw1. cbn [mbind result_bind].
  destruct (write_values_cells instructions formats Hformats
              (below_headers separate_headers) values 0 s1 Hwr1 Hall)
    as (s2 & Hs2 & Hw2 & _ & _ & Hwr2).
  pose proof (write_values_only_current _ _ _ _ _ _ Hwr1 Hs2) as Hoc2.
  assert (Hs2' : write_values instructions values (below_headers separate_headers) s1
                 = Ok s2)
    by exact Hs2.
  rewrite Hs2'. cbn [mbind result_bind].
  assert (Hoff : last_row_idx (length values) + 1 + below_headers separate_headers
                 = offset_created separate_headers values).
  { unfold offset_created, last_row_idx. destruct (length values); lia. }
  rewrite Hoff. eexists. split; [reflexivity|]. split; [reflexivity|].
  destruct (only_current_trans _ _ _ Hoc1 Hoc2)
    as (file' & sheets' & i & name & cells & cells' & Hwb0 & Hcs0 & Hi & Hwb2 & Hcs2).
  subst s. simpl in Hwb0, Hcs0. injection Hwb0 as <- <-. injection Hcs0 as <-.
  rewrite Hlast in Hi. injection Hi as <- <-.
  assert (Hcells : written s2 = cells').
  { unfold written. rewrite Hwb2, Hcs2.
    rewrite list_lookup_insert_eq; [done|]. rewrite length_app. simpl. lia. }
  rewrite Hw2, Hw1 in Hcells. simpl in Hcells.
  split; [|exact Hcs2].
  change (workbook (set_offset s2 _)) with (workbook s2). rewrite Hwb2.
  replace (length sheets) with (length sheets + 0)%nat at 1 by lia.
  rewrite insert_app_r. simpl. by rewrite <- Hcells.
Qed.

(** A second sheet for a workbook of one sheet: it comes after the
    first, with the header in row 0 and the row below it, and the offset
    is 2. *)
Lemma X22_create_new_sheet_adds_a_sheet_witness :
  exists self',
    create_new_sheet fresh_sheet [PList [PInt 1]] (Some [PStr "n"]) "Sheet2" None
    = Ok (self', 2)
    /\ _offset self' = 2
    /\ workbook self'
       = Some (XlsxWriter "report.xlsx"
                 [("Sheet1", []);
                  ("Sheet2", [mkCell 0 0 (PStr "n") add_format;
                              mkCell 1 0 (PInt 1) add_format])])
    /\ current_sheet self' = Some 1%nat.
Proof.
  apply (X22_create_new_sheet_adds_a_sheet None (fun _ _ => add_format) fresh_sheet
           "report.xlsx" [("Sheet1", [])] [PList [PInt 1]] (Some [PStr "n"]) "Sheet2").
  - intros r c. exists Formatter.default. split; reflexivity.
  - reflexivity.
  - reflexivity.
  - repeat constructor. discriminate.
  - repeat constructor.
  - repeat constructor.
Defined.

Lemma notebook_body_entry param_obj k e param_details :
  Parse.get_by param_obj (PStr k) = Ok e ->
  notebook_body param_obj (PStr k) param_details
  = if Py.is_dict e || Py.is_str e then Ok (param_details ++ [notebook_line (k, e)])
    else Raise TypeError.
Proof.
  intros Hget. unfold notebook_body. rewrite Hget. cbn [mbind result_bind].
  destruct e; try reflexivity.
  cbn [Py.str_add Py.is_dict Py.is_str orb mbind result_bind].
  unfold notebook_line. cbn [fst snd]. by rewrite app_assoc_string.
Qed.

Lemma notebook_loop params :
  NoDup params.*1 ->
  forall items pre param_details,
    params = pre ++ items ->
    for_each ((fun kv : string * pyval => PStr kv.1) <$> items)
      (notebook_body (PDict params)) param_details
    = if parameters_are_texts items
      then Ok (param_details ++ (notebook_line <$> items))
      else Raise TypeError.
Proof.
  intros Hnodup items.
  induction items as [|[k e] items IH]; intros pre acc Hparams.
  - simpl. by rewrite app_nil_r.
  - rewrite fmap_cons. cbn [for_each parameters_are_texts forallb].
    assert (Hget : Parse.get_by (PDict params) (PStr k) = Ok e).
    { unfold Parse.get_by, Py.dict_get. rewrite Hparams, assoc_app_fresh.
      - by rewrite assoc_cons, String.eqb_refl.
      - rewrite Hparams, fmap_app, fmap_cons in Hnodup.
        apply NoDup_app in Hnodup as (_ & Hdisj & _).
        intros Hin. apply (Hdisj _ Hin). by left. }
    cbn [fst snd]. rewrite (notebook_body_entry _ _ _ _ Hget).
    destruct (Py.is_dict e || Py.is_str e); [|reflexivity].
    cbn [mbind result_bind andb].
    rewrite (IH (pre ++ [(k, e)])) by (by rewrite <- app_assoc).
    fold (parameters_are_texts items).
    destruct (parameters_are_texts items); [|reflexivity].
    rewrite <- app_assoc. reflexivity.
Qed.

(** Putting every text before the text built so far lists the texts in
    reverse. *)
Lemma foldl_prepend sep (l : list string) : forall acc,
  foldl (fun acc i => i +:+ sep +:+ acc) acc l
  = String.concat "" ((fun i => i +:+ sep) <$> reverse l) +:+ acc.
Proof.
  induction l as [|i l IH]; intros acc; [done|].
  cbn [foldl]. rewrite IH, reverse_cons, fmap_app, concat_empty_app.
  change (String.concat "" ((fun i0 : string => i0 +:+ sep) <$> [i])) with (i +:+ sep).
  by rewrite !app_assoc_string.
Qed.

(** X23: for a notebook activity whose base parameters have distinct
    names, the details list the parameters in reverse order, each as its
    name, a colon between spaces and its value, followed by a comma and
    a line feed, the last one too; the value is taken as it is when it is
    a str, and is the text of the inner value when it is a dict.  A base
    parameter of any other kind (a number, a bool, [None]) makes the
    formatter raise [TypeError]. *)
Theorem X23_notebook_parameters :
  forall notebook_path params,
    NoDup params.*1 ->
    Parse.ParseNotebookActivity.parse (notebook_activity notebook_path params)
    = if parameters_are_texts params
      then Ok (PStr ("Notebook path: " +:+ Repr.str notebook_path +:+ " " +:+ nl +:+ nl
                       +:+ " Paramerters: "
                       +:+ String.concat ""
                             ((fun kv => notebook_line kv +:+ "," +:+ nl)
                                <$> reverse params)))
      else Raise TypeError.
Proof.
  intros notebook_path params Hnodup.
  change (Parse.ParseNotebookActivity.parse (notebook_activity notebook_path params))
    with (param_details ← for_each ((fun kv : string * pyval => PStr kv.1) <$> params)
                            (notebook_body (PDict params)) [];
          Ok (PStr ("Notebook path: " +:+ Repr.str notebook_path +:+ " " +:+ nl +:+ nl
                      +:+ " Paramerters: "
                      +:+ foldl (fun param i => i +:+ "," +:+ nl +:+ param) ""
                            param_details))).
  rewrite (notebook_loop params Hnodup params [] []) by done.
  destruct (parameters_are_texts params); [|reflexivity].
  cbn [mbind result_bind app].
  assert (Hfold : forall l : list string,
             foldl (fun param i => i +:+ "," +:+ nl +:+ param) "" l
             = String.concat "" ((fun i => i +:+ "," +:+ nl) <$> reverse l)).
  { intros l.
    change (foldl (fun param i => i +:+ "," +:+ nl +:+ param) "" l)
      with (foldl (fun param i => i +:+ ("," +:+ nl) +:+ param) "" l).
    rewrite (foldl_prepend ("," +:+ nl)). by rewrite string_app_nil_r. }
  rewrite Hfold, <- fmap_reverse, <- list_fmap_compose. reflexivity.
Qed.

Lemma X23_notebook_parameters_witness :
  Parse.ParseNotebookActivity.parse
    (notebook_activity (PStr "/jobs/load")
       [("env", PStr "prod");
        ("day", PDict [("value", PStr "@pipeline().parameters.day");
                       ("type", PStr "Expression")])])
  = if parameters_are_texts
         [("env", PStr "prod");
          ("day", PDict [("value", PStr "@pipeline().parameters.day");
                         ("type", PStr "Expression")])]
    then Ok (PStr ("Notebook path: " +:+ Repr.str (PStr "/jobs/load") +:+ " " +:+ nl +:+ nl
                     +:+ " Paramerters: "
                     +:+ String.concat ""
                           ((fun kv => notebook_line kv +:+ "," +:+ nl)
                              <$> reverse
                                    [("env", PStr "prod");
                                     ("day",
                                      PDict [("value", PStr "@pipeline().parameters.day");
                                             ("type", PStr "Expression")])])))
    else Raise TypeError.
Proof.
  apply (X23_notebook_parameters (PStr "/jobs/load")
           [("env", PStr "prod");
            ("day", PDict [("value", PStr "@pipeline().parameters.day");
                           ("type", PStr "Expression")])]).
  apply (bool_decide_unpack _). vm_compute. exact I.
Defined.

Lemma copy_activity_parse input output source_type file folder :
  exists fallback,
    Parse.ParseCopyActivity.parse (copy_activity input output source_type file folder)
    = if negb (Py.eq_str (PStr source_type) "SqlDWSink")
      then if Py.truthy (PStr file)
           then Parse.ParseCopyActivity.text (PStr <$> input) (PStr <$> output)
                  (PStr file) (PStr folder)
           else fallback
      else fallback.
Proof. destruct input, output; eexists; reflexivity. Qed.

(** X24: for a copy activity whose source is not of type [SqlDWSink] and
    reads files by a wildcard name, the details name the input dataset,
    the output dataset, the file name and the folder; when the activity
    has no [inputs] or no [outputs], the formatter raises
    [UnboundLocalError], the name of the dataset never being bound. *)
Theorem X24_copy_from_files :
  forall input output source_type file folder,
    source_type <> "SqlDWSink" ->
    file <> "" ->
    Parse.ParseCopyActivity.parse (copy_activity input output source_type file folder)
    = match input, output with
      | Some i, Some o =>
          Ok (PStr ("Input DataSet : " +:+ i +:+ " " +:+ nl
                      +:+ "Output DataSet : " +:+ o +:+ nl
                      +:+ " File name : " +:+ file +:+ nl
                      +:+ "Folder Name or Path:" +:+ folder))
      | _, _ => Raise UnboundLocalError
      end.
Proof.
  intros input output source_type file folder Htype Hfile.
  apply String.eqb_neq in Htype. apply String.eqb_neq in Hfile.
  destruct (copy_activity_parse input output source_type file folder) as (fallback & ->).
  cbn [Py.eq_str Py.truthy]. rewrite Htype, Hfile. cbn [negb].
  by destruct input, output.
Qed.

Lemma X24_copy_from_files_witness :
  Parse.ParseCopyActivity.parse
    (copy_activity (Some "ds_in") None "DelimitedTextSource" "*.csv" "landing")
  = Raise UnboundLocalError.
Proof.
  apply (X24_copy_from_files (Some "ds_in") None "DelimitedTextSource" "*.csv" "landing");
    discriminate.
Defined.

(** ** Names with underscores *)

Lemma prefix_char a c s :
  String.prefix (String a "") (String c s) = bool_decide (c = a).
Proof.
  change (String.prefix (String a "") (String c s))
    with (match ascii_dec a c with
          | Specif.left _ => String.prefix "" s
          | Specif.right _ => false
          end).
  destruct (ascii_dec a c) as [<-|Hne].
  - rewrite bool_decide_eq_true_2 by done. by destruct s.
  - rewrite bool_decide_eq_false_2; [done | congruence].
Qed.

Lemma split_underscore_cons c s piece :
  Str.split_from "_" 0 piece (String c s)
  = if bool_decide (c = "_"%char) then piece :: Str.split_from "_" 0 "" s
    else Str.split_from "_" 0 (piece +:+ String c "") s.
Proof.
  change (Str.split_from "_" 0 piece (String c s))
    with (if String.prefix "_" (String c s)
          then piece :: Str.split_from "_" 0 "" s
          else Str.split_from "_" 0 (piece +:+ String c "") s).
  by rewrite prefix_char.
Qed.

Lemma contains_underscore_cons c s :
  Str.contains "_" (String c s) = bool_decide (c = "_"%char) || Str.contains "_" s.
Proof.
  change (Str.contains "_" (String c s))
    with (String.prefix "_" (String c s) || Str.contains "_" s).
  by rewrite prefix_char.
Qed.

Lemma contains_two_underscores_cons c s :
  Str.contains "__" (String c s)
  = (bool_decide (c = "_"%char) && String.prefix "_" s) || Str.contains "__" s.
Proof.
  change (Str.contains "__" (String c s))
    with (String.prefix "__" (String c s) || Str.contains "__" s).
  f_equal.
  change (String.prefix "__" (String c s))
    with (match ascii_dec "_" c with
          | Specif.left _ => String.prefix "_" s
          | Specif.right _ => false
          end).
  destruct (ascii_dec "_" c) as [<-|Hne].
  - by rewrite bool_decide_eq_true_2.
  - rewrite bool_decide_eq_false_2; [done | congruence].
Qed.

Lemma string_app_empty (a b : string) : a +:+ b = "" -> a = "" /\ b = "".
Proof. by destruct a. Qed.

(** The words of a name hold an empty one exactly when the name starts
    with an underscore after an empty piece, ends with one, or has two in
    a row. *)
Lemma split_has_empty s : forall piece,
  bool_decide ("" ∈ Str.split_from "_" 0 piece s)
  = (String.eqb piece "" && (String.eqb s "" || String.prefix "_" s))
    || ends_with_underscore s || Str.contains "__" s.
Proof.
  induction s as [|c s IH]; intros piece.
  - cbn [Str.split_from]. simpl. rewrite !orb_false_r, andb_true_r.
    destruct (String.eqb_spec piece "") as [->|Hne].
    + apply bool_decide_eq_true_2. by left.
    + apply bool_decide_eq_false_2. intros [H|H]%elem_of_cons; [done|].
      by apply elem_of_nil in H.
  - rewrite split_underscore_cons, contains_two_underscores_cons, prefix_char.
    change (String.eqb (String c s) "") with false. rewrite orb_false_l.
    assert (Hends : ends_with_underscore (String c s)
                    = (bool_decide (c = "_"%char) && String.eqb s "")
                      || ends_with_underscore s).
    { destruct s as [|d s].
      - simpl. rewrite orb_false_r, andb_true_r.
        destruct (Ascii.eqb_spec c "_") as [->|Hne].
        + by rewrite bool_decide_eq_true_2.
        + by rewrite bool_decide_eq_false_2.
      - change (String.eqb (String d s) "") with false.
        by rewrite andb_false_r. }
    rewrite Hends. case_bool_decide as Hc.
    + assert (Hcons : bool_decide ("" ∈ piece :: Str.split_from "_" 0 "" s)
                      = String.eqb piece "" || bool_decide ("" ∈ Str.split_from "_" 0 "" s)).
      { destruct (String.eqb_spec piece "") as [->|Hne].
        - apply bool_decide_eq_true_2. by left.
        - simpl. apply bool_decide_ext. rewrite elem_of_cons.
          split; [|by right]. intros [Heq|Hin]; [by subst | done]. }
      rewrite Hcons, IH. simpl.
      destruct (String.eqb piece ""), (String.eqb s ""), (String.prefix "_" s),
        (ends_with_underscore s), (Str.contains "__" s); reflexivity.
    + rewrite IH.
      replace (String.eqb (piece +:+ String c "") "") with false.
      * simpl. by rewrite andb_false_r.
      * symmetry. apply String.eqb_neq. intros H%string_app_empty. by destruct H.
Qed.

Lemma capitalize_None word : DBUtility.capitalize word = None <-> word = "".
Proof.
  unfold DBUtility.capitalize. destruct word as [|c [|d rest]]; simpl; split; done.
Qed.

Lemma capitalize_words_None x :
  DBUtility.capitalize_words x = None <-> "" ∈ x.
Proof.
  induction x as [|word x IH]; simpl.
  - split; [done | by intros H%elem_of_nil].
  - rewrite elem_of_cons.
    destruct (DBUtility.capitalize word) as [word'|] eqn:Hw.
    + assert (Hne : word <> "").
      { intros ->. discriminate Hw. }
      destruct (DBUtility.capitalize_words x) as [x'|].
      * split; [done|]. intros [H|H]; [done|]. by apply IH in H.
      * split; [|done]. intros _. right. by apply IH.
    + apply capitalize_None in Hw as ->. split; [by left | done].
Qed.

(** X25: for a name of characters below 128 that is not blank,
    [convert_to_human_name] raises [IndexError] exactly when one of the
    words between the underscores is empty, that is when the name, once
    stripped and its [remove] text taken out, is empty, starts or ends
    with an underscore, or has two underscores in a row: the first
    character of an empty word is asked for.  Otherwise it returns a
    name. *)
Theorem X25_empty_word_raises_IndexError :
  forall name remove,
    Str.is_ascii name = true ->
    Str.is_ascii (default "" remove) = true ->
    Str.strip name <> "" ->
    (DBUtility.convert_to_human_name (Some name) remove
     = DBUtility.Raises DBUtility.IndexError
     <-> has_empty_word (cleaned name remove) = true)
    /\ (has_empty_word (cleaned name remove) = false ->
        exists s, DBUtility.convert_to_human_name (Some name) remove = DBUtility.Name s).
Proof.
  intros name remove _ _ Hname. apply String.eqb_neq in Hname.
  unfold DBUtility.convert_to_human_name. cbv zeta. rewrite Hname.
  fold (cleaned name remove).
  assert (Hsplit : has_empty_word (cleaned name remove)
                   = bool_decide ("" ∈ Str.split "_" (cleaned name remove))).
  { unfold Str.split. rewrite split_has_empty. unfold has_empty_word. reflexivity. }
  rewrite Hsplit.
  destruct (DBUtility.capitalize_words (Str.split "_" (cleaned name remove)))
    as [x|] eqn:Hwords.
  - assert (Hnot : "" ∉ Str.split "_" (cleaned name remove)).
    { intros Hin. apply capitalize_words_None in Hin. congruence. }
    rewrite bool_decide_eq_false_2 by done. split; [split; discriminate|]. eauto.
  - apply capitalize_words_None in Hwords.
    rewrite bool_decide_eq_true_2 by done. split; [done | discriminate].
Qed.

Lemma X25_empty_word_raises_IndexError_witness :
  (DBUtility.convert_to_human_name (Some "zprod_wbs_person") (Some "zprod")
   = DBUtility.Raises DBUtility.IndexError
   <-> has_empty_word (cleaned "zprod_wbs_person" (Some "zprod")) = true)
  /\ (has_empty_word (cleaned "zprod_wbs_person" (Some "zprod")) = false ->
      exists s,
        DBUtility.convert_to_human_name (Some "zprod_wbs_person") (Some "zprod")
        = DBUtility.Name s).
Proof.
  apply (X25_empty_word_raises_IndexError "zprod_wbs_person" (Some "zprod")).
  - reflexivity.
  - reflexivity.
  - discriminate.
Defined.

Lemma split_word w : forall piece,
  Str.contains "_" w = false ->
  Str.split_from "_" 0 piece w = [piece +:+ w]
  /\ forall rest,
       Str.split_from "_" 0 piece (w +:+ "_" +:+ rest)
       = (piece +:+ w) :: Str.split_from "_" 0 "" rest.
Proof.
  induction w as [|c w IH]; intros piece Hw.
  - rewrite string_app_nil_r. split; [reflexivity|]. intros rest.
    change ("" +:+ "_" +:+ rest) with (String "_"%char rest).
    by rewrite split_underscore_cons, bool_decide_eq_true_2.
  - rewrite contains_underscore_cons in Hw. apply orb_false_elim in Hw as [Hc Hw].
    destruct (IH (piece +:+ String c "") Hw) as [Hone Hmore].
    assert (Happ : (piece +:+ String c "") +:+ w = piece +:+ String c w)
      by (by rewrite app_assoc_string).
    split.
    + by rewrite split_underscore_cons, Hc, Hone, Happ.
    + intros rest. change (String c w +:+ "_" +:+ rest) with (String c (w +:+ "_" +:+ rest)).
      by rewrite split_underscore_cons, Hc, Hmore, Happ.
Qed.

(** Cutting at the underscores the words joined by underscores gives
    the words back. *)
Lemma split_join words :
  words <> [] ->
  Forall is_word words ->
  Str.split "_" (Str.join "_" words) = words.
Proof.
  intros Hne Hall. unfold Str.split, Str.join.
  induction Hall as [|w words [_ Hw] Hall IH]; [done|].
  destruct words as [|w' words].
  - change (String.concat "_" [w]) with w.
    by destruct (split_word w "" Hw) as [-> _].
  - change (String.concat "_" (w :: w' :: words))
      with (w +:+ "_" +:+ String.concat "_" (w' :: words)).
    destruct (split_word w "" Hw) as [_ ->]. by rewrite IH.
Qed.

Lemma capitalize_word word :
  word <> "" -> DBUtility.capitalize word = Some (capitalized word).
Proof. by destruct word as [|c [|d rest]]. Qed.

Lemma capitalize_words_all words :
  Forall is_word words ->
  DBUtility.capitalize_words words = Some (capitalized <$> words).
Proof.
  induction 1 as [|w words [Hw _] Hall IH]; [done|].
  cbn [DBUtility.capitalize_words]. by rewrite capitalize_word, IH.
Qed.

(** X26: a name made of words joined by underscores, each word with a
    character and without an underscore, and with no space around it,
    becomes the words joined by spaces, each with its first character in
    upper case and the rest as it was: the characters after the first
    one are not lowered. *)
Theorem X26_words_are_capitalized :
  forall words,
    words <> [] ->
    Forall is_word words ->
    Str.is_ascii (Str.join "_" words) = true ->
    Str.strip (Str.join "_" words) = Str.join "_" words ->
    DBUtility.convert_to_human_name (Some (Str.join "_" words)) None
    = DBUtility.Name (Str.join " " (capitalized <$> words)).
Proof.
  intros words Hne Hall _ Hstrip.
  unfold DBUtility.convert_to_human_name. cbv zeta. rewrite Hstrip.
  assert (Hname : String.eqb (Str.join "_" words) "" = false).
  { apply String.eqb_neq. destruct Hall as [|w words [Hw _] Hall]; [done|].
    unfold Str.join. destruct w as [|c w]; [done|]. by destruct words. }
  rewrite Hname. cbn [DBUtility.without].
  by rewrite split_join, capitalize_words_all.
Qed.

Lemma X26_words_are_capitalized_witness :
  DBUtility.convert_to_human_name (Some (Str.join "_" ["wbs"; "person"; "iD"; "x"])) None
  = DBUtility.Name (Str.join " " (capitalized <$> ["wbs"; "person"; "iD"; "x"])).
Proof.
  apply (X26_words_are_capitalized ["wbs"; "person"; "iD"; "x"]).
  - discriminate.
  - repeat constructor; discriminate.
  - reflexivity.
  - reflexivity.
Defined.

Lemma lookup_activity_parse source :
  source <> [] ->
  Parse.ParseLookup.parse (lookup_activity source)
  = (param_details ← Parse.stored_procedure_parameters
                       (Py.dict_get source "storedProcedureParameters" (PStr ""));
     Ok (PStr (Repr.str (Py.dict_get source "sqlReaderStoredProcedureName" (PStr ""))
                 +:+ " ,    Parameters: " +:+ Str.join "," param_details))).
Proof. by destruct source. Qed.

(** X27: the details of a lookup are the name of the stored procedure
    its source reads by, then the parameters as for a stored procedure
    activity.  A lookup whose source names no stored procedure and no
    parameters, one that reads by a query, gets the details
    [ ,    Parameters: ], with nothing before the comma and nothing after
    the colon. *)
Theorem X27_lookup_details :
  (forall source,
     source <> [] ->
     Py.assoc "sqlReaderStoredProcedureName" source = None ->
     Py.assoc "storedProcedureParameters" source = None ->
     Parse.ParseLookup.parse (lookup_activity source)
     = Ok (PStr " ,    Parameters: "))
  /\ (forall name params,
        NoDup params.*1 ->
        Parse.ParseLookup.parse (lookup_activity (procedure_source name params))
        = if parameters_are_dicts params
          then Ok (PStr (Repr.str name +:+ " ,    Parameters: "
                           +:+ Str.join "," (parameter_text <$> params)))
          else Raise AttributeError).
Proof.
  split.
  - intros source Hne Hname Hparams. rewrite lookup_activity_parse by done.
    unfold Py.dict_get. rewrite Hname, Hparams. reflexivity.
  - intros name params Hnodup. rewrite lookup_activity_parse by done.
    change (Py.dict_get (procedure_source name params) "storedProcedureParameters"
              (PStr "")) with (PDict params).
    change (Py.dict_get (procedure_source name params) "sqlReaderStoredProcedureName"
              (PStr "")) with name.
    rewrite stored_procedure_parameters_loop. cbn [Py.iter mbind result_bind].
    rewrite (parameters_loop params Hnodup params [] []) by done.
    by destruct (parameters_are_dicts params).
Qed.

(** A lookup that reads by a query, and one that reads by a stored
    procedure with one parameter. *)
Lemma X27_lookup_details_witness :
  Parse.ParseLookup.parse
    (lookup_activity [("type", PStr "AzureSqlSource");
                      ("sqlReaderQuery", PStr "select max(day) from runs")])
  = Ok (PStr " ,    Parameters: ")
  /\ Parse.ParseLookup.parse
       (lookup_activity
          (procedure_source (PStr "sp_last_run")
             [("job", PDict [("value", PStr "load"); ("type", PStr "String")]);
              ("day", PDict [("value", PDict [("value", PInt 7)])])]))
     = Ok (PStr "sp_last_run ,    Parameters: job: load,day: 7").
Proof.
  split.
  - apply (proj1 X27_lookup_details); [discriminate | reflexivity | reflexivity].
  - apply (proj2 X27_lookup_details (PStr "sp_last_run")
             [("job", PDict [("value", PStr "load"); ("type", PStr "String")]);
              ("day", PDict [("value", PDict [("value", PInt 7)])])]).
    apply (bool_decide_unpack _). vm_compute. exact I.
Defined.
